(** * Managed-notifications search: ingestion and query reconstruction

    A shallow embedding of [scripts/build_embeddings.py] and [main.py].
    Python values are modelled by the type [pyval]; exceptions by an
    error monad [result]; [set] by stdpp's [gset]; the external
    collaborators (the [json] module's reader and writer, the embedding
    model, the vector store, [repr] of floats and of strings) are the
    variables of the sections below. *)

From Stdlib Require Import Floats Ascii String.
From stdpp Require Import base list strings gmap sorting pretty.
From Equations Require Import Equations.
From Equations.Prop Require Import Logic.

Local Open Scope string_scope.
Local Open Scope list_scope.

(** ** Python values and exceptions *)

Module Py.

(** The values [json.load] produces and the store keeps as metadata.
    A [str] is a [string] whose characters stand for the code points
    below 256. A [dict] keeps its insertion order, so it is an
    association list; the first binding of a key is the one looked up. *)
#[warnings="-register-all"]
Inductive pyval : Type :=
| PNone
| PBool (b : bool)
| PInt (z : Z)
| PFloat (f : float)
| PStr (s : string)
| PList (l : list pyval)
| PDict (d : list (string * pyval)).

(** The classes of the exceptions that occur; [BackendError] stands for
    whatever the embedding model or the store raises. *)
Inductive exn_class : Set :=
| JSONDecodeError | FileNotFoundError | PermissionError | UnicodeDecodeError
| IsADirectoryError | TypeError | AttributeError | KeyError | IndexError | RuntimeError
| BackendError.

Record exn : Set := Exn { exn_cls : exn_class; exn_msg : string }.

Inductive result (A : Type) : Type :=
| Ok (a : A)
| Raise (e : exn).
Arguments Ok {A} a.
Arguments Raise {A} e.

(** Sequencing: an exception ends the computation. With these instances
    [x ← m; k] is stdpp's notation for it. *)
#[global] Instance result_ret : MRet result := fun A a => Ok a.
#[global] Instance result_bind : MBind result := fun A B k m =>
  match m with
  | Ok a => k a
  | Raise e => Raise e
  end.

(** Statements that run on a state and may raise: the state is as the
    statements before the exception left it. *)
Definition stateful (State A : Type) : Type := State -> result A * State.

#[global] Instance stateful_ret State : MRet (stateful State) := fun A a st => (Ok a, st).
#[global] Instance stateful_bind State : MBind (stateful State) := fun A B k m st =>
  match m st with
  | (Ok a, st') => k a st'
  | (Raise e, st') => (Raise e, st')
  end.

(** A computation that does not touch the state. *)
Definition lift {State A} (r : result A) : stateful State A := fun st => (r, st).

Definition is_ok {A} (m : result A) : bool :=
  match m with Ok _ => true | Raise _ => false end.

(** [d[k]] and [k in d] on the association list. *)
Fixpoint dict_lookup (k : string) (d : list (string * pyval)) : option pyval :=
  match d with
  | [] => None
  | (k', v) :: d' => if String.eqb k k' then Some v else dict_lookup k d'
  end.

(** [d.get(k, default)] *)
Definition dict_get (d : list (string * pyval)) (k : string) (default : pyval) : pyval :=
  match dict_lookup k d with
  | Some v => v
  | None => default
  end.

(** Truth value testing: [None], [False], zero, and empty containers are false. *)
Definition truthy (v : pyval) : bool :=
  match v with
  | PNone => false
  | PBool b => b
  | PInt z => negb (Z.eqb z 0)
  | PFloat f => negb (PrimFloat.eqb f 0%float)
  | PStr s => negb (String.eqb s "")
  | PList l => match l with [] => false | _ => true end
  | PDict d => match d with [] => false | _ => true end
  end.

(** [sep.join(parts)] on strings. *)
Fixpoint join (sep : string) (parts : list string) : string :=
  match parts with
  | [] => ""
  | [p] => p
  | p :: ps => p +:+ sep +:+ join sep ps
  end.

Section Repr.
(** [repr] of a float (the shortest string that reads back) and of a
    string (quoting and escaping) belong to the interpreter. *)
Variable float_repr : float -> string.
Variable str_repr : string -> string.

Fixpoint repr (v : pyval) : string :=
  match v with
  | PNone => "None"
  | PBool true => "True"
  | PBool false => "False"
  | PInt z => pretty z
  | PFloat f => float_repr f
  | PStr s => str_repr s
  | PList l => "[" +:+ join ", " (map repr l) +:+ "]"
  | PDict d =>
      "{" +:+ join ", " (map (fun kv => str_repr (fst kv) +:+ ": " +:+ repr (snd kv)) d) +:+ "}"
  end.

(** [str(v)]: a string is itself, anything else is its [repr]. *)
Definition str (v : pyval) : string :=
  match v with
  | PStr s => s
  | _ => repr v
  end.
End Repr.

(** [str.isspace] on one character, for code points below 256. *)
Definition isspace (c : ascii) : bool :=
  match c with
  | "009" | "010" | "011" | "012" | "013"
  | "028" | "029" | "030" | "031" | " " | "133" | "160" => true
  | _ => false
  end%char.

Fixpoint lstrip (s : string) : string :=
  match s with
  | "" => ""
  | String c s' => if isspace c then lstrip s' else s
  end.

(** [s.strip()] *)
Definition strip (s : string) : string :=
  String.rev (lstrip (String.rev (lstrip s))).

(** [sorted(list(xs))] for a set of strings: the order in which a set is
    listed is not specified, the sorted list does not depend on it. *)
Definition sorted_set (xs : gset string) : list string :=
  merge_sort String.le (elements xs).

Lemma app_cons c (s t : string) : String c s +:+ t = String c (s +:+ t).
Proof. reflexivity. Qed.

(** *** Operations on values of any type *)

(** [key in data] for a string [key]: a key of a [dict], an element of a
    [list], a substring of a [str]; other values are not containers. *)
Definition py_contains (key : string) (data : pyval) : result bool :=
  match data with
  | PDict d => Ok (bool_decide (is_Some (dict_lookup key d)))
  | PList l =>
      Ok (existsb (fun v => match v with PStr s => String.eqb s key | _ => false end) l)
  | PStr s => Ok (bool_decide (is_Some (String.index 0 key s)))
  | _ => Raise (Exn TypeError "argument is not iterable")
  end.

(** [data[key]] for a string [key]. *)
Definition py_getitem (data : pyval) (key : string) : result pyval :=
  match data with
  | PDict d =>
      match dict_lookup key d with
      | Some v => Ok v
      | None => Raise (Exn KeyError key)
      end
  | PList _ => Raise (Exn TypeError "list indices must be integers or slices, not str")
  | PStr _ => Raise (Exn TypeError "string indices must be integers, not 'str'")
  | _ => Raise (Exn TypeError "object is not subscriptable")
  end.

(** [type(v).__name__] *)
Definition type_name (v : pyval) : string :=
  match v with
  | PNone => "NoneType"
  | PBool _ => "bool"
  | PInt _ => "int"
  | PFloat _ => "float"
  | PStr _ => "str"
  | PList _ => "list"
  | PDict _ => "dict"
  end.

(** [data.get(key, default)] *)
Definition py_get (data : pyval) (key : string) (default : pyval) : result pyval :=
  match data with
  | PDict d => Ok (dict_get d key default)
  | _ => Raise (Exn AttributeError
                  ("'" +:+ type_name data +:+ "' object has no attribute 'get'"))
  end.

(** The elements [list.extend(v)] appends: the items of a list, the
    characters of a string, the keys of a dict. *)
Definition py_iter (v : pyval) : result (list pyval) :=
  match v with
  | PList l => Ok l
  | PStr s => Ok (map (fun c => PStr (String c "")) (list_ascii_of_string s))
  | PDict d => Ok (map (fun kv => PStr (fst kv)) d)
  | _ => Raise (Exn TypeError "object is not iterable")
  end.

(** [sep.join(parts)]: every part has to be a string. *)
Fixpoint as_strings (parts : list pyval) : result (list string) :=
  match parts with
  | [] => Ok []
  | PStr s :: rest => ss ← as_strings rest; Ok (s :: ss)
  | _ :: _ => Raise (Exn TypeError "sequence item: expected str instance")
  end.

Definition py_join (sep : string) (parts : list pyval) : result string :=
  ss ← as_strings parts; Ok (join sep ss).

Lemma as_strings_app (l1 l2 : list pyval) :
  as_strings (l1 ++ l2) =
  ss1 ← as_strings l1; ss2 ← as_strings l2; Ok (ss1 ++ ss2).
Proof.
  induction l1 as [|v l1 IH]; simpl.
  - by destruct (as_strings l2).
  - destruct v; try done. rewrite IH.
    destruct (as_strings l1); [|done]. simpl. by destruct (as_strings l2).
Qed.

Lemma as_strings_PStr (ss : list string) : as_strings (PStr <$> ss) = Ok ss.
Proof. induction ss as [|s ss IH]; [done|]. csimpl. by rewrite IH. Qed.

Lemma join_length (sep : string) (parts : list string) :
  String.length (join sep parts) =
  sum_list (String.length <$> parts) + String.length sep * (length parts - 1).
Proof.
  assert (Happ : ∀ a b, String.length (a +:+ b) = String.length a + String.length b).
  { intros a b. induction a as [|c a IH]; [done|]. rewrite app_cons. simpl. lia. }
  induction parts as [|p ps IH]; [simpl; lia|].
  destruct ps as [|q ps]; [simpl; lia|].
  change (join sep (p :: q :: ps)) with (p +:+ sep +:+ join sep (q :: ps)).
  rewrite !Happ, IH. simpl. lia.
Qed.

Lemma string_app_assoc (s t u : string) : (s +:+ t) +:+ u = s +:+ (t +:+ u).
Proof. induction s as [|c s IH]; [done|]. by rewrite !app_cons, IH. Qed.

Lemma string_app_nil_r (s : string) : s +:+ "" = s.
Proof. induction s as [|c s IH]; [done|]. by rewrite app_cons, IH. Qed.

Lemma sorted_set_Sorted (xs : gset string) : Sorted String.le (sorted_set xs).
Proof. apply (Sorted_merge_sort String.le). Qed.

Lemma sorted_set_Permutation (xs : gset string) : sorted_set xs ≡ₚ elements xs.
Proof. apply merge_sort_Permutation. Qed.

Lemma sorted_set_NoDup (xs : gset string) : NoDup (sorted_set xs).
Proof. rewrite sorted_set_Permutation. apply NoDup_elements. Qed.

Lemma elem_of_sorted_set (xs : gset string) (x : string) : x ∈ sorted_set xs ↔ x ∈ xs.
Proof. rewrite sorted_set_Permutation. apply elem_of_elements. Qed.

(** The sorted list of a set is the only sorted duplicate-free list with
    the set's elements. *)
Lemma sorted_set_unique (xs : gset string) (l : list string) :
  Sorted String.le l -> NoDup l -> (∀ x, x ∈ l ↔ x ∈ xs) -> sorted_set xs = l.
Proof.
  intros Hs Hn Hl. apply (Sorted_unique String.le).
  - apply sorted_set_Sorted.
  - exact Hs.
  - apply NoDup_Permutation; [apply sorted_set_NoDup | exact Hn |].
    intros x. rewrite elem_of_sorted_set. symmetry. apply Hl.
Qed.

End Py.

(** ** Stand-ins for the interpreter's functions

    The interpreter's [repr] and the [json] writer are variables of the
    development; to run the definitions on examples they are given
    simple instances, right for the values the examples use. *)

Module Sample.
Import Py.

Definition float_repr (f : float) : string := "0.0".

Definition str_repr (s : string) : string := "'" +:+ s +:+ "'".

Definition quoted (s : string) : string := String "034" (s +:+ String "034" "").

Fixpoint json_dumps (v : pyval) : string :=
  match v with
  | PNone => "null"
  | PBool true => "true"
  | PBool false => "false"
  | PInt z => pretty z
  | PFloat f => float_repr f
  | PStr s => quoted s
  | PList l => "[" +:+ join ", " (map json_dumps l) +:+ "]"
  | PDict d =>
      "{" +:+ join ", " (map (fun kv => quoted (fst kv) +:+ ": " +:+ json_dumps (snd kv)) d) +:+ "}"
  end.

(** A reader for the documents [json_dumps] writes (no escapes in
    strings, no fractions); anything else is a decode error. *)
Definition is_ws (c : ascii) : bool :=
  match c with
  | " " | "009" | "010" | "013" => true
  | _ => false
  end%char.

Fixpoint skip_ws (s : string) : string :=
  match s with
  | "" => ""
  | String c r => if is_ws c then skip_ws r else s
  end.

Fixpoint take_string (s : string) : option (string * string) :=
  match s with
  | "" => None
  | String c r =>
      if Ascii.eqb c "034" then Some ("", r)
      else match take_string r with
           | Some (a, r') => Some (String c a, r')
           | None => None
           end
  end.

Fixpoint take_digits (s : string) (acc : Z) : Z * string :=
  match s with
  | "" => (acc, "")
  | String c r =>
      match Ascii.is_nat c with
      | Some d => take_digits r (10 * acc + Z.of_nat d)
      | None => (acc, s)
      end
  end.

Definition take_literal (lit : string) (v : pyval) (s : string) : option (pyval * string) :=
  if String.prefix lit s
  then Some (v, String.substring (String.length lit) (String.length s - String.length lit) s)
  else None.

Definition take_number (s : string) : option (pyval * string) :=
  match s with
  | String "-" (String c r) =>
      match Ascii.is_nat c with
      | Some _ => let '(z, r') := take_digits (String c r) 0 in Some (PInt (- z), r')
      | None => None
      end
  | String c r =>
      match Ascii.is_nat c with
      | Some _ => let '(z, r') := take_digits (String c r) 0 in Some (PInt z, r')
      | None => None
      end
  | "" => None
  end.

Fixpoint parse_value (fuel : nat) (s : string) : option (pyval * string) :=
  match fuel with
  | 0 => None
  | S fuel =>
      let elements := fix elements (n : nat) (s : string) : option (list pyval * string) :=
        match n with
        | 0 => None
        | S n =>
            match parse_value fuel s with
            | Some (v, r) =>
                match skip_ws r with
                | String "," r' =>
                    match elements n r' with
                    | Some (vs, r'') => Some (v :: vs, r'')
                    | None => None
                    end
                | String "]" r' => Some ([v], r')
                | _ => None
                end
            | None => None
            end
        end in
      let members := fix members (n : nat) (s : string)
          : option (list (string * pyval) * string) :=
        match n with
        | 0 => None
        | S n =>
            match skip_ws s with
            | String "034" r =>
                match take_string r with
                | Some (k, r1) =>
                    match skip_ws r1 with
                    | String ":" r2 =>
                        match parse_value fuel r2 with
                        | Some (v, r3) =>
                            match skip_ws r3 with
                            | String "," r4 =>
                                match members n r4 with
                                | Some (kvs, r5) => Some ((k, v) :: kvs, r5)
                                | None => None
                                end
                            | String "}" r4 => Some ([(k, v)], r4)
                            | _ => None
                            end
                        | None => None
                        end
                    | _ => None
                    end
                | None => None
                end
            | _ => None
            end
        end in
      match skip_ws s with
      | String "034" r =>
          match take_string r with
          | Some (a, r') => Some (PStr a, r')
          | None => None
          end
      | String "[" r =>
          match skip_ws r with
          | String "]" r' => Some (PList [], r')
          | _ =>
              match elements (String.length r) r with
              | Some (vs, r') => Some (PList vs, r')
              | None => None
              end
          end
      | String "{" r =>
          match skip_ws r with
          | String "}" r' => Some (PDict [], r')
          | _ =>
              match members (String.length r) r with
              | Some (kvs, r') => Some (PDict kvs, r')
              | None => None
              end
          end
      | String "t" _ => take_literal "true" (PBool true) (skip_ws s)
      | String "f" _ => take_literal "false" (PBool false) (skip_ws s)
      | String "n" _ => take_literal "null" PNone (skip_ws s)
      | _ => take_number (skip_ws s)
      end
  end.

Definition decode_error : exn := Exn JSONDecodeError "Expecting value".

Definition json_loads (s : string) : result pyval :=
  match parse_value (S (String.length s)) s with
  | Some (v, r) => if String.eqb (skip_ws r) "" then Ok v else Raise decode_error
  | None => Raise decode_error
  end.

Example json_loads_names :
  json_loads (json_dumps (PList [PStr "NAMESPACE"; PStr "POD"]))
  = Ok (PList [PStr "NAMESPACE"; PStr "POD"]).
Proof. vm_compute. reflexivity. Qed.

Example json_loads_record :
  json_loads (json_dumps (PDict [("summary", PStr "Pod ${POD} failed"); ("internal_only", PBool true);
                                 ("_tags", PList [PStr "pods"; PInt (-3)]); ("extra", PDict [])]))
  = Ok (PDict [("summary", PStr "Pod ${POD} failed"); ("internal_only", PBool true);
               ("_tags", PList [PStr "pods"; PInt (-3)]); ("extra", PDict [])]).
Proof. vm_compute. reflexivity. Qed.

Example json_loads_malformed : json_loads "{not json" = Raise decode_error.
Proof. vm_compute. reflexivity. Qed.

Lemma json_loads_raises s e : json_loads s = Raise e -> e = decode_error.
Proof.
  unfold json_loads. destruct (parse_value _ s) as [[v r]|]; [|congruence].
  destruct (String.eqb _ _); congruence.
Qed.

End Sample.

(** ** scripts/build_embeddings.py *)

Module BuildEmbeddings.
Import Py.

(** *** [re.findall(r'\$\{([^}]+)\}', text)] *)

(** The longest run of characters other than the closing brace, and what
    follows it: what the greedy [[^}]+] consumes. *)
Fixpoint span_name (s : string) : string * string :=
  match s with
  | "" => ("", "")
  | String c s' =>
      if Ascii.eqb c "}" then ("", s)
      else let '(n, r) := span_name s' in (String c n, r)
  end.

(** One attempt of the pattern at the start of [s]: the captured name and
    the text after the closing brace. A run that is empty, or that reaches
    the end of the text, fails: every shorter run is followed by a
    character that is not a closing brace. *)
Definition match_here (s : string) : option (string * string) :=
  match s with
  | String "$" (String "{" s2) =>
      match span_name s2 with
      | (String c n, String "}" r) => Some (String c n, r)
      | _ => None
      end
  | _ => None
  end.

Lemma span_name_length s n r :
  span_name s = (n, r) -> String.length r <= String.length s.
Proof.
  revert n r. induction s as [|c s IH]; intros n r; simpl.
  - intros [= <- <-]. simpl. lia.
  - destruct (Ascii.eqb c "}").
    + intros [= <- <-]. simpl. lia.
    + destruct (span_name s) as [n' r'] eqn:E. intros [= <- <-].
      specialize (IH _ _ eq_refl). lia.
Qed.

Lemma match_here_length s n r :
  match_here s = Some (n, r) -> String.length r < String.length s.
Proof.
  unfold match_here.
  destruct s as [|c s1]; [discriminate|].
  destruct (Ascii.eqb_spec c "$") as [->|Hc].
  2:{ intros H. exfalso. revert H.
      destruct c as [[] [] [] [] [] [] [] []]; try discriminate. congruence. }
  destruct s1 as [|c1 s2]; [discriminate|].
  destruct (Ascii.eqb_spec c1 "{") as [->|Hc1].
  2:{ intros H. exfalso. revert H.
      destruct c1 as [[] [] [] [] [] [] [] []]; try discriminate. congruence. }
  destruct (span_name s2) as [n' r'] eqn:E.
  apply span_name_length in E.
  destruct n' as [|c' n']; [discriminate|].
  destruct r' as [|c2 r2]; [discriminate|].
  destruct (Ascii.eqb_spec c2 "}") as [->|Hc2].
  2:{ intros H. exfalso. revert H.
      destruct c2 as [[] [] [] [] [] [] [] []]; try discriminate. congruence. }
  intros [= <- <-]. simpl in *. lia.
Qed.

(** Matches are looked for from left to right and do not overlap: after
    a match the scan resumes behind it, otherwise one character on. *)
Equations? findall (s : string) : list string by wf (String.length s) lt :=
  findall s with inspect (match_here s) := {
    | exist _ (Some (n, r)) Hm => n :: findall r
    | exist _ None _ with s := {
        | "" => []
        | String _ s' => findall s' } }.
Proof. eapply match_here_length; eassumption. Qed.

(** [extract_variables(text)] *)
Definition extract_variables (text : pyval) : result (list string) :=
  if negb (truthy text) then Ok []
  else match text with
       | PStr s =>
           let variables := findall s in
           Ok (sorted_set (list_to_set variables))
       | _ => Raise (Exn TypeError "expected string or bytes-like object")
       end.

Example findall_ex1 : findall "a ${A} b ${B}${A}" = ["A"; "B"; "A"].
Proof. reflexivity. Qed.

Example findall_ex2 : findall "${a${b}} ${} ${c" = ["a${b"].
Proof. reflexivity. Qed.

(** A name the pattern can capture: one or more characters, none of them
    a closing brace. *)
Definition is_name (n : string) : Prop :=
  n ≠ "" ∧ "}"%char ∉ list_ascii_of_string n.

#[global] Instance is_name_dec n : Decision (is_name n).
Proof. unfold is_name. apply _. Defined.

Lemma span_name_spec s n r :
  span_name s = (n, r) ->
  s = (n +:+ r) ∧ ("}"%char ∉ list_ascii_of_string n) ∧ (r = "" ∨ ∃ r', r = String "}" r').
Proof.
  revert n r. induction s as [|c s IH]; intros n r; simpl.
  - intros [= <- <-]. split_and!; [done | apply not_elem_of_nil | by left].
  - destruct (Ascii.eqb_spec c "}") as [->|Hc].
    + intros [= <- <-]. split_and!; [done | apply not_elem_of_nil | right; eauto].
    + destruct (span_name s) as [n' r'] eqn:E. intros [= <- <-].
      destruct (IH _ _ eq_refl) as (-> & Hn & Hr).
      split_and!; [done | | done].
      simpl. rewrite not_elem_of_cons. split; [congruence | done].
Qed.

Lemma span_name_app n r :
  "}"%char ∉ list_ascii_of_string n ->
  span_name (n +:+ String "}" r) = (n, String "}" r).
Proof.
  induction n as [|c n IH]; simpl; intros Hn.
  - reflexivity.
  - apply not_elem_of_cons in Hn as [Hc Hn].
    destruct (Ascii.eqb_spec c "}") as [->|_]; [done|].
    by rewrite IH.
Qed.

(** One attempt matches exactly the texts that start with a placeholder. *)
Lemma match_here_spec s n r :
  match_here s = Some (n, r) ↔ is_name n ∧ s = "${" +:+ n +:+ "}" +:+ r.
Proof.
  split.
  - unfold match_here. intros H.
    destruct s as [|c s1]; [discriminate|].
    destruct (Ascii.eqb_spec c "$") as [->|Hc].
    2:{ exfalso. revert H.
        destruct c as [[] [] [] [] [] [] [] []]; try discriminate. congruence. }
    destruct s1 as [|c1 s2]; [discriminate|].
    destruct (Ascii.eqb_spec c1 "{") as [->|Hc1].
    2:{ exfalso. revert H.
        destruct c1 as [[] [] [] [] [] [] [] []]; try discriminate. congruence. }
    destruct (span_name s2) as [n' r'] eqn:E.
    apply span_name_spec in E as (-> & Hn & _).
    destruct n' as [|c' n']; [discriminate|].
    destruct r' as [|c2 r2]; [discriminate|].
    destruct (Ascii.eqb_spec c2 "}") as [->|Hc2].
    2:{ exfalso. revert H.
        destruct c2 as [[] [] [] [] [] [] [] []]; try discriminate. congruence. }
    injection H as <- <-. split; [split; [discriminate | done] | done].
  - intros [[Hne Hn] ->].
    change ("${" +:+ n +:+ "}" +:+ r) with (String "$" (String "{" (n +:+ String "}" r))).
    unfold match_here. rewrite span_name_app by done.
    destruct n; [done | reflexivity].
Qed.

(** Every name [findall] reports is the inside of a placeholder that
    occurs in the text. *)
Lemma findall_sound s x :
  x ∈ findall s -> is_name x ∧ ∃ pre post, s = pre +:+ "${" +:+ x +:+ "}" +:+ post.
Proof.
  funelim (findall s); clear Heqcall;
    repeat match goal with H : {| pr1 := _ |} = _ |- _ => clear H end.
  - apply match_here_spec in Hm as [Hn ->].
    intros [->|Hx]%elem_of_cons.
    + split; [done|]. by exists "", r.
    + destruct (H _ Hx) as [Hx' (pre & post & ->)]. split; [done|].
      exists ("${" +:+ n +:+ "}" +:+ pre), post.
      by rewrite !string_app_assoc.
  - intros []%elem_of_nil.
  - intros Hx. destruct (H _ Hx) as [Hn (pre & post & ->)]. split; [done|].
    by exists (String a pre), post.
Qed.

Lemma findall_match s n r :
  match_here s = Some (n, r) -> findall s = n :: findall r.
Proof.
  intros Hm. funelim (findall s); clear Heqcall;
    repeat match goal with H : {| pr1 := _ |} = _ |- _ => clear H end;
    first [discriminate | congruence].
Qed.

Lemma findall_no_match c s :
  match_here (String c s) = None -> findall (String c s) = findall s.
Proof.
  intros Hm. funelim (findall (String c s)); clear Heqcall;
    repeat match goal with H : {| pr1 := _ |} = _ |- _ => clear H end;
    first [discriminate | congruence].
Qed.

(** A placeholder at the start of the text is reported, and the scan
    goes on behind it. *)
Lemma findall_placeholder n r :
  is_name n -> findall ("${" +:+ n +:+ "}" +:+ r) = n :: findall r.
Proof. intros Hn. apply findall_match, match_here_spec. done. Qed.

(** Text without a dollar sign holds no match and is skipped. *)
Lemma findall_skip u s :
  "$"%char ∉ list_ascii_of_string u -> findall (u +:+ s) = findall s.
Proof.
  induction u as [|c u IH]; simpl; intros Hu; [done|].
  apply not_elem_of_cons in Hu as [Hc Hu].
  rewrite app_cons, findall_no_match; [by apply IH|].
  unfold match_here. destruct c as [[] [] [] [] [] [] [] []]; try done.
Qed.

Lemma extract_variables_str s :
  extract_variables (PStr s) = Ok (sorted_set (list_to_set (findall s))).
Proof. by destruct s. Qed.

(** C4. On a text, the placeholder extractor returns the names that the
    scan for dollar sign, opening brace, one or more characters other
    than a closing brace, closing brace captures: sorted, without
    duplicates, each the inside of a placeholder of the text. A text with
    the placeholders A, B, A yields A, B; the empty text and [None] yield
    the empty list. *)
Theorem extract_variables_sorted_names (s : string) :
  ∃ vs : list string,
    extract_variables (PStr s) = Ok vs
    ∧ Sorted String.le vs ∧ NoDup vs
    ∧ (∀ x, x ∈ vs ↔ x ∈ findall s)
    ∧ (∀ x, x ∈ vs ->
         is_name x ∧ ∃ pre post, s = pre +:+ "${" +:+ x +:+ "}" +:+ post)
    ∧ (∀ u v w t,
         Forall (λ p, "$"%char ∉ list_ascii_of_string p) [u; v; w; t] ->
         s = u +:+ "${A}" +:+ v +:+ "${B}" +:+ w +:+ "${A}" +:+ t ->
         vs = ["A"; "B"])
    ∧ extract_variables (PStr "") = Ok []
    ∧ extract_variables PNone = Ok [].
Proof.
  exists (sorted_set (list_to_set (findall s))).
  assert (Hel : ∀ x, x ∈ sorted_set (list_to_set (findall s)) ↔ x ∈ findall s).
  { intros x. rewrite elem_of_sorted_set. apply elem_of_list_to_set. }
  split_and!.
  - apply extract_variables_str.
  - apply sorted_set_Sorted.
  - apply sorted_set_NoDup.
  - exact Hel.
  - intros x Hx. apply findall_sound, Hel, Hx.
  - intros u v w t Hd ->.
    apply Forall_cons in Hd as [Hu Hd]. apply Forall_cons in Hd as [Hv Hd].
    apply Forall_cons in Hd as [Hw Hd]. apply Forall_cons in Hd as [Ht _].
    assert (HA : is_name "A") by (by apply (bool_decide_unpack _)).
    assert (HB : is_name "B") by (by apply (bool_decide_unpack _)).
    repeat match goal with
    | |- context [ "${A}" +:+ ?x ] =>
        progress change ("${A}" +:+ x) with ("${" +:+ "A" +:+ "}" +:+ x)
    | |- context [ "${B}" +:+ ?x ] =>
        progress change ("${B}" +:+ x) with ("${" +:+ "B" +:+ "}" +:+ x)
    end.
    rewrite findall_skip by done.
    rewrite (findall_placeholder "A") by done.
    rewrite findall_skip by done.
    rewrite (findall_placeholder "B") by done.
    rewrite findall_skip by done.
    rewrite (findall_placeholder "A") by done.
    rewrite <- (string_app_nil_r t), findall_skip by done.
    reflexivity.
  - reflexivity.
  - reflexivity.
Qed.

(** *** The searchable text, the folder, and the corpus walk *)

(** One file found by [notifications_dir.rglob("*.json")]: the parts of
    its path relative to [notifications_dir], and what opening it and
    [json.load] give: the decoded value or the exception raised. *)
Record json_file : Type := JsonFile {
  relative_parts : list string;
  loaded : result pyval
}.

(** What the walk prints. *)
Inductive log_line : Type :=
| LogFound (n : nat)
| LogError (file : list string) (e : exn)
| LogProcessed (n : nat).

(** The three lists the walk fills, and the standard output. *)
Record walk_state : Type := WalkState {
  documents : list string;
  metadatas : list pyval;
  ids : list string;
  stdout : list log_line
}.

(** The statements of the walk run on these lists. *)
Definition M : Type -> Type := stateful walk_state.
#[global] Instance M_ret : MRet M := stateful_ret walk_state.
#[global] Instance M_bind : MBind M := stateful_bind walk_state.

Definition documents_append (d : string) : M unit := fun st =>
  (Ok tt, WalkState (documents st ++ [d]) (metadatas st) (ids st) (stdout st)).
Definition metadatas_append (m : pyval) : M unit := fun st =>
  (Ok tt, WalkState (documents st) (metadatas st ++ [m]) (ids st) (stdout st)).
Definition ids_append (i : string) : M unit := fun st =>
  (Ok tt, WalkState (documents st) (metadatas st) (ids st ++ [i]) (stdout st)).
Definition print (l : log_line) : M unit := fun st =>
  (Ok tt, WalkState (documents st) (metadatas st) (ids st) (stdout st ++ [l])).

(** [except (json.JSONDecodeError, FileNotFoundError)] *)
Definition caught (e : exn) : bool :=
  match exn_cls e with
  | JSONDecodeError | FileNotFoundError => true
  | _ => false
  end.

Definition try_except (body : M unit) (handler : exn -> M unit) : M unit := fun st =>
  match body st with
  | (Ok tt, st') => (Ok tt, st')
  | (Raise e, st') => if caught e then handler e st' else (Raise e, st')
  end.

Definition searchable_fields : list string :=
  ["summary"; "description"; "log_type"; "service_name"].

(** [get_folder_metadata(file_path, base_path)], on the relative parts. *)
Definition get_folder_metadata (relative_path : list string) : string :=
  if bool_decide (1 < length relative_path) then default "" (head relative_path)
  else "root".

Section Ingestion.
Variable float_repr : float -> string.
Variable str_repr : string -> string.
Variable json_dumps : pyval -> string.

(** [field in notification_data and notification_data[field]]: the value
    when the condition holds. *)
Definition present (notification_data : pyval) (field : string) : result (option pyval) :=
  b ← py_contains field notification_data;
  if b : bool then
    v ← py_getitem notification_data field;
    Ok (if truthy v then Some v else None)
  else Ok None.

Fixpoint fields_loop (notification_data : pyval) (fields : list string)
  (text_parts : list pyval) : result (list pyval) :=
  match fields with
  | [] => Ok text_parts
  | field :: rest =>
      p ← present notification_data field;
      match p with
      | Some v =>
          fields_loop notification_data rest
            (text_parts ++ [PStr (str float_repr str_repr v)])
      | None => fields_loop notification_data rest text_parts
      end
  end.

(** [extract_searchable_text(notification_data)] *)
Definition extract_searchable_text (notification_data : pyval) : result string :=
  text_parts ← fields_loop notification_data searchable_fields [];
  t ← present notification_data "_tags";
  text_parts ← match t with
               | Some tags => elems ← py_iter tags; Ok (text_parts ++ elems)
               | None => Ok text_parts
               end;
  py_join " " text_parts.

(** The loop over [summary] and [description] that collects the variables. *)
Fixpoint variables_loop (notification_data : pyval) (fields : list string)
  (all_variables : gset string) : result (gset string) :=
  match fields with
  | [] => Ok all_variables
  | field :: rest =>
      p ← present notification_data field;
      match p with
      | Some v =>
          vs ← extract_variables (PStr (str float_repr str_repr v));
          variables_loop notification_data rest (all_variables ∪ list_to_set vs)
      | None => variables_loop notification_data rest all_variables
      end
  end.

(** The body of the [try] for the file at position [idx]. *)
Definition try_body (idx : nat) (f : json_file) : M unit :=
  notification_data ← lift (loaded f);
  searchable_text ← lift (extract_searchable_text notification_data);
  if negb (truthy (PStr (strip searchable_text))) then mret tt
  else
    let folder_tag := get_folder_metadata (relative_parts f) in
    all_variables ← lift (variables_loop notification_data ["summary"; "description"] ∅);
    documents_append searchable_text;;
    severity ← lift (py_get notification_data "severity" (PStr "Unknown"));
    service_name ← lift (py_get notification_data "service_name" (PStr "Unknown"));
    log_type ← lift (py_get notification_data "log_type" (PStr "Unknown"));
    internal_only ← lift (py_get notification_data "internal_only" (PBool false));
    metadatas_append (PDict [
      ("file_path", PStr (join "/" (relative_parts f)));
      ("folder", PStr folder_tag);
      ("severity", severity);
      ("service_name", service_name);
      ("log_type", log_type);
      ("internal_only", internal_only);
      ("variables", PStr (json_dumps (PList (PStr <$> sorted_set all_variables))));
      ("full_json", PStr (json_dumps notification_data))]);;
    ids_append ("notification_" +:+ pretty idx).

(** [for idx, json_file in enumerate(json_files)], from position [idx] on. *)
Fixpoint walk (idx : nat) (json_files : list json_file) : M unit :=
  match json_files with
  | [] => mret tt
  | f :: rest =>
      try_except (try_body idx f) (fun e => print (LogError (relative_parts f) e));;
      walk (S idx) rest
  end.

(** [process_notification_files(notifications_dir)], on the files the
    directory holds: the three lists returned, or the exception that
    ends the walk, and what was printed. *)
Definition process_notification_files (json_files : list json_file)
  : result (list string * list pyval * list string) * list log_line :=
  let run :=
    print (LogFound (length json_files));;
    walk 0 json_files;;
    st ← (fun st => (Ok st, st));
    print (LogProcessed (length (documents st))) in
  match run (WalkState [] [] [] []) with
  | (Ok _, st) => (Ok (documents st, metadatas st, ids st), stdout st)
  | (Raise e, st) => (Raise e, stdout st)
  end.

(** **** The searchable text of a record *)

(** The parts the composed text is made of, as the data model words it:
    a recognised field gives its text when it is present and not empty. *)
Definition field_part (d : list (string * pyval)) (field : string) : list string :=
  match dict_lookup field d with
  | Some v => if truthy v then [str float_repr str_repr v] else []
  | None => []
  end.

Definition included_fields (d : list (string * pyval)) : list string :=
  field_part d "summary" ++ field_part d "description"
  ++ field_part d "log_type" ++ field_part d "service_name".

(** [_tags] is a sequence of strings [ts], or is absent or empty. *)
Definition tags_are (d : list (string * pyval)) (ts : list string) : Prop :=
  match dict_lookup "_tags" d with
  | Some v => v = PList (PStr <$> ts) ∨ (truthy v = false ∧ ts = [])
  | None => ts = []
  end.

Lemma present_dict d field :
  present (PDict d) field =
  Ok (match dict_lookup field d with
      | Some v => if truthy v then Some v else None
      | None => None
      end).
Proof.
  unfold present. simpl.
  destruct (dict_lookup field d) as [v|]; simpl; [|done].
  by destruct (truthy v).
Qed.

Lemma fields_loop_dict d fields text_parts :
  fields_loop (PDict d) fields text_parts =
  Ok (text_parts ++ (PStr <$> concat (field_part d <$> fields))).
Proof.
  revert text_parts. induction fields as [|f fields IH]; intros text_parts.
  - simpl. by rewrite app_nil_r.
  - cbn [fields_loop]. rewrite present_dict. unfold field_part at 1. csimpl.
    destruct (dict_lookup f d) as [v|]; simpl; [destruct (truthy v)|]; simpl;
      rewrite IH; by rewrite ?fmap_app, <- ?app_assoc.
Qed.

Lemma extract_searchable_text_dict d :
  extract_searchable_text (PDict d) =
  elems ← match dict_lookup "_tags" d with
          | Some tags => if truthy tags then py_iter tags else Ok []
          | None => Ok []
          end;
  py_join " " ((PStr <$> included_fields d) ++ elems).
Proof.
  unfold extract_searchable_text. rewrite fields_loop_dict, present_dict.
  simpl. unfold included_fields. rewrite (app_nil_r (field_part d "service_name")).
  destruct (dict_lookup "_tags" d) as [tags|]; simpl.
  - destruct (truthy tags); simpl; [by destruct (py_iter tags)|].
    by rewrite app_nil_r.
  - by rewrite app_nil_r.
Qed.

(** C5. The searchable text of a record is its summary, description,
    log_type and service_name, in this order, then the tags in their
    order, joined by single spaces: a field that is absent or empty gives
    no part and no separator, the text is as long as its parts plus one
    space between neighbours, and it depends on nothing but these five
    entries of the record. *)
Theorem searchable_text_composition (d : list (string * pyval)) (ts : list string) :
  tags_are d ts ->
  extract_searchable_text (PDict d) = Ok (join " " (included_fields d ++ ts))
  ∧ String.length (join " " (included_fields d ++ ts)) =
      sum_list (String.length <$> (included_fields d ++ ts))
      + (length (included_fields d ++ ts) - 1)
  ∧ (∀ field,
       dict_lookup field d = None
       ∨ (∃ v, dict_lookup field d = Some v ∧ truthy v = false) ->
       field_part d field = [])
  ∧ (∀ d',
       (∀ k, k ∈ "_tags" :: searchable_fields -> dict_lookup k d' = dict_lookup k d) ->
       extract_searchable_text (PDict d') = extract_searchable_text (PDict d)).
Proof.
  intros Htags. split_and!.
  - rewrite extract_searchable_text_dict.
    assert (match dict_lookup "_tags" d with
            | Some tags => if truthy tags then py_iter tags else Ok []
            | None => Ok []
            end = Ok (PStr <$> ts)) as ->.
    { unfold tags_are in Htags.
      destruct (dict_lookup "_tags" d) as [tags|]; [|by subst ts].
      destruct Htags as [->|[-> ->]]; [|done]. by destruct ts. }
    change (py_join " " ((PStr <$> included_fields d) ++ (PStr <$> ts))
            = Ok (join " " (included_fields d ++ ts))).
    unfold py_join. by rewrite <- fmap_app, as_strings_PStr.
  - rewrite join_length. simpl. lia.
  - intros field [Hf|(v & Hf & Hv)]; unfold field_part; rewrite Hf; [done|].
    by rewrite Hv.
  - intros d' Hd'. rewrite !extract_searchable_text_dict.
    unfold included_fields, field_part, searchable_fields in *.
    by rewrite !Hd' by (rewrite !elem_of_cons; auto 10).
Qed.

(** **** One file *)

(** A value that is not a dict gives no searchable text: membership and
    subscript raise, or nothing is found. *)
Lemma present_not_dict nd field :
  (∀ d, nd ≠ PDict d) ->
  present nd field = Ok None ∨ ∃ e, present nd field = Raise e.
Proof.
  intros Hnd. unfold present.
  destruct nd as [| | | | s | l | d]; simpl; eauto.
  - destruct (bool_decide _); simpl; eauto.
  - destruct (existsb _ l); simpl; eauto.
  - by destruct (Hnd d).
Qed.

Lemma fields_loop_not_dict nd fields text_parts :
  (∀ d, nd ≠ PDict d) ->
  fields_loop nd fields text_parts = Ok text_parts
  ∨ ∃ e, fields_loop nd fields text_parts = Raise e.
Proof.
  intros Hnd. induction fields as [|f fields IH]; simpl; [by left|].
  destruct (present_not_dict nd f Hnd) as [->|[e ->]]; simpl; eauto.
Qed.

Lemma extract_searchable_text_not_dict nd t :
  (∀ d, nd ≠ PDict d) -> extract_searchable_text nd = Ok t -> t = "".
Proof.
  intros Hnd. unfold extract_searchable_text.
  destruct (fields_loop_not_dict nd searchable_fields [] Hnd) as [->|[e ->]];
    simpl; [|done].
  destruct (present_not_dict nd "_tags" Hnd) as [->|[e ->]]; simpl; [|done].
  by intros [= <-].
Qed.

(** The variables of a record: the placeholders of its summary and of its
    description. *)
Definition field_variables (d : list (string * pyval)) (field : string) : gset string :=
  match dict_lookup field d with
  | Some v =>
      if truthy v then list_to_set (findall (str float_repr str_repr v)) else ∅
  | None => ∅
  end.

Lemma variables_loop_dict d fields all_variables :
  variables_loop (PDict d) fields all_variables =
  Ok (all_variables ∪ ⋃ (field_variables d <$> fields)).
Proof.
  revert all_variables. induction fields as [|f fields IH]; intros acc; csimpl.
  - f_equal. by rewrite (right_id_L ∅ (∪)).
  - rewrite present_dict. unfold field_variables at 1. simpl.
    destruct (dict_lookup f d) as [v|]; simpl.
    + destruct (truthy v); simpl.
      * rewrite extract_variables_str. simpl. rewrite IH. f_equal.
        apply set_eq. intros x. rewrite !elem_of_union, elem_of_list_to_set,
          elem_of_sorted_set, elem_of_list_to_set. tauto.
      * rewrite IH. f_equal. by rewrite (left_id_L ∅ (∪)).
    + rewrite IH. f_equal. by rewrite (left_id_L ∅ (∪)).
Qed.

Arguments variables_loop : simpl never.

(** The metadata stored for a record [d] read from the file [f]. *)
Definition metadata_of (f : json_file) (d : list (string * pyval)) : pyval :=
  PDict [
    ("file_path", PStr (join "/" (relative_parts f)));
    ("folder", PStr (get_folder_metadata (relative_parts f)));
    ("severity", dict_get d "severity" (PStr "Unknown"));
    ("service_name", dict_get d "service_name" (PStr "Unknown"));
    ("log_type", dict_get d "log_type" (PStr "Unknown"));
    ("internal_only", dict_get d "internal_only" (PBool false));
    ("variables",
      PStr (json_dumps (PList (PStr <$>
        sorted_set (field_variables d "summary" ∪ field_variables d "description")))));
    ("full_json", PStr (json_dumps (PDict d)))].

(** What one file does to the walk. *)
Inductive verdict : Type :=
| Accepted (doc : string) (meta : pyval)
| Skipped
| Logged (e : exn)
| Aborted (e : exn).

Definition classify (f : json_file) : verdict :=
  match loaded f with
  | Raise e => if caught e then Logged e else Aborted e
  | Ok nd =>
      match extract_searchable_text nd with
      | Raise e => if caught e then Logged e else Aborted e
      | Ok t =>
          if String.eqb (strip t) "" then Skipped
          else match nd with
               | PDict d => Accepted t (metadata_of f d)
               | _ => Skipped
               end
      end
  end.

Definition push (st : walk_state) (doc : string) (meta : pyval) (id : string) : walk_state :=
  WalkState (documents st ++ [doc]) (metadatas st ++ [meta]) (ids st ++ [id]) (stdout st).

Definition logged (st : walk_state) (l : log_line) : walk_state :=
  WalkState (documents st) (metadatas st) (ids st) (stdout st ++ [l]).

Definition notification_id (idx : nat) : string := "notification_" +:+ pretty idx.

Lemma try_body_run idx f st :
  try_except (try_body idx f) (fun e => print (LogError (relative_parts f) e)) st =
  match classify f with
  | Accepted doc meta => (Ok tt, push st doc meta (notification_id idx))
  | Skipped => (Ok tt, st)
  | Logged e => (Ok tt, logged st (LogError (relative_parts f) e))
  | Aborted e => (Raise e, st)
  end.
Proof.
  unfold try_except, try_body, classify, lift, mbind, M_bind, stateful_bind.
  destruct (loaded f) as [nd|e]; [|by destruct (caught e)].
  destruct (extract_searchable_text nd) as [t|e] eqn:Ht; [|by destruct (caught e)].
  simpl. destruct (String.eqb_spec (strip t) "") as [Hb|Hb]; simpl; [done|].
  destruct nd as [| | | | s | l | d];
    try (apply extract_searchable_text_not_dict in Ht; [by subst t|done]).
  rewrite variables_loop_dict. simpl.
  unfold push, metadata_of.
  by rewrite (left_id_L ∅ (∪)), (right_id_L ∅ (∪)).
Qed.

(** **** The walk over all files *)

Definition entry_of (f : json_file) : option (string * pyval) :=
  match classify f with
  | Accepted doc meta => Some (doc, meta)
  | _ => None
  end.

Definition error_of (f : json_file) : option log_line :=
  match classify f with
  | Logged e => Some (LogError (relative_parts f) e)
  | _ => None
  end.

Definition aborts (f : json_file) : bool :=
  match classify f with
  | Aborted _ => true
  | _ => false
  end.

(** The positions, counted from [idx], of the files that are accepted. *)
Fixpoint accepted_positions (idx : nat) (json_files : list json_file) : list nat :=
  match json_files with
  | [] => []
  | f :: rest =>
      match entry_of f with
      | Some _ => idx :: accepted_positions (S idx) rest
      | None => accepted_positions (S idx) rest
      end
  end.

(** The state after a walk from position [idx] that no file aborts. *)
Definition extend (st : walk_state) (idx : nat) (json_files : list json_file) : walk_state :=
  WalkState
    (documents st ++ (fst <$> omap entry_of json_files))
    (metadatas st ++ (snd <$> omap entry_of json_files))
    (ids st ++ (notification_id <$> accepted_positions idx json_files))
    (stdout st ++ omap error_of json_files).

Lemma walk_cons idx f rest st :
  walk idx (f :: rest) st =
  match classify f with
  | Accepted doc meta => walk (S idx) rest (push st doc meta (notification_id idx))
  | Skipped => walk (S idx) rest st
  | Logged e => walk (S idx) rest (logged st (LogError (relative_parts f) e))
  | Aborted e => (Raise e, st)
  end.
Proof.
  cbn [walk]. unfold mbind at 1, M_bind at 1, stateful_bind at 1.
  rewrite try_body_run. by destruct (classify f).
Qed.

Lemma extend_nil st idx : extend st idx [] = st.
Proof. destruct st. unfold extend. simpl. by rewrite !app_nil_r. Qed.

Lemma extend_cons st idx f rest :
  extend st idx (f :: rest) =
  match classify f with
  | Accepted doc meta => extend (push st doc meta (notification_id idx)) (S idx) rest
  | Logged e => extend (logged st (LogError (relative_parts f) e)) (S idx) rest
  | _ => extend st (S idx) rest
  end.
Proof.
  unfold extend. cbn [omap list_omap accepted_positions].
  assert (He : entry_of f = match classify f with
                            | Accepted doc meta => Some (doc, meta)
                            | _ => None
                            end) by done.
  assert (Hr : error_of f = match classify f with
                            | Logged e => Some (LogError (relative_parts f) e)
                            | _ => None
                            end) by done.
  rewrite He, Hr. destruct (classify f); simpl; by rewrite <- ?app_assoc.
Qed.

Lemma walk_ok idx json_files st :
  Forall (fun f => aborts f = false) json_files ->
  walk idx json_files st = (Ok tt, extend st idx json_files).
Proof.
  intros Hok. revert idx st.
  induction Hok as [|f rest Hf _ IH]; intros idx st.
  - by rewrite extend_nil.
  - rewrite walk_cons, extend_cons. unfold aborts in Hf.
    destruct (classify f); try done; apply IH.
Qed.

Lemma walk_abort idx pre f post st e :
  Forall (fun f => aborts f = false) pre ->
  classify f = Aborted e ->
  walk idx (pre ++ f :: post) st = (Raise e, extend st idx pre).
Proof.
  intros Hok Hf. revert idx st.
  induction Hok as [|f' rest Hf' _ IH]; intros idx st.
  - rewrite extend_nil. simpl app. by rewrite walk_cons, Hf.
  - simpl app. rewrite walk_cons, extend_cons. unfold aborts in Hf'.
    destruct (classify f'); try done; apply IH.
Qed.

(** Either no file aborts, or there is a first one that does. *)
Lemma first_abort (json_files : list json_file) :
  Forall (fun f => aborts f = false) json_files
  ∨ ∃ pre f post e, json_files = pre ++ f :: post
      ∧ Forall (fun f => aborts f = false) pre ∧ classify f = Aborted e.
Proof.
  induction json_files as [|f rest IH]; [by left|].
  destruct (classify f) as [doc meta| |e|e] eqn:Hf.
  4:{ right. exists [], f, rest, e. by split_and!. }
  all: destruct IH as [IH|(pre & f' & post & e' & -> & Hpre & Hf')];
    [left; constructor; [by unfold aborts; rewrite Hf | done]
    |right; exists (f :: pre), f', post, e'; split_and!;
       [done | constructor; [by unfold aborts; rewrite Hf | done] | done]].
Qed.

Lemma process_notification_files_ok json_files :
  Forall (fun f => aborts f = false) json_files ->
  process_notification_files json_files =
  (Ok (fst <$> omap entry_of json_files,
       snd <$> omap entry_of json_files,
       notification_id <$> accepted_positions 0 json_files),
   [LogFound (length json_files)] ++ omap error_of json_files
   ++ [LogProcessed (length (omap entry_of json_files))]).
Proof.
  intros Hok. unfold process_notification_files, mbind, M_bind, stateful_bind, print.
  rewrite (walk_ok _ _ _ Hok). simpl. by rewrite length_fmap.
Qed.

Lemma process_notification_files_abort pre f post e :
  Forall (fun f => aborts f = false) pre ->
  classify f = Aborted e ->
  process_notification_files (pre ++ f :: post) =
  (Raise e, [LogFound (length (pre ++ f :: post))] ++ omap error_of pre).
Proof.
  intros Hok Hf. unfold process_notification_files, mbind, M_bind, stateful_bind, print.
  by rewrite (walk_abort _ _ _ _ _ _ Hok Hf).
Qed.

Lemma process_notification_files_result json_files :
  (Forall (fun f => aborts f = false) json_files
   ∧ fst (process_notification_files json_files) =
       Ok (fst <$> omap entry_of json_files,
           snd <$> omap entry_of json_files,
           notification_id <$> accepted_positions 0 json_files))
  ∨ (¬ Forall (fun f => aborts f = false) json_files
     ∧ ∃ e, fst (process_notification_files json_files) = Raise e).
Proof.
  destruct (first_abort json_files) as [Hok|(pre & f & post & e & -> & Hpre & Hf)].
  - left. split; [done|]. by rewrite process_notification_files_ok.
  - right. split.
    + intros [_ Hbad]%Forall_app. apply Forall_cons in Hbad as [Hbad _].
      unfold aborts in Hbad. by rewrite Hf in Hbad.
    + exists e. by rewrite (process_notification_files_abort _ _ _ _ Hpre Hf).
Qed.

Lemma accepted_positions_length idx json_files :
  length (accepted_positions idx json_files) = length (omap entry_of json_files).
Proof.
  revert idx. induction json_files as [|f rest IH]; intros idx; [done|].
  cbn [accepted_positions omap list_omap].
  destruct (entry_of f); simpl; by rewrite IH.
Qed.

Lemma accepted_positions_bounds idx json_files k :
  k ∈ accepted_positions idx json_files -> idx ≤ k < idx + length json_files.
Proof.
  revert idx. induction json_files as [|f rest IH]; intros idx; simpl.
  - intros []%elem_of_nil.
  - destruct (entry_of f).
    + intros [->|Hk%IH]%elem_of_cons; lia.
    + intros Hk%IH. lia.
Qed.

Lemma accepted_positions_sorted idx json_files :
  StronglySorted lt (accepted_positions idx json_files).
Proof.
  revert idx. induction json_files as [|f rest IH]; intros idx; simpl.
  - constructor.
  - destruct (entry_of f); [|apply IH].
    constructor; [apply IH|].
    apply Forall_forall. intros k Hk%accepted_positions_bounds. lia.
Qed.

Lemma accepted_positions_all idx json_files :
  Forall (fun f => is_Some (entry_of f)) json_files ->
  accepted_positions idx json_files = seq idx (length json_files).
Proof.
  intros Hall. revert idx. induction Hall as [|f rest [e He] _ IH]; intros idx; [done|].
  simpl. rewrite He. by rewrite IH.
Qed.

(** The [j]-th accepted position is the place of the file that gave the
    [j]-th entry. *)
Lemma accepted_positions_lookup idx json_files j k :
  accepted_positions idx json_files !! j = Some k ->
  (idx ≤ k)%nat ∧ ∃ f e, json_files !! (k - idx) = Some f ∧ entry_of f = Some e
    ∧ omap entry_of json_files !! j = Some e.
Proof.
  revert idx j. induction json_files as [|f rest IH]; intros idx j; [done|].
  cbn [accepted_positions omap list_omap].
  destruct (entry_of f) as [e|] eqn:He.
  - destruct j as [|j]; simpl.
    + intros [= <-]. split; [lia|]. exists f, e. by rewrite Nat.sub_diag.
    + intros (Hk & f' & e' & Hf' & He' & Hj)%IH. split; [lia|].
      exists f', e'. replace (k - idx) with (S (k - S idx)) by lia. done.
  - intros (Hk & f' & e' & Hf' & He' & Hj)%IH. split; [lia|].
    exists f', e'. replace (k - idx) with (S (k - S idx)) by lia. done.
Qed.

Lemma increasing_NoDup (l : list nat) : StronglySorted lt l -> NoDup l.
Proof.
  induction 1 as [|k l _ IH Hk]; constructor; [|done].
  intros Hin. rewrite Forall_forall in Hk. specialize (Hk _ Hin). lia.
Qed.

#[global] Instance notification_id_inj : Inj (=) (=) notification_id.
Proof.
  intros i j H. unfold notification_id in H.
  apply (inj (String.app "notification_")) in H. by apply (inj pretty) in H.
Qed.

(** A file that is neither accepted nor aborts the walk leaves the
    documents and the metadata as they are without it. *)
Lemma skipped_file pre f post :
  entry_of f = None -> aborts f = false ->
  is_ok (fst (process_notification_files (pre ++ f :: post)))
  = is_ok (fst (process_notification_files (pre ++ post)))
  ∧ ∀ docs metas idl,
      fst (process_notification_files (pre ++ f :: post)) = Ok (docs, metas, idl) ->
      ∃ idl', fst (process_notification_files (pre ++ post)) = Ok (docs, metas, idl')
        ∧ length idl' = length idl.
Proof.
  intros He Ha.
  assert (Hiff : Forall (fun f => aborts f = false) (pre ++ f :: post)
                 ↔ Forall (fun f => aborts f = false) (pre ++ post)).
  { rewrite !Forall_app, Forall_cons. tauto. }
  assert (Hom : omap entry_of (pre ++ f :: post) = omap entry_of (pre ++ post)).
  { rewrite !omap_app. cbn [omap list_omap]. by rewrite He. }
  destruct (process_notification_files_result (pre ++ f :: post)) as [[Hok ->]|[Hbad [e ->]]];
    destruct (process_notification_files_result (pre ++ post)) as [[Hok' ->]|[Hbad' [e' ->]]];
    try tauto.
  - split; [done|]. intros docs metas idl [= <- <- <-].
    eexists. split; [by rewrite Hom|].
    by rewrite !length_fmap, !accepted_positions_length, Hom.
  - split; [done|]. intros docs metas idl [=].
Qed.

Lemma lstrip_whitespace (t : string) :
  Forall (fun c => isspace c = true) (list_ascii_of_string t) -> lstrip t = "".
Proof.
  induction t as [|c t IH]; simpl; [done|].
  intros [Hc Ht]%Forall_cons. rewrite Hc. by apply IH.
Qed.

Lemma strip_whitespace (t : string) :
  Forall (fun c => isspace c = true) (list_ascii_of_string t) -> strip t = "".
Proof. intros Ht. unfold strip. by rewrite (lstrip_whitespace t Ht). Qed.

Lemma lstrip_empty (t : string) :
  lstrip t = "" -> Forall (fun c => isspace c = true) (list_ascii_of_string t).
Proof.
  induction t as [|c t IH]; simpl; [constructor|].
  destruct (isspace c) eqn:Hc; [|done]. intros Ht. constructor; auto.
Qed.

Lemma lstrip_head (t : string) c r : lstrip t = String c r -> isspace c = false.
Proof.
  induction t as [|c' t IH]; simpl; [done|].
  destruct (isspace c') eqn:Hc; [done|]. by intros [= <- _].
Qed.

Lemma rev_app_chars (s acc : string) c :
  c ∈ list_ascii_of_string s ∨ c ∈ list_ascii_of_string acc ->
  c ∈ list_ascii_of_string (String.rev_app s acc).
Proof.
  revert acc. induction s as [|a s IH]; simpl; intros acc.
  - intros [[]%elem_of_nil|H]; done.
  - intros [[->|H]%elem_of_cons|H]; apply IH; simpl; rewrite elem_of_cons; auto.
Qed.

Lemma rev_app_empty (s acc : string) :
  String.rev_app s acc = "" -> s = "" ∧ acc = "".
Proof.
  revert acc. induction s as [|a s IH]; simpl; intros acc H; [done|].
  by destruct (IH _ H).
Qed.

(** The test of the walk is the one the data model words: a text strips
    to nothing exactly when every character of it is whitespace. *)
Lemma strip_empty_iff (t : string) :
  strip t = "" ↔ Forall (fun c => isspace c = true) (list_ascii_of_string t).
Proof.
  split; [|apply strip_whitespace].
  unfold strip, String.rev. intros [Ht _]%rev_app_empty.
  destruct (lstrip t) as [|c r] eqn:Hl; [by apply lstrip_empty|].
  exfalso. apply lstrip_head in Hl. apply lstrip_empty in Ht.
  rewrite Forall_forall in Ht.
  assert (Hc : isspace c = true); [|congruence].
  apply Ht, rev_app_chars. left. simpl. apply list_elem_of_here.
Qed.

(** C1, as the code has it. The id of an accepted record is
    [notification_<k>] with [k] the position of its file among the files
    found, skipped files counted: the ids are increasing in [k] and
    different from each other, the [j]-th id belongs to the file that
    gave the [j]-th document and the [j]-th metadata entry, and when no
    file is skipped the ids are notification_0, notification_1, ... *)
Theorem ids_name_file_positions (json_files : list json_file)
    (docs : list string) (metas : list pyval) (idl : list string) :
  fst (process_notification_files json_files) = Ok (docs, metas, idl) ->
  idl = notification_id <$> accepted_positions 0 json_files
  ∧ StronglySorted lt (accepted_positions 0 json_files)
  ∧ NoDup idl
  ∧ length docs = length idl ∧ length metas = length idl
  ∧ (∀ j k, accepted_positions 0 json_files !! j = Some k ->
       ∃ f doc meta, json_files !! k = Some f ∧ entry_of f = Some (doc, meta)
         ∧ docs !! j = Some doc ∧ metas !! j = Some meta
         ∧ idl !! j = Some (notification_id k))
  ∧ (Forall (fun f => is_Some (entry_of f)) json_files ->
       idl = notification_id <$> seq 0 (length json_files)).
Proof.
  intros Hrun.
  destruct (process_notification_files_result json_files) as [[Hok Hr]|[_ [e Hr]]];
    rewrite Hr in Hrun; [|done].
  injection Hrun as <- <- <-. split_and!.
  - done.
  - apply accepted_positions_sorted.
  - apply (NoDup_fmap_2 _).
    eapply increasing_NoDup, accepted_positions_sorted.
  - by rewrite !length_fmap, accepted_positions_length.
  - by rewrite !length_fmap, accepted_positions_length.
  - intros j k Hj.
    destruct (accepted_positions_lookup _ _ _ _ Hj) as (_ & f & [doc meta] & Hf & He & Hj').
    rewrite Nat.sub_0_r in Hf. exists f, doc, meta. split_and!; [done..| | |].
    + by rewrite list_lookup_fmap, Hj'.
    + by rewrite list_lookup_fmap, Hj'.
    + by rewrite list_lookup_fmap, Hj.
  - intros Hall. by rewrite (accepted_positions_all _ _ Hall).
Qed.

(** C2, as the code has it. A file whose reading raises a JSON decode
    error or a file-not-found error is logged and skipped: the walk goes
    on with the next file, the lists untouched; with the file or without
    it the batch ends the same way, with the same documents and metadata
    and as many ids, and the error is in the output. *)
Theorem caught_read_error_is_skipped (pre : list json_file) (f : json_file)
    (post : list json_file) (e : exn) :
  loaded f = Raise e ->
  exn_cls e = JSONDecodeError ∨ exn_cls e = FileNotFoundError ->
  (∀ idx rest st,
     walk idx (f :: rest) st
     = walk (S idx) rest (logged st (LogError (relative_parts f) e)))
  ∧ is_ok (fst (process_notification_files (pre ++ f :: post)))
    = is_ok (fst (process_notification_files (pre ++ post)))
  ∧ (∀ docs metas idl,
       fst (process_notification_files (pre ++ f :: post)) = Ok (docs, metas, idl) ->
       (∃ idl', fst (process_notification_files (pre ++ post)) = Ok (docs, metas, idl')
          ∧ length idl' = length idl)
       ∧ LogError (relative_parts f) e ∈ snd (process_notification_files (pre ++ f :: post))).
Proof.
  intros Hload Hcls.
  assert (Hc : classify f = Logged e).
  { unfold classify. rewrite Hload. unfold caught. by destruct Hcls as [-> | ->]. }
  assert (He : entry_of f = None) by (unfold entry_of; by rewrite Hc).
  assert (Ha : aborts f = false) by (unfold aborts; by rewrite Hc).
  destruct (skipped_file pre f post He Ha) as [Hsame Hlists].
  split_and!; [|done|].
  - intros idx rest st. by rewrite walk_cons, Hc.
  - intros docs metas idl Hrun. split; [by apply Hlists|].
    destruct (first_abort (pre ++ f :: post)) as [Hok|(p & f' & q & e' & Heq & Hp & Hf')].
    + rewrite (process_notification_files_ok _ Hok). cbn [snd].
      rewrite omap_app. cbn [omap list_omap]. unfold error_of at 2. rewrite Hc.
      rewrite !elem_of_app, !elem_of_cons. auto 10.
    + rewrite Heq, (process_notification_files_abort _ _ _ _ Hp Hf') in Hrun. done.
Qed.

(** C3. A record whose searchable text is empty or whitespace-only is
    left out: the walk goes on with the next file and all three lists are
    as they were; with the file or without it the batch has the same
    documents and metadata and as many ids. Whatever the files, the three
    lists returned have the same length, and lists are returned whenever
    no file raises an exception other than the two that are caught. *)
Theorem blank_record_is_excluded (pre : list json_file) (f : json_file)
    (post : list json_file) (nd : pyval) (t : string) :
  loaded f = Ok nd ->
  extract_searchable_text nd = Ok t ->
  Forall (fun c => isspace c = true) (list_ascii_of_string t) ->
  (∀ idx rest st, walk idx (f :: rest) st = walk (S idx) rest st)
  ∧ is_ok (fst (process_notification_files (pre ++ f :: post)))
    = is_ok (fst (process_notification_files (pre ++ post)))
  ∧ (∀ docs metas idl,
       fst (process_notification_files (pre ++ f :: post)) = Ok (docs, metas, idl) ->
       ∃ idl', fst (process_notification_files (pre ++ post)) = Ok (docs, metas, idl')
         ∧ length idl' = length idl)
  ∧ (∀ json_files docs metas idl,
       fst (process_notification_files json_files) = Ok (docs, metas, idl) ->
       length docs = length metas ∧ length metas = length idl)
  ∧ (∀ json_files,
       Forall (fun f => aborts f = false) json_files ->
       is_ok (fst (process_notification_files json_files)) = true).
Proof.
  intros Hload Htext Hblank.
  assert (Hc : classify f = Skipped).
  { unfold classify. by rewrite Hload, Htext, (strip_whitespace t Hblank). }
  assert (He : entry_of f = None) by (unfold entry_of; by rewrite Hc).
  assert (Ha : aborts f = false) by (unfold aborts; by rewrite Hc).
  destruct (skipped_file pre f post He Ha) as [Hsame Hlists].
  split_and!; [|done|done| |].
  - intros idx rest st. by rewrite walk_cons, Hc.
  - intros json_files docs metas idl Hrun.
    destruct (process_notification_files_result json_files) as [[Hok Hr]|[_ [e' Hr]]];
      rewrite Hr in Hrun; [|done].
    injection Hrun as <- <- <-.
    by rewrite !length_fmap, accepted_positions_length.
  - intros json_files Hok. by rewrite (process_notification_files_ok _ Hok).
Qed.

End Ingestion.

(** *** Examples *)

Definition pod_failed : json_file :=
  JsonFile ["hcp"; "a.json"]
    (Ok (PDict [("summary", PStr "Pod ${POD} failed in ${NAMESPACE}");
                ("description", PStr "");
                ("severity", PStr "Critical");
                ("_tags", PList [PStr "pods"; PStr "hcp"])])).

Definition malformed : json_file :=
  JsonFile ["osd"; "b.json"] (Raise (Exn JSONDecodeError "Expecting value: line 1 column 1 (char 0)")).

Definition unreadable : json_file :=
  JsonFile ["osd"; "c.json"] (Raise (Exn PermissionError "[Errno 13] Permission denied")).

Definition blank : json_file :=
  JsonFile ["d.json"] (Ok (PDict [("summary", PStr ""); ("description", PStr "   ")])).

Definition pod_failed_metadata : pyval :=
  PDict [("file_path", PStr "hcp/a.json"); ("folder", PStr "hcp");
         ("severity", PStr "Critical"); ("service_name", PStr "Unknown");
         ("log_type", PStr "Unknown"); ("internal_only", PBool false);
         ("variables",
           PStr (Sample.json_dumps (PList [PStr "NAMESPACE"; PStr "POD"])));
         ("full_json",
           PStr (Sample.json_dumps
                   (PDict [("summary", PStr "Pod ${POD} failed in ${NAMESPACE}");
                           ("description", PStr "");
                           ("severity", PStr "Critical");
                           ("_tags", PList [PStr "pods"; PStr "hcp"])])))].

Definition sample_process :=
  process_notification_files Sample.float_repr Sample.str_repr Sample.json_dumps.

Example process_example :
  sample_process [malformed; pod_failed; blank] =
  (Ok (["Pod ${POD} failed in ${NAMESPACE} pods hcp"],
       [pod_failed_metadata], ["notification_1"]),
   [LogFound 3; LogError ["osd"; "b.json"] (Exn JSONDecodeError "Expecting value: line 1 column 1 (char 0)");
    LogProcessed 1]).
Proof. vm_compute. reflexivity. Qed.

Lemma searchable_text_composition_witness :
  tags_are [("summary", PStr "Pod ${POD} failed in ${NAMESPACE}");
            ("description", PStr "");
            ("severity", PStr "Critical");
            ("_tags", PList [PStr "pods"; PStr "hcp"])] ["pods"; "hcp"]
  ∧ extract_searchable_text Sample.float_repr Sample.str_repr
      (PDict [("summary", PStr "Pod ${POD} failed in ${NAMESPACE}");
              ("description", PStr "");
              ("severity", PStr "Critical");
              ("_tags", PList [PStr "pods"; PStr "hcp"])])
    = Ok "Pod ${POD} failed in ${NAMESPACE} pods hcp".
Proof.
  split; [left; reflexivity|].
  refine (proj1 (searchable_text_composition Sample.float_repr Sample.str_repr
                   _ ["pods"; "hcp"] _)).
  left; reflexivity.
Defined.

Lemma ids_name_file_positions_witness :
  fst (sample_process [malformed; pod_failed; blank])
  = Ok (["Pod ${POD} failed in ${NAMESPACE} pods hcp"], [pod_failed_metadata],
        ["notification_1"])
  ∧ NoDup ["notification_1"].
Proof.
  split; [vm_compute; reflexivity|].
  refine (proj1 (proj2 (proj2 (ids_name_file_positions
            Sample.float_repr Sample.str_repr Sample.json_dumps
            [malformed; pod_failed; blank] _ _ _ _)))).
  vm_compute; reflexivity.
Defined.

(** One file skipped before an accepted one: the only id is
    notification_1, not notification_0. *)
Lemma ids_skip_an_ordinal :
  ∃ docs metas idl,
    fst (sample_process [malformed; pod_failed]) = Ok (docs, metas, idl)
    ∧ idl = ["notification_1"]
    ∧ idl ≠ (fun i => "notification_" +:+ pretty i) <$> seq 0 (length docs).
Proof.
  exists ["Pod ${POD} failed in ${NAMESPACE} pods hcp"], [pod_failed_metadata],
    ["notification_1"].
  split_and!; [vm_compute; reflexivity | reflexivity | vm_compute; discriminate].
Qed.

Lemma caught_read_error_is_skipped_witness :
  loaded malformed = Raise (Exn JSONDecodeError "Expecting value: line 1 column 1 (char 0)")
  ∧ (JSONDecodeError = JSONDecodeError ∨ JSONDecodeError = FileNotFoundError)
  ∧ is_ok (fst (sample_process ([pod_failed] ++ malformed :: [pod_failed])))
    = is_ok (fst (sample_process ([pod_failed] ++ [pod_failed]))).
Proof.
  split; [reflexivity|]. split; [by left|].
  refine (proj1 (proj2 (caught_read_error_is_skipped
            Sample.float_repr Sample.str_repr Sample.json_dumps
            [pod_failed] malformed [pod_failed] _ _ _)));
    [reflexivity | by left].
Defined.

(** A file that cannot be read for want of permission ends the walk: the
    files after it are not processed and no list is returned. *)
Lemma unreadable_file_aborts_the_batch :
  is_ok (fst (sample_process [pod_failed])) = true
  ∧ sample_process [unreadable; pod_failed]
    = (Raise (Exn PermissionError "[Errno 13] Permission denied"), [LogFound 2]).
Proof. split; vm_compute; reflexivity. Qed.

Lemma blank_record_is_excluded_witness :
  loaded blank = Ok (PDict [("summary", PStr ""); ("description", PStr "   ")])
  ∧ extract_searchable_text Sample.float_repr Sample.str_repr
      (PDict [("summary", PStr ""); ("description", PStr "   ")]) = Ok "   "
  ∧ Forall (fun c => isspace c = true) (list_ascii_of_string "   ")
  ∧ is_ok (fst (sample_process ([pod_failed] ++ blank :: [pod_failed])))
    = is_ok (fst (sample_process ([pod_failed] ++ [pod_failed]))).
Proof.
  split; [reflexivity|]. split; [reflexivity|].
  split; [repeat constructor|].
  refine (proj1 (proj2 (blank_record_is_excluded
            Sample.float_repr Sample.str_repr Sample.json_dumps
            [pod_failed] blank [pod_failed] _ _ _ _ _)));
    [reflexivity | reflexivity | repeat constructor].
Defined.

End BuildEmbeddings.

(** ** main.py *)

Module Main.
Import Py.

(** What [collection.query] returns: each entry is absent ([None] or no
    such key; the empty dict has all four absent) or a list with one
    inner list per query. A metadata is what the store holds for the
    record: a dict, or [None] for a record stored without metadata. *)
Record query_result : Type := QueryResult {
  qr_ids : option (list (list string));
  qr_metadatas : option (list (list pyval));
  qr_distances : option (list (list float));
  qr_documents : option (list (list string))
}.

(** What [collection.get] returns, as far as it is read. *)
Record get_result : Type := GetResult {
  gr_metadatas : option (list pyval)
}.

(** [results[key][0] if results.get(key) and results[key] else []] *)
Definition first_or_empty {A} (entry : option (list (list A))) : list A :=
  match entry with
  | Some (first :: _) => first
  | _ => []
  end.

(** [xs[i]] *)
Definition index {A} (xs : list A) (i : nat) : result A :=
  match xs !! i with
  | Some x => Ok x
  | None => Raise (Exn IndexError "list index out of range")
  end.

(** [except (json.JSONDecodeError, TypeError)] *)
Definition decode_caught (e : exn) : bool :=
  match exn_cls e with
  | JSONDecodeError | TypeError => true
  | _ => false
  end.

Definition try_decode (body : result pyval) (fallback : pyval) : result pyval :=
  match body with
  | Ok v => Ok v
  | Raise e => if decode_caught e then Ok fallback else Raise e
  end.

Section Server.
(** The vectors of the embedding model and the state of the store. *)
Variable embedding : Type.
Variable store : Type.
Variable float_repr : float -> string.
Variable str_repr : string -> string.
(** [json.loads] *)
Variable json_loads : string -> result pyval.

(** The methods of a collection that are called; each runs on the store. *)
Record Collection : Type := {
  query : embedding -> Z -> stateful store query_result;
  count : stateful store Z;
  get : stateful store get_result
}.

Record NotificationSearchServer : Type := {
  db_path : string;
  model_encode : list string -> result embedding;
  collection : option Collection
}.

(** The body of the loop of [search_notifications] for index [i]. The
    first [metadata.get] is inside the [try], whose handler does not
    catch what it raises on a metadata that is no dict. *)
Definition format_result (ids : list string) (metadatas : list pyval)
  (distances : list float) (documents : list string) (i : nat) : result pyval :=
  let metadata := if bool_decide (i < length metadatas)
                  then default (PDict []) (metadatas !! i) else PDict [] in
  full_json ← try_decode
    (full_json_str ← py_get metadata "full_json" (PStr "{}");
     if truthy full_json_str
     then json_loads (str float_repr str_repr full_json_str)
     else Ok (PDict []))
    (PDict []);
  variables_str ← py_get metadata "variables" (PStr "[]");
  variables ← try_decode
    (if truthy variables_str
     then json_loads (str float_repr str_repr variables_str)
     else Ok (PList []))
    (PList []);
  id ← index ids i;
  let distance := if bool_decide (i < length distances)
                  then default 0%float (distances !! i) else 0%float in
  file_path ← py_get metadata "file_path" (PStr "");
  folder ← py_get metadata "folder" (PStr "");
  severity ← py_get metadata "severity" (PStr "Unknown");
  service_name ← py_get metadata "service_name" (PStr "Unknown");
  log_type ← py_get metadata "log_type" (PStr "Unknown");
  internal_only ← py_get metadata "internal_only" (PBool false);
  let document_text := if bool_decide (i < length documents)
                       then default "" (documents !! i) else "" in
  Ok (PDict [
    ("id", PStr id);
    ("distance", PFloat distance);
    ("similarity", PFloat (1 - distance)%float);
    ("file_path", PStr (str float_repr str_repr file_path));
    ("folder", PStr (str float_repr str_repr folder));
    ("severity", PStr (str float_repr str_repr severity));
    ("service_name", PStr (str float_repr str_repr service_name));
    ("log_type", PStr (str float_repr str_repr log_type));
    ("internal_only", PBool (truthy internal_only));
    ("variables", variables);
    ("document_text", PStr document_text);
    ("notification", full_json)]).

(** [for i in range(len(ids))], appending to [formatted_results]. *)
Fixpoint format_loop (ids : list string) (metadatas : list pyval)
  (distances : list float) (documents : list string)
  (range : list nat) (formatted_results : list pyval) : result (list pyval) :=
  match range with
  | [] => Ok formatted_results
  | i :: rest =>
      r ← format_result ids metadatas distances documents i;
      format_loop ids metadatas distances documents rest (formatted_results ++ [r])
  end.

(** [search_notifications] from the check of the results on: the
    reconstruction of the results from what the store returned. *)
Definition format_results (results : query_result) : result (list pyval) :=
  match qr_ids results with
  | None | Some [] | Some ([] :: _) => Ok []
  | Some (ids :: _) =>
      let metadatas := first_or_empty (qr_metadatas results) in
      let distances := first_or_empty (qr_distances results) in
      let documents := first_or_empty (qr_documents results) in
      format_loop ids metadatas distances documents (seq 0 (length ids)) []
  end.

(** [NotificationSearchServer.search_notifications] *)
Definition search_notifications (self : NotificationSearchServer)
  (problem_statement : string) (max_results : Z) : stateful store (list pyval) :=
  match collection self with
  | None => lift (Raise (Exn RuntimeError "Database not initialized"))
  | Some coll =>
      query_embedding ← lift (model_encode self [problem_statement]);
      results ← query coll query_embedding max_results;
      lift (format_results results)
  end.

Definition no_match_record : pyval :=
  PDict [("message", PStr "No matching notifications found");
         ("suggestion",
           PStr "Try using different keywords or check if the database contains relevant notifications")].

Definition search_failed_record (e : exn) : pyval :=
  PDict [("error", PStr ("Search failed: " +:+ exn_msg e));
         ("suggestion",
           PStr "Ensure the embeddings database has been built by running scripts/build_embeddings.py")].

(** The tool [search_service_logs]; [except Exception] catches whatever
    the search raises. *)
Definition search_service_logs (search_server : NotificationSearchServer)
  (problem_statement : string) (max_results : Z) : stateful store (list pyval) := fun st =>
  match search_notifications search_server problem_statement max_results st with
  | (Ok results, st') =>
      match results with
      | [] => (Ok [no_match_record], st')
      | _ => (Ok results, st')
      end
  | (Raise e, st') => (Ok [search_failed_record e], st')
  end.

(** The loop of [get_database_stats] over the stored metadata: one
    [add] to each of the three sets per record. *)
Fixpoint stats_loop (metadatas : list pyval)
  (sets : gset string * gset string * gset string)
  : result (gset string * gset string * gset string) :=
  match metadatas with
  | [] => Ok sets
  | metadata :: rest =>
      let '(folders, severities, service_names) := sets in
      folder ← py_get metadata "folder" (PStr "unknown");
      severity ← py_get metadata "severity" (PStr "unknown");
      service_name ← py_get metadata "service_name" (PStr "unknown");
      stats_loop rest
        (folders ∪ {[ str float_repr str_repr folder ]},
         severities ∪ {[ str float_repr str_repr severity ]},
         service_names ∪ {[ str float_repr str_repr service_name ]})
  end.

Definition failed_stats_record (e : exn) : pyval :=
  PDict [("error", PStr ("Failed to get database stats: " +:+ exn_msg e))].

(** The tool [get_database_stats]; [except Exception] catches whatever
    the store or the loop raises. *)
Definition get_database_stats (search_server : NotificationSearchServer)
  : stateful store pyval := fun st =>
  let body : stateful store pyval :=
    match collection search_server with
    | None => mret (PDict [("error", PStr "Database not initialized")])
    | Some coll =>
        collection_count ← count coll;
        all_results ← get coll;
        let metadatas := gr_metadatas all_results in
        sets ← lift (match metadatas with
                     | Some (m :: ms) => stats_loop (m :: ms) (∅, ∅, ∅)
                     | _ => Ok (∅, ∅, ∅)
                     end);
        let '(folders, severities, service_names) := sets in
        mret (PDict [
          ("total_notifications", PInt collection_count);
          ("folders", PList (PStr <$> sorted_set folders));
          ("severities", PList (PStr <$> sorted_set severities));
          ("service_names", PList (PStr <$> sorted_set service_names));
          ("database_path", PStr (db_path search_server))])
    end in
  match body st with
  | (Ok stats, st') => (Ok stats, st')
  | (Raise e, st') => (Ok (failed_stats_record e), st')
  end.

(** *** The result reconstructor *)

(** What the store returned at place [i] of the first inner list of an
    entry, when it returned the entry, a first inner list, and a place
    [i] in it. *)
Definition returned_at {A} (entry : option (list (list A))) (i : nat) : option A :=
  inner ← entry; first ← head inner; first !! i.

(** The metadata the reconstructor works on for place [i]: what the
    store returned there, the empty dict when it returned nothing. *)
Definition metadata_at (results : query_result) (i : nat) : pyval :=
  default (PDict []) (returned_at (qr_metadatas results) i).

(** On [text], when it is not empty, [json.loads] returns or raises one
    of the two exceptions the reconstructor catches. *)
Definition decodes (text : pyval) : Prop :=
  truthy text = true ->
  ∀ e, json_loads (str float_repr str_repr text) = Raise e -> decode_caught e = true.

(** The record at place [i] can be rebuilt: its metadata is a dict, and
    the two stored JSON texts of it decode or are rejected. *)
Definition rebuildable (results : query_result) (i : nat) : Prop :=
  ∃ metadata, metadata_at results i = PDict metadata
    ∧ decodes (dict_get metadata "full_json" (PStr "{}"))
    ∧ decodes (dict_get metadata "variables" (PStr "[]")).

(** A stored JSON text read back: the value of [key], [missing] standing
    in for an absent entry, decoded; [fallback] when it is empty or does
    not decode. *)
Definition decoded (metadata : list (string * pyval)) (key missing : string)
  (fallback : pyval) : pyval :=
  let text := dict_get metadata key (PStr missing) in
  if truthy text
  then match json_loads (str float_repr str_repr text) with
       | Ok v => v
       | Raise _ => fallback
       end
  else fallback.

(** The record built for one match. *)
Definition search_result (id : string) (metadata : list (string * pyval))
  (distance : float) (document_text : string) : pyval :=
  PDict [
    ("id", PStr id);
    ("distance", PFloat distance);
    ("similarity", PFloat (1 - distance)%float);
    ("file_path", PStr (str float_repr str_repr (dict_get metadata "file_path" (PStr ""))));
    ("folder", PStr (str float_repr str_repr (dict_get metadata "folder" (PStr ""))));
    ("severity", PStr (str float_repr str_repr (dict_get metadata "severity" (PStr "Unknown"))));
    ("service_name",
      PStr (str float_repr str_repr (dict_get metadata "service_name" (PStr "Unknown"))));
    ("log_type", PStr (str float_repr str_repr (dict_get metadata "log_type" (PStr "Unknown"))));
    ("internal_only", PBool (truthy (dict_get metadata "internal_only" (PBool false))));
    ("variables", decoded metadata "variables" "[]" (PList []));
    ("document_text", PStr document_text);
    ("notification", decoded metadata "full_json" "{}" (PDict []))].

Lemma guarded_lookup {A} (xs : list A) (i : nat) (d : A) :
  (if bool_decide (i < length xs) then default d (xs !! i) else d) = default d (xs !! i).
Proof.
  case_bool_decide as Hi; [done|].
  by rewrite lookup_ge_None_2 by lia.
Qed.

Lemma first_or_empty_lookup {A} (entry : option (list (list A))) (i : nat) :
  first_or_empty entry !! i = returned_at entry i.
Proof. by destruct entry as [[|first inner]|]. Qed.

(** The decoding step, when it does not end the search. *)
Lemma try_decode_inv (text fallback v : pyval) :
  try_decode (if truthy text then json_loads (str float_repr str_repr text)
              else Ok fallback) fallback = Ok v ->
  v = (if truthy text
       then match json_loads (str float_repr str_repr text) with
            | Ok j => j
            | Raise _ => fallback
            end
       else fallback).
Proof.
  destruct (truthy text); simpl; [|congruence].
  destruct (json_loads _) as [j|e]; simpl; [congruence|].
  destruct (decode_caught e); congruence.
Qed.

Lemma try_decode_ok (text fallback : pyval) :
  decodes text ->
  try_decode (if truthy text then json_loads (str float_repr str_repr text)
              else Ok fallback) fallback
  = Ok (if truthy text
        then match json_loads (str float_repr str_repr text) with
             | Ok j => j
             | Raise _ => fallback
             end
        else fallback).
Proof.
  unfold decodes. intros Hc. destruct (truthy text); simpl; [|done].
  destruct (json_loads _) as [j|e] eqn:He; simpl; [done|].
  by rewrite (Hc eq_refl e).
Qed.

(** The body of the loop on a metadata that is a dict. *)
Lemma format_result_dict ids metadatas distances documents i metadata :
  default (PDict []) (metadatas !! i) = PDict metadata ->
  format_result ids metadatas distances documents i
  = (full_json ← try_decode
       (if truthy (dict_get metadata "full_json" (PStr "{}"))
        then json_loads (str float_repr str_repr (dict_get metadata "full_json" (PStr "{}")))
        else Ok (PDict []))
       (PDict []);
     variables ← try_decode
       (if truthy (dict_get metadata "variables" (PStr "[]"))
        then json_loads (str float_repr str_repr (dict_get metadata "variables" (PStr "[]")))
        else Ok (PList []))
       (PList []);
     id ← index ids i;
     Ok (PDict [
       ("id", PStr id);
       ("distance", PFloat (default 0%float (distances !! i)));
       ("similarity", PFloat (1 - default 0%float (distances !! i))%float);
       ("file_path", PStr (str float_repr str_repr (dict_get metadata "file_path" (PStr ""))));
       ("folder", PStr (str float_repr str_repr (dict_get metadata "folder" (PStr ""))));
       ("severity",
         PStr (str float_repr str_repr (dict_get metadata "severity" (PStr "Unknown"))));
       ("service_name",
         PStr (str float_repr str_repr (dict_get metadata "service_name" (PStr "Unknown"))));
       ("log_type",
         PStr (str float_repr str_repr (dict_get metadata "log_type" (PStr "Unknown"))));
       ("internal_only", PBool (truthy (dict_get metadata "internal_only" (PBool false))));
       ("variables", variables);
       ("document_text", PStr (default "" (documents !! i)));
       ("notification", full_json)])).
Proof.
  intros Hm. unfold format_result. rewrite !guarded_lookup, Hm. reflexivity.
Qed.

(** On a metadata that is no dict the body raises what [metadata.get]
    raises: nothing catches an attribute error. *)
Lemma format_result_no_dict ids metadatas distances documents i :
  (∀ metadata, default (PDict []) (metadatas !! i) ≠ PDict metadata) ->
  format_result ids metadatas distances documents i
  = Raise (Exn AttributeError
             ("'" +:+ type_name (default (PDict []) (metadatas !! i))
              +:+ "' object has no attribute 'get'")).
Proof.
  intros Hno. unfold format_result. rewrite !guarded_lookup.
  destruct (default (PDict []) (metadatas !! i)) as [| | | | | |metadata]; try done.
  by destruct (Hno metadata).
Qed.

Lemma format_result_inv ids metadatas distances documents i r :
  format_result ids metadatas distances documents i = Ok r ->
  ∃ id metadata, ids !! i = Some id
    ∧ default (PDict []) (metadatas !! i) = PDict metadata
    ∧ r = search_result id metadata
            (default 0%float (distances !! i)) (default "" (documents !! i)).
Proof.
  destruct (default (PDict []) (metadatas !! i)) as [| | | | | |metadata] eqn:Hm;
    try (rewrite format_result_no_dict by (intros m; rewrite Hm; discriminate);
         discriminate).
  rewrite (format_result_dict _ _ _ _ _ _ Hm).
  destruct (try_decode _ (PDict [])) as [fj|e] eqn:Hfj; [|done].
  apply try_decode_inv in Hfj. simpl.
  destruct (try_decode _ (PList [])) as [vs|e] eqn:Hvs; [|done].
  apply try_decode_inv in Hvs. simpl.
  unfold index. destruct (ids !! i) as [id|]; [|done]. simpl.
  intros [= <-]. exists id, metadata. split_and!; [done..|].
  unfold search_result, decoded. by rewrite <- Hfj, <- Hvs.
Qed.

Lemma format_result_ok ids metadatas distances documents i id metadata :
  ids !! i = Some id ->
  default (PDict []) (metadatas !! i) = PDict metadata ->
  decodes (dict_get metadata "full_json" (PStr "{}")) ->
  decodes (dict_get metadata "variables" (PStr "[]")) ->
  format_result ids metadatas distances documents i
  = Ok (search_result id metadata
          (default 0%float (distances !! i)) (default "" (documents !! i))).
Proof.
  intros Hid Hm Hfj Hvs. rewrite (format_result_dict _ _ _ _ _ _ Hm).
  rewrite (try_decode_ok _ _ Hfj), (try_decode_ok _ _ Hvs). simpl.
  unfold index. by rewrite Hid.
Qed.

Lemma format_loop_inv ids metadatas distances documents range acc rs :
  format_loop ids metadatas distances documents range acc = Ok rs ->
  ∃ new, rs = acc ++ new
    ∧ Forall2 (fun i r => format_result ids metadatas distances documents i = Ok r) range new.
Proof.
  revert acc. induction range as [|i range IH]; intros acc; simpl.
  - intros [= <-]. exists []. by rewrite app_nil_r.
  - destruct (format_result ids metadatas distances documents i) as [r|e] eqn:Hr; [|done].
    simpl. intros (new & -> & Hnew)%IH. exists (r :: new).
    split; [by rewrite <- app_assoc | by constructor].
Qed.

Lemma format_loop_ok ids metadatas distances documents range acc (f : nat -> pyval) :
  (∀ i, i ∈ range -> format_result ids metadatas distances documents i = Ok (f i)) ->
  format_loop ids metadatas distances documents range acc = Ok (acc ++ (f <$> range)).
Proof.
  revert acc. induction range as [|i range IH]; intros acc Hf; simpl.
  - by rewrite app_nil_r.
  - rewrite (Hf i) by apply list_elem_of_here. simpl.
    rewrite IH by (intros j Hj; apply Hf; by apply list_elem_of_further).
    by rewrite <- app_assoc.
Qed.

(** The entries of a dict; no entry for another value. *)
Definition entries (v : pyval) : list (string * pyval) :=
  match v with
  | PDict d => d
  | _ => []
  end.

(** The record for the [i]-th id of a result. *)
Definition result_at (results : query_result) (ids : list string) (i : nat) : pyval :=
  search_result (default "" (ids !! i))
    (entries (metadata_at results i))
    (default 0%float (returned_at (qr_distances results) i))
    (default "" (returned_at (qr_documents results) i)).

Lemma format_results_ok results ids rest :
  qr_ids results = Some (ids :: rest) ->
  (∀ i, i < length ids -> rebuildable results i) ->
  format_results results = Ok (result_at results ids <$> seq 0 (length ids)).
Proof.
  intros Hids Hall. unfold format_results. rewrite Hids.
  destruct ids as [|id0 ids']; [done|].
  rewrite (format_loop_ok _ _ _ _ _ [] (result_at results (id0 :: ids'))); [done|].
  intros i [_ Hi]%elem_of_seq.
  destruct (lookup_lt_is_Some_2 (id0 :: ids') i) as [id Hid]; [simpl in *; lia|].
  destruct (Hall i) as (metadata & Hm & Hfj & Hvs); [simpl in *; lia|].
  unfold metadata_at in Hm. rewrite <- first_or_empty_lookup in Hm.
  rewrite (format_result_ok _ _ _ _ _ id metadata Hid Hm Hfj Hvs).
  unfold result_at, metadata_at.
  by rewrite Hid, <- !first_or_empty_lookup, Hm.
Qed.

Lemma format_results_lookup results rs j r :
  format_results results = Ok rs -> rs !! j = Some r ->
  ∃ ids rest id metadata,
    qr_ids results = Some (ids :: rest) ∧ ids !! j = Some id
    ∧ metadata_at results j = PDict metadata
    ∧ r = search_result id metadata
            (default 0%float (returned_at (qr_distances results) j))
            (default "" (returned_at (qr_documents results) j)).
Proof.
  unfold format_results.
  destruct (qr_ids results) as [[|[|id0 ids'] rest]|]; try (by intros [= <-]).
  intros (new & -> & Hnew)%format_loop_inv Hr. simpl in Hr.
  destruct (Forall2_lookup_r _ _ _ _ _ Hnew Hr) as (i & Hi & Hfi).
  apply lookup_seq in Hi as [Hi _]. simpl in Hi. subst i.
  apply format_result_inv in Hfi as (id & metadata & Hid & Hm & ->).
  exists (id0 :: ids'), rest, id, metadata. unfold metadata_at.
  by rewrite <- !first_or_empty_lookup.
Qed.

(** C6. For a result whose records can all be rebuilt (the metadata of
    each is a dict and its stored texts decode or are rejected), the
    reconstructor gives one record per id, in the order of the ids: the
    [i]-th record carries the [i]-th id, the [i]-th distance the store
    returned or 0.0 when the distances do not reach [i], as similarity
    one minus that distance, the [i]-th document or the empty string,
    and is built from the [i]-th metadata or from the empty record. The
    search returns these records as they are. *)
Theorem results_follow_the_ranking (results : query_result) (ids : list string)
    (rest : list (list string)) :
  qr_ids results = Some (ids :: rest) ->
  (∀ i, i < length ids -> rebuildable results i) ->
  ∃ rs, format_results results = Ok rs
    ∧ length rs = length ids
    ∧ (∀ (i : nat) id, ids !! i = Some id ->
         ∃ d distance document_text metadata,
           rs !! i = Some (PDict d)
           ∧ PDict d = search_result id metadata distance document_text
           ∧ dict_lookup "id" d = Some (PStr id)
           ∧ dict_lookup "distance" d = Some (PFloat distance)
           ∧ dict_lookup "similarity" d = Some (PFloat (1 - distance)%float)
           ∧ dict_lookup "document_text" d = Some (PStr document_text)
           ∧ distance = default 0%float (returned_at (qr_distances results) i)
           ∧ document_text = default "" (returned_at (qr_documents results) i)
           ∧ PDict metadata = default (PDict []) (returned_at (qr_metadatas results) i)
           ∧ (∀ distances more,
                qr_distances results = Some (distances :: more) ->
                distance = default 0%float (distances !! i)
                ∧ ((length distances ≤ i)%nat -> distance = 0%float))
           ∧ (∀ documents more,
                qr_documents results = Some (documents :: more) ->
                document_text = default "" (documents !! i)
                ∧ ((length documents ≤ i)%nat -> document_text = ""))
           ∧ (∀ metadatas more,
                qr_metadatas results = Some (metadatas :: more) ->
                PDict metadata = default (PDict []) (metadatas !! i)
                ∧ ((length metadatas ≤ i)%nat -> metadata = []))
           ∧ (qr_distances results = None ∨ qr_distances results = Some [] ->
              distance = 0%float)
           ∧ (qr_documents results = None ∨ qr_documents results = Some [] ->
              document_text = "")
           ∧ (qr_metadatas results = None ∨ qr_metadatas results = Some [] ->
              metadata = []))
    ∧ (∀ self coll problem_statement max_results v st st',
         collection self = Some coll ->
         model_encode self [problem_statement] = Ok v ->
         query coll v max_results st = (Ok results, st') ->
         search_notifications self problem_statement max_results st = (Ok rs, st')).
Proof.
  intros Hids Hall. exists (result_at results ids <$> seq 0 (length ids)).
  pose proof (format_results_ok _ _ _ Hids Hall) as Hrs. split_and!.
  - done.
  - by rewrite length_fmap, length_seq.
  - intros i id Hid.
    assert (Hi : i < length ids) by (by eapply lookup_lt_Some).
    destruct (Hall i Hi) as (metadata & Hm & _).
    exists (match search_result id metadata
                    (default 0%float (returned_at (qr_distances results) i))
                    (default "" (returned_at (qr_documents results) i)) with
            | PDict d => d
            | _ => []
            end),
      (default 0%float (returned_at (qr_distances results) i)),
      (default "" (returned_at (qr_documents results) i)), metadata.
    unfold metadata_at in Hm.
    split_and!; try reflexivity.
    + rewrite list_lookup_fmap, lookup_seq_lt by done.
      simpl. unfold result_at, metadata_at. by rewrite Hid, Hm.
    + done.
    + intros distances more ->. simpl. split; [done|].
      intros Hle. by rewrite lookup_ge_None_2.
    + intros documents more ->. simpl. split; [done|].
      intros Hle. by rewrite lookup_ge_None_2.
    + intros metadatas more Heq. rewrite Heq in Hm. simpl in Hm. split; [done|].
      intros Hle. rewrite lookup_ge_None_2 in Hm by done. simpl in Hm. congruence.
    + by intros [->| ->].
    + by intros [->| ->].
    + intros [Heq|Heq]; rewrite Heq in Hm; simpl in Hm; congruence.
  - intros self coll ps k v st st' Hcoll Henc Hq.
    unfold search_notifications. rewrite Hcoll.
    unfold mbind, stateful_bind, lift. by rewrite Henc, Hq, Hrs.
Qed.

(** C7. In a result whose records can all be rebuilt, when the stored
    [full_json] of a match is absent or is rejected by [json.loads], its
    [notification] is the empty object; when the stored [variables] is
    absent or is rejected, its [variables] is the empty list. Nothing is
    raised: the search returns a record for every id. *)
Theorem malformed_stored_json_defaults (results : query_result) (ids : list string)
    (rest : list (list string)) (i : nat) (id : string) :
  json_loads "{}" = Ok (PDict []) ->
  json_loads "[]" = Ok (PList []) ->
  qr_ids results = Some (ids :: rest) ->
  ids !! i = Some id ->
  (∀ j, j < length ids -> rebuildable results j) ->
  ∃ metadata rs d,
    default (PDict []) (returned_at (qr_metadatas results) i) = PDict metadata
    ∧ format_results results = Ok rs
    ∧ length rs = length ids
    ∧ rs !! i = Some (PDict d)
    ∧ (dict_lookup "full_json" metadata = None
       ∨ (∃ v e, dict_lookup "full_json" metadata = Some v
            ∧ json_loads (str float_repr str_repr v) = Raise e) ->
       dict_lookup "notification" d = Some (PDict []))
    ∧ (dict_lookup "variables" metadata = None
       ∨ (∃ v e, dict_lookup "variables" metadata = Some v
            ∧ json_loads (str float_repr str_repr v) = Raise e) ->
       dict_lookup "variables" d = Some (PList [])).
Proof.
  intros Hobj Harr Hids Hid Hall.
  assert (Hi : i < length ids) by (by eapply lookup_lt_Some).
  destruct (Hall i Hi) as (metadata & Hm & _). unfold metadata_at in Hm.
  exists metadata, (result_at results ids <$> seq 0 (length ids)).
  eexists. split_and!.
  - done.
  - by apply format_results_ok with rest.
  - by rewrite length_fmap, length_seq.
  - rewrite list_lookup_fmap, lookup_seq_lt by done.
    simpl. unfold result_at, metadata_at, search_result. rewrite Hm. reflexivity.
  - simpl. intros [Hno|(v & e & Hv & He)]; f_equal; unfold decoded, dict_get.
    + rewrite Hno. simpl. by rewrite Hobj.
    + rewrite Hv. destruct (truthy v); [|done]. by rewrite He.
  - simpl. intros [Hno|(v & e & Hv & He)]; f_equal; unfold decoded, dict_get.
    + rewrite Hno. simpl. by rewrite Harr.
    + rewrite Hv. destruct (truthy v); [|done]. by rewrite He.
Qed.

(** C10. In every record the reconstructor returns, file_path, folder,
    severity, service_name and log_type are strings, the string
    conversion of what the metadata holds (or of the default), and
    internal_only is a boolean, the truth value of what the metadata
    holds. *)
Theorem result_fields_are_coerced (results : query_result) (rs : list pyval)
    (i : nat) (r : pyval) :
  format_results results = Ok rs ->
  rs !! i = Some r ->
  ∃ d metadata,
    r = PDict d
    ∧ default (PDict []) (returned_at (qr_metadatas results) i) = PDict metadata
    ∧ let text key missing :=
        PStr (str float_repr str_repr (dict_get metadata key (PStr missing))) in
      dict_lookup "file_path" d = Some (text "file_path" "")
      ∧ dict_lookup "folder" d = Some (text "folder" "")
      ∧ dict_lookup "severity" d = Some (text "severity" "Unknown")
      ∧ dict_lookup "service_name" d = Some (text "service_name" "Unknown")
      ∧ dict_lookup "log_type" d = Some (text "log_type" "Unknown")
      ∧ dict_lookup "internal_only" d
        = Some (PBool (truthy (dict_get metadata "internal_only" (PBool false)))).
Proof.
  intros Hrs Hr.
  destruct (format_results_lookup _ _ _ _ Hrs Hr)
    as (ids & rest & id & metadata & _ & _ & Hm & ->).
  eexists _, metadata. split; [reflexivity|]. split; [exact Hm|]. by split_and!.
Qed.

(** *** The tools *)

(** C8. When the store returns no match (no id list, an empty one, or
    an empty first list of ids) the search returns the empty list and
    raises nothing, and the tool returns one record with a message and a
    suggestion. Whatever the search does, the tool never returns an
    empty list. *)
Theorem no_match_gives_the_advisory_record (self : NotificationSearchServer)
    (coll : Collection) (problem_statement : string) (max_results : Z)
    (v : embedding) (st st' : store) (results : query_result) :
  collection self = Some coll ->
  model_encode self [problem_statement] = Ok v ->
  query coll v max_results st = (Ok results, st') ->
  qr_ids results = None ∨ qr_ids results = Some []
    ∨ (∃ rest, qr_ids results = Some ([] :: rest)) ->
  search_notifications self problem_statement max_results st = (Ok [], st')
  ∧ search_service_logs self problem_statement max_results st = (Ok [no_match_record], st')
  ∧ (∃ message suggestion,
       no_match_record = PDict [("message", PStr message); ("suggestion", PStr suggestion)])
  ∧ (∀ self' problem_statement' max_results' st0,
       ∃ r rs, fst (search_service_logs self' problem_statement' max_results' st0)
               = Ok (r :: rs)).
Proof.
  intros Hcoll Henc Hq Hnone.
  assert (Hfmt : format_results results = Ok []).
  { unfold format_results. by destruct Hnone as [->|[->|[rest ->]]]. }
  assert (Hsearch : search_notifications self problem_statement max_results st = (Ok [], st')).
  { unfold search_notifications. rewrite Hcoll.
    unfold mbind, stateful_bind, lift. by rewrite Henc, Hq, Hfmt. }
  split_and!.
  - done.
  - unfold search_service_logs. by rewrite Hsearch.
  - by eexists _, _.
  - intros self' ps' k' st0. unfold search_service_logs.
    destruct (search_notifications self' ps' k' st0) as [[[|r rs]|e] st1]; simpl; eauto.
Qed.

(** The values of [key] over the stored metadata, [unknown] for a record
    without it. *)
Definition observed (key : string) (metadatas : list (list (string * pyval))) : list string :=
  (fun metadata => str float_repr str_repr (dict_get metadata key (PStr "unknown")))
    <$> metadatas.

(** [l] lists the values of [key]: sorted, no value twice, none missing. *)
Definition lists_values (key : string) (metadatas : list (list (string * pyval)))
  (l : list string) : Prop :=
  Sorted String.le l ∧ NoDup l ∧ ∀ x, x ∈ l ↔ x ∈ observed key metadatas.

Lemma stats_loop_observed (metadatas : list (list (string * pyval)))
    (a b c : gset string) :
  stats_loop (PDict <$> metadatas) (a, b, c)
  = Ok (a ∪ list_to_set (observed "folder" metadatas),
        b ∪ list_to_set (observed "severity" metadatas),
        c ∪ list_to_set (observed "service_name" metadatas)).
Proof.
  revert a b c. induction metadatas as [|m ms IH]; intros a b c.
  - simpl. by rewrite !(right_id_L ∅ (∪)).
  - csimpl. rewrite IH. simpl. by rewrite !(assoc_L (∪)).
Qed.

(** The loop stops at the first metadata that is no dict. *)
Lemma stats_loop_no_dict (before : list (list (string * pyval))) (v : pyval)
    (behind : list pyval) (sets : gset string * gset string * gset string) :
  (∀ metadata, v ≠ PDict metadata) ->
  stats_loop ((PDict <$> before) ++ v :: behind) sets
  = Raise (Exn AttributeError ("'" +:+ type_name v +:+ "' object has no attribute 'get'")).
Proof.
  intros Hno. revert sets. induction before as [|m ms IH]; intros [[a b] c].
  - simpl. destruct v as [| | | | | |metadata]; try done. by destruct (Hno metadata).
  - csimpl. apply IH.
Qed.

Lemma sorted_set_lists_values key metadatas :
  lists_values key metadatas (sorted_set (list_to_set (observed key metadatas))).
Proof.
  split_and!; [apply sorted_set_Sorted | apply sorted_set_NoDup |].
  intros x. rewrite elem_of_sorted_set. apply elem_of_list_to_set.
Qed.

(** C9. With a collection whose [count] and [get] answer and leave the
    store as it is, and whose stored metadata are all dicts, the stats
    tool returns the count as total_notifications and, for folder,
    severity and service_name, the sorted list of the distinct values of
    the stored metadata, [unknown] standing for a missing value; the
    store is as before. Whenever the two reads leave the store
    unchanged, so does the tool. *)
Theorem stats_list_sorted_distinct_values (self : NotificationSearchServer)
    (coll : Collection) (st : store) (n : Z)
    (stored : option (list pyval)) (metadatas : list (list (string * pyval))) :
  collection self = Some coll ->
  count coll st = (Ok n, st) ->
  get coll st = (Ok (GetResult stored), st) ->
  default [] stored = PDict <$> metadatas ->
  (∃ folders severities service_names,
     get_database_stats self st =
       (Ok (PDict [("total_notifications", PInt n);
                   ("folders", PList (PStr <$> folders));
                   ("severities", PList (PStr <$> severities));
                   ("service_names", PList (PStr <$> service_names));
                   ("database_path", PStr (db_path self))]), st)
     ∧ lists_values "folder" metadatas folders
     ∧ lists_values "severity" metadatas severities
     ∧ lists_values "service_name" metadatas service_names)
  ∧ (∀ self' st0,
       (∀ coll', collection self' = Some coll' ->
          (∀ s, snd (count coll' s) = s) ∧ (∀ s, snd (get coll' s) = s)) ->
       snd (get_database_stats self' st0) = st0).
Proof.
  intros Hcoll Hcount Hget Hdicts. split.
  - exists (sorted_set (list_to_set (observed "folder" metadatas))),
      (sorted_set (list_to_set (observed "severity" metadatas))),
      (sorted_set (list_to_set (observed "service_name" metadatas))).
    split; [|split_and!; apply sorted_set_lists_values].
    unfold get_database_stats. rewrite Hcoll.
    unfold mbind, stateful_bind, lift. rewrite Hcount, Hget. cbn [gr_metadatas].
    assert (Hsets : match stored with
                    | Some (m :: ms) => stats_loop (m :: ms) (∅, ∅, ∅)
                    | _ => Ok (∅, ∅, ∅)
                    end
                    = Ok (list_to_set (observed "folder" metadatas),
                          list_to_set (observed "severity" metadatas),
                          list_to_set (observed "service_name" metadatas))).
    { destruct stored as [[|m ms]|]; simpl in Hdicts.
      - by destruct metadatas.
      - rewrite Hdicts, stats_loop_observed. by rewrite !(left_id_L ∅ (∪)).
      - by destruct metadatas. }
    by rewrite Hsets.
  - intros self' st0 Hpure. unfold get_database_stats.
    destruct (collection self') as [coll'|]; [|done].
    destruct (Hpure coll' eq_refl) as [Hc Hg].
    unfold mbind, stateful_bind, lift.
    specialize (Hc st0). destruct (count coll' st0) as [[n'|e] st1]; cbn [snd] in Hc;
      subst st1; [|done].
    specialize (Hg st0). destruct (get coll' st0) as [[all_results|e] st1]; cbn [snd] in Hg;
      subst st1; [|done].
    by destruct (match gr_metadatas all_results with
                 | Some (m :: ms) => stats_loop (m :: ms) (∅, ∅, ∅)
                 | _ => Ok (∅, ∅, ∅)
                 end) as [[[? ?] ?]|e].
Qed.

End Server.

(** *** Examples *)

Lemma sample_decodes (text : pyval) :
  decodes Sample.float_repr Sample.str_repr Sample.json_loads text.
Proof. intros _ e He. by rewrite (Sample.json_loads_raises _ e He). Qed.

(** A store for the examples: the stored documents in the order the
    query ranks them, each with its distance to the query; the metadata
    is a dict, or [None] for a record stored without metadata. *)
Record stored : Type := Stored {
  stored_id : string;
  stored_distance : float;
  stored_metadata : pyval;
  stored_document : string
}.

Definition sample_collection : Collection unit (list stored) := {|
  query := fun _ n_results st =>
    let hits := take (Z.to_nat n_results) st in
    (Ok (QueryResult (Some [stored_id <$> hits]) (Some [stored_metadata <$> hits])
           (Some [stored_distance <$> hits]) (Some [stored_document <$> hits])), st);
  count := fun st => (Ok (Z.of_nat (length st)), st);
  get := fun st => (Ok (GetResult (Some (stored_metadata <$> st))), st)
|}.

Definition sample_server : NotificationSearchServer unit (list stored) := {|
  db_path := "chroma_db";
  model_encode := fun _ => Ok tt;
  collection := Some sample_collection
|}.

Definition pod_metadata : list (string * pyval) :=
  [("file_path", PStr "hcp/a.json"); ("folder", PStr "hcp");
   ("severity", PStr "Critical"); ("service_name", PStr "Unknown");
   ("log_type", PStr "Unknown"); ("internal_only", PBool false);
   ("variables", PStr (Sample.json_dumps (PList [PStr "NAMESPACE"; PStr "POD"])));
   ("full_json",
     PStr (Sample.json_dumps (PDict [("summary", PStr "Pod ${POD} failed in ${NAMESPACE}")])))].

(** A record written by something else: numbers where strings are
    expected, texts that are not JSON, no service_name. *)
Definition odd_metadata : list (string * pyval) :=
  [("file_path", PStr "osd/b.json"); ("folder", PStr "osd");
   ("severity", PInt 3); ("log_type", PBool true); ("internal_only", PInt 1);
   ("variables", PStr "NAMESPACE, POD"); ("full_json", PStr "{summary")].

Definition hcp_metadata : list (string * pyval) :=
  [("folder", PStr "hcp"); ("severity", PStr "Unknown")].

Definition sample_store : list stored :=
  [Stored "notification_0" 0.25 (PDict pod_metadata) "Pod ${POD} failed in ${NAMESPACE}";
   Stored "notification_3" 0.5 (PDict odd_metadata) "unrelated text";
   Stored "notification_4" 0.75 (PDict hcp_metadata) "more"].

Definition sample_search :=
  search_service_logs unit (list stored) Sample.float_repr Sample.str_repr Sample.json_loads
    sample_server.

Definition sample_stats :=
  get_database_stats unit (list stored) Sample.float_repr Sample.str_repr sample_server.

Example search_example :
  sample_search "pod failure" 2 sample_store =
  (Ok [PDict [("id", PStr "notification_0"); ("distance", PFloat 0.25);
              ("similarity", PFloat 0.75); ("file_path", PStr "hcp/a.json");
              ("folder", PStr "hcp"); ("severity", PStr "Critical");
              ("service_name", PStr "Unknown"); ("log_type", PStr "Unknown");
              ("internal_only", PBool false);
              ("variables", PList [PStr "NAMESPACE"; PStr "POD"]);
              ("document_text", PStr "Pod ${POD} failed in ${NAMESPACE}");
              ("notification", PDict [("summary", PStr "Pod ${POD} failed in ${NAMESPACE}")])];
       PDict [("id", PStr "notification_3"); ("distance", PFloat 0.5);
              ("similarity", PFloat 0.5); ("file_path", PStr "osd/b.json");
              ("folder", PStr "osd"); ("severity", PStr "3");
              ("service_name", PStr "Unknown"); ("log_type", PStr "True");
              ("internal_only", PBool true);
              ("variables", PList []);
              ("document_text", PStr "unrelated text");
              ("notification", PDict [])]],
   sample_store).
Proof. vm_compute. reflexivity. Qed.

Example stats_example :
  sample_stats sample_store =
  (Ok (PDict [("total_notifications", PInt 3);
              ("folders", PList [PStr "hcp"; PStr "osd"]);
              ("severities", PList [PStr "3"; PStr "Critical"; PStr "Unknown"]);
              ("service_names", PList [PStr "Unknown"; PStr "unknown"]);
              ("database_path", PStr "chroma_db")]),
   sample_store).
Proof. vm_compute. reflexivity. Qed.

(** The store left out the documents and returned one distance for two ids. *)
Definition short_results : query_result :=
  QueryResult (Some [["notification_0"; "notification_3"]])
    (Some [[PDict pod_metadata; PDict odd_metadata]]) (Some [[0.25%float]]) None.

Definition sample_format_results :=
  format_results Sample.float_repr Sample.str_repr Sample.json_loads.

Lemma short_results_rebuildable (i : nat) :
  i < 2 -> rebuildable Sample.float_repr Sample.str_repr Sample.json_loads short_results i.
Proof.
  intros Hi. destruct i as [|[|i]]; [| |lia].
  - exists pod_metadata. split; [reflexivity|]. split; apply sample_decodes.
  - exists odd_metadata. split; [reflexivity|]. split; apply sample_decodes.
Qed.

Lemma results_follow_the_ranking_witness :
  qr_ids short_results = Some [["notification_0"; "notification_3"]]
  ∧ (∀ i, i < 2 ->
       rebuildable Sample.float_repr Sample.str_repr Sample.json_loads short_results i)
  ∧ ∃ rs d0 d1,
      sample_format_results short_results = Ok rs
      ∧ length rs = 2
      ∧ rs !! 0 = Some (PDict d0)
      ∧ dict_lookup "id" d0 = Some (PStr "notification_0")
      ∧ dict_lookup "distance" d0 = Some (PFloat 0.25)
      ∧ dict_lookup "similarity" d0 = Some (PFloat 0.75)
      ∧ PDict d0 = search_result Sample.float_repr Sample.str_repr Sample.json_loads
                     "notification_0" pod_metadata 0.25 ""
      ∧ rs !! 1 = Some (PDict d1)
      ∧ dict_lookup "id" d1 = Some (PStr "notification_3")
      ∧ dict_lookup "distance" d1 = Some (PFloat 0)
      ∧ dict_lookup "similarity" d1 = Some (PFloat 1)
      ∧ dict_lookup "document_text" d1 = Some (PStr "")
      ∧ PDict d1 = search_result Sample.float_repr Sample.str_repr Sample.json_loads
                     "notification_3" odd_metadata 0 "".
Proof.
  split; [reflexivity|]. split; [exact short_results_rebuildable|].
  destruct (results_follow_the_ranking unit (list stored)
              Sample.float_repr Sample.str_repr Sample.json_loads
              short_results ["notification_0"; "notification_3"] []
              eq_refl short_results_rebuildable) as (rs & Hrs & Hlen & Hat & _).
  destruct (Hat 0 "notification_0" eq_refl)
    as (d0 & distance0 & text0 & metadata0 & Hd0 & Hrec0 & Hid0 & Hdist0 & Hsim0 & _
        & -> & -> & Hmeta0 & _).
  destruct (Hat 1 "notification_3" eq_refl)
    as (d1 & distance1 & text1 & metadata1 & Hd1 & Hrec1 & Hid1 & Hdist1 & Hsim1 & Hdoc1
        & -> & -> & Hmeta1 & _).
  injection Hmeta0 as ->. injection Hmeta1 as ->.
  exists rs, d0, d1. split_and!;
    [exact Hrs | exact Hlen | exact Hd0 | exact Hid0 | exact Hdist0 | exact Hsim0
    | exact Hrec0 | exact Hd1 | exact Hid1 | exact Hdist1 | exact Hsim1 | exact Hdoc1
    | exact Hrec1].
Defined.

(** A record stored without metadata: the store returns [None] for it. *)
Definition bare_results : query_result :=
  QueryResult (Some [["notification_7"]]) (Some [[PNone]]) (Some [[0.25%float]])
    (Some [["Pod failed"]]).

Definition no_get : exn := Exn AttributeError "'NoneType' object has no attribute 'get'".

(** For one id whose metadata is [None] the reconstructor returns no
    record: [metadata.get] raises, and the tool reports a failed search. *)
Lemma record_without_metadata_gets_no_result :
  qr_ids bare_results = Some [["notification_7"]]
  ∧ sample_format_results bare_results = Raise no_get
  ∧ sample_search "pod failure" 5 [Stored "notification_7" 0.25 PNone "Pod failed"]
    = (Ok [PDict [("error",
                    PStr "Search failed: 'NoneType' object has no attribute 'get'");
                  ("suggestion",
                    PStr "Ensure the embeddings database has been built by running scripts/build_embeddings.py")]],
       [Stored "notification_7" 0.25 PNone "Pod failed"]).
Proof. split_and!; vm_compute; reflexivity. Qed.

Lemma malformed_stored_json_defaults_witness :
  Sample.json_loads "{}" = Ok (PDict [])
  ∧ Sample.json_loads "[]" = Ok (PList [])
  ∧ qr_ids short_results = Some [["notification_0"; "notification_3"]]
  ∧ ["notification_0"; "notification_3"] !! 1 = Some "notification_3"
  ∧ (∀ i, i < 2 ->
       rebuildable Sample.float_repr Sample.str_repr Sample.json_loads short_results i)
  ∧ Sample.json_loads "{summary" = Raise Sample.decode_error
  ∧ Sample.json_loads "NAMESPACE, POD" = Raise Sample.decode_error
  ∧ ∃ rs d, sample_format_results short_results = Ok rs
      ∧ length rs = 2
      ∧ rs !! 1 = Some (PDict d)
      ∧ dict_lookup "notification" d = Some (PDict [])
      ∧ dict_lookup "variables" d = Some (PList []).
Proof.
  do 4 (split; [reflexivity|]). split; [exact short_results_rebuildable|].
  do 2 (split; [reflexivity|]).
  destruct (malformed_stored_json_defaults
              Sample.float_repr Sample.str_repr Sample.json_loads
              short_results ["notification_0"; "notification_3"] [] 1 "notification_3"
              eq_refl eq_refl eq_refl eq_refl short_results_rebuildable)
    as (metadata & rs & d & Hm & Hrs & Hlen & Hd & Hfj & Hvs).
  injection Hm as <-.
  exists rs, d. split_and!; [exact Hrs | exact Hlen | exact Hd | |].
  - apply Hfj. right. exists (PStr "{summary"), Sample.decode_error. split; reflexivity.
  - apply Hvs. right. exists (PStr "NAMESPACE, POD"), Sample.decode_error. split; reflexivity.
Defined.

(** Two matches, the second stored without metadata. *)
Definition mixed_results : query_result :=
  QueryResult (Some [["notification_0"; "notification_7"]])
    (Some [[PDict pod_metadata; PNone]]) (Some [[0.25%float; 0.5%float]])
    (Some [["Pod ${POD} failed in ${NAMESPACE}"; "Pod failed"]]).

(** The second match has no [full_json] and no [variables], its metadata
    being [None]: the reconstruction raises, and the first match, whose
    metadata is in order, is not returned either. *)
Lemma missing_metadata_fails_the_whole_query :
  qr_ids mixed_results = Some [["notification_0"; "notification_7"]]
  ∧ returned_at (qr_metadatas mixed_results) 0 = Some (PDict pod_metadata)
  ∧ returned_at (qr_metadatas mixed_results) 1 = Some PNone
  ∧ sample_format_results mixed_results = Raise no_get
  ∧ sample_search "pod failure" 5
      [Stored "notification_0" 0.25 (PDict pod_metadata) "Pod ${POD} failed in ${NAMESPACE}";
       Stored "notification_7" 0.5 PNone "Pod failed"]
    = (Ok [search_failed_record no_get],
       [Stored "notification_0" 0.25 (PDict pod_metadata) "Pod ${POD} failed in ${NAMESPACE}";
        Stored "notification_7" 0.5 PNone "Pod failed"]).
Proof. split_and!; vm_compute; reflexivity. Qed.

Lemma no_match_gives_the_advisory_record_witness :
  collection unit (list stored) sample_server = Some sample_collection
  ∧ model_encode unit (list stored) sample_server ["pod failure"] = Ok tt
  ∧ query unit (list stored) sample_collection tt 5 []
    = (Ok (QueryResult (Some [[]]) (Some [[]]) (Some [[]]) (Some [[]])), [])
  ∧ sample_search "pod failure" 5 [] = (Ok [no_match_record], []).
Proof.
  do 3 (split; [reflexivity|]).
  refine (proj1 (proj2 (no_match_gives_the_advisory_record unit (list stored)
            Sample.float_repr Sample.str_repr Sample.json_loads
            sample_server sample_collection "pod failure" 5 tt [] []
            (QueryResult (Some [[]]) (Some [[]]) (Some [[]]) (Some [[]]))
            eq_refl eq_refl eq_refl _))).
  right. right. by exists [].
Defined.

Lemma stats_list_sorted_distinct_values_witness :
  collection unit (list stored) sample_server = Some sample_collection
  ∧ count unit (list stored) sample_collection sample_store = (Ok 3%Z, sample_store)
  ∧ get unit (list stored) sample_collection sample_store
    = (Ok (GetResult (Some (stored_metadata <$> sample_store))), sample_store)
  ∧ stored_metadata <$> sample_store = PDict <$> [pod_metadata; odd_metadata; hcp_metadata]
  ∧ sample_stats sample_store
    = (Ok (PDict [("total_notifications", PInt 3);
                  ("folders", PList [PStr "hcp"; PStr "osd"]);
                  ("severities", PList [PStr "3"; PStr "Critical"; PStr "Unknown"]);
                  ("service_names", PList [PStr "Unknown"; PStr "unknown"]);
                  ("database_path", PStr "chroma_db")]),
       sample_store)
  ∧ ∃ folders severities service_names,
      sample_stats sample_store
      = (Ok (PDict [("total_notifications", PInt 3);
                    ("folders", PList (PStr <$> folders));
                    ("severities", PList (PStr <$> severities));
                    ("service_names", PList (PStr <$> service_names));
                    ("database_path", PStr "chroma_db")]),
         sample_store)
      ∧ lists_values Sample.float_repr Sample.str_repr "folder"
          [pod_metadata; odd_metadata; hcp_metadata] folders
      ∧ lists_values Sample.float_repr Sample.str_repr "severity"
          [pod_metadata; odd_metadata; hcp_metadata] severities
      ∧ lists_values Sample.float_repr Sample.str_repr "service_name"
          [pod_metadata; odd_metadata; hcp_metadata] service_names.
Proof.
  do 4 (split; [reflexivity|]). split; [vm_compute; reflexivity|].
  exact (proj1 (stats_list_sorted_distinct_values unit (list stored)
                  Sample.float_repr Sample.str_repr
                  sample_server sample_collection sample_store 3
                  (Some (stored_metadata <$> sample_store))
                  [pod_metadata; odd_metadata; hcp_metadata]
                  eq_refl eq_refl eq_refl eq_refl)).
Defined.

(** A store in which the second record was stored without metadata. *)
Definition store_with_bare_record : list stored :=
  [Stored "notification_0" 0.25 (PDict pod_metadata) "Pod ${POD} failed in ${NAMESPACE}";
   Stored "notification_7" 0.5 PNone "Pod failed"].

(** With one record stored without metadata the stats tool returns no
    lists: the loop raises on [metadata.get] and the tool answers with
    the error record. *)
Lemma record_without_metadata_fails_the_stats :
  count unit (list stored) sample_collection store_with_bare_record
  = (Ok 2%Z, store_with_bare_record)
  ∧ get unit (list stored) sample_collection store_with_bare_record
    = (Ok (GetResult (Some [PDict pod_metadata; PNone])), store_with_bare_record)
  ∧ sample_stats store_with_bare_record
    = (Ok (PDict [("error",
                    PStr "Failed to get database stats: 'NoneType' object has no attribute 'get'")]),
       store_with_bare_record).
Proof. split_and!; vm_compute; reflexivity. Qed.

Lemma result_fields_are_coerced_witness :
  sample_format_results short_results
  = Ok [result_at Sample.float_repr Sample.str_repr Sample.json_loads short_results
          ["notification_0"; "notification_3"] 0;
        result_at Sample.float_repr Sample.str_repr Sample.json_loads short_results
          ["notification_0"; "notification_3"] 1]
  ∧ ∃ d, result_at Sample.float_repr Sample.str_repr Sample.json_loads short_results
           ["notification_0"; "notification_3"] 1 = PDict d
      ∧ dict_lookup "severity" d = Some (PStr "3")
      ∧ dict_lookup "log_type" d = Some (PStr "True")
      ∧ dict_lookup "internal_only" d = Some (PBool true).
Proof.
  assert (Hrun : sample_format_results short_results
    = Ok [result_at Sample.float_repr Sample.str_repr Sample.json_loads short_results
            ["notification_0"; "notification_3"] 0;
          result_at Sample.float_repr Sample.str_repr Sample.json_loads short_results
            ["notification_0"; "notification_3"] 1]) by (vm_compute; reflexivity).
  split; [exact Hrun|].
  destruct (result_fields_are_coerced
              Sample.float_repr Sample.str_repr Sample.json_loads
              short_results _ 1 _ Hrun eq_refl)
    as (d & metadata & Hd & Hm & _ & _ & Hsev & _ & Hlog & Hint).
  injection Hm as <-.
  exists d. split_and!; [exact Hd | exact Hsev | exact Hlog | exact Hint].
Defined.

End Main.

(** ** More on the walk of scripts/build_embeddings.py *)

Module Ingested.
Import Py BuildEmbeddings.

Section Walk.
Variable float_repr : float -> string.
Variable str_repr : string -> string.
Variable json_dumps : pyval -> string.

Local Abbreviation process :=
  (process_notification_files float_repr str_repr json_dumps).
Local Abbreviation entry := (entry_of float_repr str_repr json_dumps).

(** An accepted file holds a JSON object whose text does not strip to
    nothing; its entry is that text and the metadata of the object. *)
Lemma entry_of_Some (f : json_file) (doc : string) (meta : pyval) :
  entry f = Some (doc, meta) ->
  ∃ d, loaded f = Ok (PDict d)
    ∧ extract_searchable_text float_repr str_repr (PDict d) = Ok doc
    ∧ strip doc ≠ ""
    ∧ meta = metadata_of float_repr str_repr json_dumps f d.
Proof.
  unfold entry_of, classify.
  destruct (loaded f) as [nd|e]; [|by destruct (caught e)].
  destruct (extract_searchable_text float_repr str_repr nd) as [t|e] eqn:Ht;
    [|by destruct (caught e)].
  destruct (String.eqb_spec (strip t) "") as [Hb|Hb]; [done|].
  destruct nd; try done. intros [= <- <-]. by exists d.
Qed.

Lemma returned_entry (json_files : list json_file) docs metas idl (j : nat) :
  fst (process json_files) = Ok (docs, metas, idl) ->
  j < length metas ->
  ∃ k f d doc,
    json_files !! k = Some f
    ∧ loaded f = Ok (PDict d)
    ∧ extract_searchable_text float_repr str_repr (PDict d) = Ok doc
    ∧ strip doc ≠ ""
    ∧ docs !! j = Some doc
    ∧ metas !! j = Some (metadata_of float_repr str_repr json_dumps f d)
    ∧ idl !! j = Some (notification_id k).
Proof.
  intros Hrun Hj.
  destruct (process_notification_files_result float_repr str_repr json_dumps json_files)
    as [[_ Hr]|[_ [e Hr]]]; rewrite Hr in Hrun; [|done].
  injection Hrun as <- <- <-.
  rewrite length_fmap, <- (accepted_positions_length _ _ _ 0) in Hj.
  destruct (lookup_lt_is_Some_2 _ _ Hj) as [k Hk].
  destruct (accepted_positions_lookup _ _ _ _ _ _ _ Hk)
    as (_ & f & [doc meta] & Hf & He & Hj').
  rewrite Nat.sub_0_r in Hf.
  destruct (entry_of_Some _ _ _ He) as (d & Hd & Ht & Hb & ->).
  exists k, f, d, doc. split_and!; try done.
  - by rewrite list_lookup_fmap, Hj'.
  - by rewrite list_lookup_fmap, Hj'.
  - by rewrite list_lookup_fmap, Hk.
Qed.

(** The text a file gives to the index: the searchable text of the JSON
    object it holds, unless that text strips to nothing. *)
Definition indexed_text (f : json_file) : option string :=
  match loaded f with
  | Ok (PDict d) =>
      match extract_searchable_text float_repr str_repr (PDict d) with
      | Ok t => if String.eqb (strip t) "" then None else Some t
      | Raise _ => None
      end
  | _ => None
  end.

Lemma entry_indexed_text (f : json_file) : fst <$> entry f = indexed_text f.
Proof.
  unfold entry_of, classify, indexed_text.
  destruct (loaded f) as [nd|e]; [|by destruct (caught e)].
  destruct nd as [| | | | s | l | d]; try
    (destruct (extract_searchable_text float_repr str_repr _) as [t|e] eqn:Ht;
     [|by destruct (caught e)];
     apply extract_searchable_text_not_dict in Ht; [by subst t|done]).
  destruct (extract_searchable_text float_repr str_repr (PDict d)) as [t|e];
    [|by destruct (caught e)].
  by destruct (String.eqb (strip t) "").
Qed.

(** X1. The documents returned are the texts of the files that hold a JSON
    object with a text that is not blank, in the order of the files: a
    file that holds a list, a string or a scalar gives no document. *)
Theorem documents_are_the_object_texts (json_files : list json_file) docs metas idl :
  fst (process json_files) = Ok (docs, metas, idl) ->
  docs = omap indexed_text json_files
  ∧ ∀ f nd, loaded f = Ok nd -> (∀ d, nd ≠ PDict d) -> indexed_text f = None.
Proof.
  intros Hrun. split.
  - destruct (process_notification_files_result float_repr str_repr json_dumps json_files)
      as [[_ Hr]|[_ [e Hr]]]; rewrite Hr in Hrun; [|done].
    injection Hrun as <- _ _. clear Hr.
    induction json_files as [|f rest IH]; [done|].
    cbn [omap list_omap]. rewrite <- entry_indexed_text, <- IH.
    by destruct (entry f) as [[doc meta]|].
  - intros f nd Hnd Hno. unfold indexed_text. rewrite Hnd.
    destruct nd; try done. by destruct (Hno d).
Qed.

(** The placeholders of one field of a record. *)
Definition placeholders (d : list (string * pyval)) (field : string) : list string :=
  match dict_lookup field d with
  | Some v => if truthy v then findall (str float_repr str_repr v) else []
  | None => []
  end.

(** X2. Every metadata entry returned has the same eight keys; it names the
    file by its path relative to the corpus root, joined by slashes, and
    by its folder: the first part of that path, [root] for a file right
    under the corpus root. Severity, service_name and log_type are what
    the record holds under these keys, [Unknown] when it has no such key;
    internal_only is what the record holds, [False] without the key;
    full_json is the whole record, written as JSON. *)
Theorem stored_metadata_entry (json_files : list json_file) docs metas idl (j : nat) :
  fst (process json_files) = Ok (docs, metas, idl) ->
  j < length metas ->
  ∃ k f d m,
    json_files !! k = Some f ∧ loaded f = Ok (PDict d)
    ∧ idl !! j = Some (notification_id k)
    ∧ metas !! j = Some (PDict m)
    ∧ fst <$> m = ["file_path"; "folder"; "severity"; "service_name"; "log_type";
                   "internal_only"; "variables"; "full_json"]
    ∧ dict_lookup "file_path" m = Some (PStr (join "/" (relative_parts f)))
    ∧ dict_lookup "folder" m
      = Some (PStr match relative_parts f with
                   | first :: _ :: _ => first
                   | _ => "root"
                   end)
    ∧ dict_lookup "severity" m = Some (dict_get d "severity" (PStr "Unknown"))
    ∧ dict_lookup "service_name" m = Some (dict_get d "service_name" (PStr "Unknown"))
    ∧ dict_lookup "log_type" m = Some (dict_get d "log_type" (PStr "Unknown"))
    ∧ dict_lookup "internal_only" m = Some (dict_get d "internal_only" (PBool false))
    ∧ dict_lookup "full_json" m = Some (PStr (json_dumps (PDict d))).
Proof.
  intros Hrun Hj.
  destruct (returned_entry _ _ _ _ _ Hrun Hj) as (k & f & d & doc & Hf & Hd & _ & _ & _ & Hm & Hid).
  unfold metadata_of in Hm.
  exists k, f, d. eexists. repeat split; [exact Hf | exact Hd | exact Hid | exact Hm |..];
    try reflexivity.
  simpl. f_equal. f_equal. unfold get_folder_metadata.
  by destruct (relative_parts f) as [|p [|q rest]].
Qed.

(** X3. The variables stored with a record are the placeholders of its
    summary and of its description, and of no other field: the entry at
    place [j] belongs to the file its id names, holds the path of that
    file and the JSON of its record, and its variables are the JSON of
    the names of the placeholders of that record, sorted, each once. *)
Theorem stored_variables (json_files : list json_file) docs metas idl (j : nat) :
  fst (process json_files) = Ok (docs, metas, idl) ->
  j < length metas ->
  ∃ k f d m vs,
    json_files !! k = Some f ∧ loaded f = Ok (PDict d)
    ∧ idl !! j = Some (notification_id k)
    ∧ metas !! j = Some (PDict m)
    ∧ dict_lookup "file_path" m = Some (PStr (join "/" (relative_parts f)))
    ∧ dict_lookup "full_json" m = Some (PStr (json_dumps (PDict d)))
    ∧ dict_lookup "variables" m = Some (PStr (json_dumps (PList (PStr <$> vs))))
    ∧ Sorted String.le vs ∧ NoDup vs
    ∧ ∀ x, x ∈ vs ↔ x ∈ placeholders d "summary" ∨ x ∈ placeholders d "description".
Proof.
  intros Hrun Hj.
  destruct (returned_entry _ _ _ _ _ Hrun Hj)
    as (k & f & d & doc & Hf & Hd & _ & _ & _ & Hm & Hid).
  unfold metadata_of in Hm.
  exists k, f, d. eexists. eexists.
  split; [exact Hf|]. split; [exact Hd|]. split; [exact Hid|]. split; [exact Hm|].
  do 3 (split; [reflexivity|]).
  split_and!.
  - apply sorted_set_Sorted.
  - apply sorted_set_NoDup.
  - intros x. rewrite elem_of_sorted_set, elem_of_union.
    unfold field_variables, placeholders.
    destruct (dict_lookup "summary" d) as [v1|], (dict_lookup "description" d) as [v2|];
      try destruct (truthy v1); try destruct (truthy v2);
      rewrite ?elem_of_list_to_set, ?elem_of_empty, ?elem_of_nil; tauto.
Qed.

(** *** What ends the walk *)

Local Abbreviation reads_on := (fun g => aborts float_repr str_repr json_dumps g = false).

(** X4. An error of reading other than the two the walk catches ends it: the
    walk raises that error and returns no lists; it has printed the count
    of the files found and the errors of the files before, and the files
    behind are not looked at. *)
Theorem uncaught_read_error_ends_the_walk (pre : list json_file) (f : json_file)
    (post : list json_file) (e : exn) :
  Forall reads_on pre ->
  loaded f = Raise e ->
  exn_cls e ≠ JSONDecodeError ->
  exn_cls e ≠ FileNotFoundError ->
  process (pre ++ f :: post)
  = (Raise e, LogFound (length (pre ++ f :: post))
                :: omap (error_of float_repr str_repr json_dumps) pre)
  ∧ ∀ post', fst (process (pre ++ f :: post')) = Raise e.
Proof.
  intros Hpre Hload H1 H2.
  assert (Hc : classify float_repr str_repr json_dumps f = Aborted e).
  { unfold classify, caught. rewrite Hload. by destruct (exn_cls e). }
  split; [|intros post']; by rewrite (process_notification_files_abort _ _ _ _ _ _ _ Hpre Hc).
Qed.

Lemma as_strings_not_str (l : list pyval) (v : pyval) :
  v ∈ l -> (∀ s, v ≠ PStr s) -> ∃ e, as_strings l = Raise e ∧ exn_cls e = TypeError.
Proof.
  intros Hv Hno. induction l as [|w l IH]; [by apply elem_of_nil in Hv|].
  apply elem_of_cons in Hv as [<-|Hv].
  - destruct v; simpl; eauto. by destruct (Hno s).
  - destruct w; simpl; eauto. destruct (IH Hv) as (e & -> & He). simpl. eauto.
Qed.

(** X5. A tag that is not a string ends the walk: joining the parts raises a
    type error, which the walk does not catch. *)
Theorem tag_that_is_no_string_ends_the_walk (pre : list json_file) (f : json_file)
    (post : list json_file) (d : list (string * pyval)) (tags : list pyval) (v : pyval) :
  Forall reads_on pre ->
  loaded f = Ok (PDict d) ->
  dict_lookup "_tags" d = Some (PList tags) ->
  v ∈ tags ->
  (∀ s, v ≠ PStr s) ->
  ∃ e, exn_cls e = TypeError
    ∧ extract_searchable_text float_repr str_repr (PDict d) = Raise e
    ∧ fst (process (pre ++ f :: post)) = Raise e.
Proof.
  intros Hpre Hload Htags Hv Hno.
  assert (Hex : ∃ e, exn_cls e = TypeError
                  ∧ extract_searchable_text float_repr str_repr (PDict d) = Raise e).
  { rewrite extract_searchable_text_dict, Htags.
    assert (Ht : truthy (PList tags) = true).
    { destruct tags; [by apply elem_of_nil in Hv | done]. }
    rewrite Ht. simpl. unfold py_join. rewrite as_strings_app, as_strings_PStr. simpl.
    destruct (as_strings_not_str _ _ Hv Hno) as (e & -> & He). simpl. eauto. }
  destruct Hex as (e & He & Hraise). exists e. split_and!; [done..|].
  assert (Hc : classify float_repr str_repr json_dumps f = Aborted e).
  { unfold classify, caught. by rewrite Hload, Hraise, He. }
  by rewrite (process_notification_files_abort _ _ _ _ _ _ _ Hpre Hc).
Qed.

(** X6. A file whose JSON is a number, a boolean or null ends the walk with a
    type error: the membership test on such a value raises. *)
Theorem scalar_document_ends_the_walk (pre : list json_file) (f : json_file)
    (post : list json_file) (nd : pyval) :
  Forall reads_on pre ->
  loaded f = Ok nd ->
  match nd with
  | PNone | PBool _ | PInt _ | PFloat _ => True
  | _ => False
  end ->
  ∃ e, exn_cls e = TypeError ∧ fst (process (pre ++ f :: post)) = Raise e.
Proof.
  intros Hpre Hload Hnd.
  assert (Hc : ∃ e, exn_cls e = TypeError
                 ∧ classify float_repr str_repr json_dumps f = Aborted e).
  { unfold classify. rewrite Hload.
    destruct nd; try done; (eexists; split; [|reflexivity]; reflexivity). }
  destruct Hc as (e & He & Hc). exists e. split; [done|].
  by rewrite (process_notification_files_abort _ _ _ _ _ _ _ Hpre Hc).
Qed.

(** *** Batches, output, and tags that are no list *)

Lemma accepted_positions_shift (n idx : nat) (l : list json_file) :
  accepted_positions float_repr str_repr json_dumps (n + idx) l
  = (fun k => n + k) <$> accepted_positions float_repr str_repr json_dumps idx l.
Proof.
  revert idx. induction l as [|f l IH]; intros idx; [done|].
  cbn [accepted_positions]. rewrite <- Nat.add_succ_r, IH.
  by destruct (entry f).
Qed.

Lemma accepted_positions_app (idx : nat) (l1 l2 : list json_file) :
  accepted_positions float_repr str_repr json_dumps idx (l1 ++ l2)
  = accepted_positions float_repr str_repr json_dumps idx l1
    ++ accepted_positions float_repr str_repr json_dumps (length l1 + idx) l2.
Proof.
  revert idx. induction l1 as [|f l1 IH]; intros idx; [done|].
  cbn [app accepted_positions length]. rewrite IH.
  replace (length l1 + S idx) with (S (length l1) + idx) by lia.
  by destruct (entry f).
Qed.

(** X7. Walking two batches as one gives the documents and the metadata of
    the first followed by those of the second; the ids of the second are
    numbered on from the number of files of the first. *)
Theorem walk_of_two_batches (l1 l2 : list json_file) d1 m1 i1 d2 m2 i2 :
  fst (process l1) = Ok (d1, m1, i1) ->
  fst (process l2) = Ok (d2, m2, i2) ->
  ∃ ks, i2 = notification_id <$> ks
    ∧ fst (process (l1 ++ l2))
      = Ok (d1 ++ d2, m1 ++ m2,
            i1 ++ (notification_id <$> ((fun k => length l1 + k) <$> ks))).
Proof.
  intros H1 H2.
  destruct (process_notification_files_result float_repr str_repr json_dumps l1)
    as [[Hok1 Hr1]|[_ [e Hr1]]]; rewrite Hr1 in H1; [|done].
  destruct (process_notification_files_result float_repr str_repr json_dumps l2)
    as [[Hok2 Hr2]|[_ [e Hr2]]]; rewrite Hr2 in H2; [|done].
  injection H1 as <- <- <-. injection H2 as <- <- <-.
  exists (accepted_positions float_repr str_repr json_dumps 0 l2). split; [done|].
  rewrite process_notification_files_ok by (by apply Forall_app). cbn [fst].
  rewrite omap_app, !fmap_app, accepted_positions_app, fmap_app.
  by rewrite <- accepted_positions_shift.
Qed.

Lemma as_strings_raises (l : list pyval) (e : exn) :
  as_strings l = Raise e -> exn_cls e = TypeError.
Proof.
  induction l as [|v l IH]; [done|].
  destruct v; simpl; try (by intros [= <-]).
  destruct (as_strings l); simpl; [done|]. intros [= <-]. by apply IH.
Qed.

Lemma present_raises nd field e :
  present nd field = Raise e -> exn_cls e = TypeError.
Proof.
  unfold present. destruct nd as [| | | | s | l | d]; simpl; try (by intros [= <-]).
  - by destruct (bool_decide _); simpl; intros [= <-].
  - by destruct (existsb _ l); simpl; intros [= <-].
  - destruct (dict_lookup field d); simpl; [|done]. by destruct (truthy _).
Qed.

(** Composing the text raises nothing but type errors. *)
Lemma extract_searchable_text_raises nd e :
  extract_searchable_text float_repr str_repr nd = Raise e -> exn_cls e = TypeError.
Proof.
  unfold extract_searchable_text.
  assert (Hloop : ∀ fields acc e', fields_loop float_repr str_repr nd fields acc = Raise e' ->
            exn_cls e' = TypeError).
  { induction fields as [|f fields IH]; intros acc e'; simpl; [done|].
    destruct (present nd f) as [[v|]|e0] eqn:Hp; simpl; eauto.
    intros [= <-]. by eapply present_raises. }
  destruct (fields_loop float_repr str_repr nd searchable_fields []) as [parts|e0] eqn:Hf;
    simpl; [|intros [= <-]; by eapply Hloop].
  destruct (present nd "_tags") as [[tags|]|e0] eqn:Hp; simpl;
    [| |intros [= <-]; by eapply present_raises].
  - destruct (py_iter tags) as [elems|e0] eqn:Hi; simpl.
    + unfold py_join. destruct (as_strings _) eqn:Hs; simpl; [done|].
      intros [= <-]. by eapply as_strings_raises.
    + intros [= <-]. destruct tags; simpl in Hi; try done; by injection Hi as <-.
  - unfold py_join. destruct (as_strings _) eqn:Hs; simpl; [done|].
    intros [= <-]. by eapply as_strings_raises.
Qed.

(** X27. The walk raises for two reasons only, at the first file that
    gives one: reading the file raised an exception that is neither a
    decode error nor a missing file, or the composition of its text
    raised a type error. The walk itself never raises one of the two
    exceptions it catches. *)
Theorem what_ends_the_walk (json_files : list json_file) (e : exn) :
  fst (process json_files) = Raise e ->
  exn_cls e ≠ JSONDecodeError ∧ exn_cls e ≠ FileNotFoundError
  ∧ ∃ pre f post,
      json_files = pre ++ f :: post
      ∧ Forall reads_on pre
      ∧ (loaded f = Raise e
         ∨ ∃ nd, loaded f = Ok nd
             ∧ extract_searchable_text float_repr str_repr nd = Raise e
             ∧ exn_cls e = TypeError).
Proof.
  intros Hrun.
  destruct (first_abort float_repr str_repr json_dumps json_files)
    as [Hok|(pre & f & post & e' & -> & Hpre & Hf)].
  { by rewrite (process_notification_files_ok _ _ _ _ Hok) in Hrun. }
  rewrite (process_notification_files_abort _ _ _ _ _ _ _ Hpre Hf) in Hrun.
  injection Hrun as ->.
  assert (Hnot : caught e = false ∧
                 (loaded f = Raise e
                  ∨ ∃ nd, loaded f = Ok nd
                      ∧ extract_searchable_text float_repr str_repr nd = Raise e)).
  { unfold classify in Hf. destruct (loaded f) as [nd|e0].
    - destruct (extract_searchable_text float_repr str_repr nd) as [t|e0] eqn:Ht.
      + destruct (String.eqb (strip t) ""); [done|]. by destruct nd.
      + destruct (caught e0) eqn:Hc; [done|]. injection Hf as ->. eauto.
    - destruct (caught e0) eqn:Hc; [done|]. injection Hf as ->. eauto. }
  destruct Hnot as [Hc Hwhy].
  split_and!.
  - intros He. unfold caught in Hc. by rewrite He in Hc.
  - intros He. unfold caught in Hc. by rewrite He in Hc.
  - exists pre, f, post. split_and!; [done..|].
    destruct Hwhy as [Hload|(nd & Hload & Ht)]; [by left|].
    right. exists nd. split_and!; [done..|]. by eapply extract_searchable_text_raises.
Qed.

(** What a file leaves in the output: its error when reading it failed. *)
Definition read_error (f : json_file) : option log_line :=
  match loaded f with
  | Raise e => Some (LogError (relative_parts f) e)
  | Ok _ => None
  end.

(** X8. When the walk returns, it has printed the number of files found, one
    line for each file that could not be read, in the order of the files,
    and the number of documents it returns; a blank record leaves no
    line. *)
Theorem walk_output (json_files : list json_file) docs metas idl :
  fst (process json_files) = Ok (docs, metas, idl) ->
  snd (process json_files)
  = LogFound (length json_files) :: omap read_error json_files
    ++ [LogProcessed (length docs)].
Proof.
  intros Hrun.
  destruct (first_abort float_repr str_repr json_dumps json_files)
    as [Hok|(p & f' & q & e' & Heq & Hp & Hf')].
  2:{ rewrite Heq, (process_notification_files_abort _ _ _ _ _ _ _ Hp Hf') in Hrun. done. }
  rewrite (process_notification_files_ok _ _ _ _ Hok) in *. cbn [fst snd] in *.
  injection Hrun as <- _ _. rewrite length_fmap. simpl. do 2 f_equal.
  clear -Hok. induction Hok as [|f rest Hf _ IH]; [done|].
  cbn [omap list_omap]. rewrite IH. f_equal.
  unfold error_of, read_error, aborts, classify in *.
  destruct (loaded f) as [nd|e]; [|by destruct (caught e)].
  destruct (extract_searchable_text float_repr str_repr nd) as [t|e] eqn:Ht.
  - destruct (String.eqb (strip t) ""); [done|]. by destruct nd.
  - apply extract_searchable_text_raises in Ht. unfold caught in *. by rewrite Ht in *.
Qed.

(** X9. Tags given as one string are taken apart: every character of the
    string becomes a part of the text of its own. *)
Theorem tags_given_as_a_string (d : list (string * pyval)) (s : string) :
  dict_lookup "_tags" d = Some (PStr s) ->
  s ≠ "" ->
  extract_searchable_text float_repr str_repr (PDict d)
  = Ok (join " " (included_fields float_repr str_repr d
                  ++ ((fun c => String c "") <$> list_ascii_of_string s))).
Proof.
  intros Htags Hs. rewrite extract_searchable_text_dict, Htags.
  assert (Ht : truthy (PStr s) = true) by (by destruct s).
  rewrite Ht. simpl. unfold py_join.
  assert (Hmap : map (fun c => PStr (String c "")) (list_ascii_of_string s)
                 = PStr <$> ((fun c => String c "") <$> list_ascii_of_string s)).
  { by rewrite <- list_fmap_compose. }
  by rewrite Hmap, <- fmap_app, as_strings_PStr.
Qed.

End Walk.

(** *** Examples *)

Definition list_document : json_file :=
  JsonFile ["e.json"] (Ok (PList [PStr "a"; PStr "b"])).

Definition number_document : json_file := JsonFile ["f.json"] (Ok (PInt 7)).

Definition numeric_tag : json_file :=
  JsonFile ["osd"; "g.json"]
    (Ok (PDict [("summary", PStr "Disk full"); ("_tags", PList [PStr "disk"; PInt 2])])).

Definition pod_failed_text : string := "Pod ${POD} failed in ${NAMESPACE} pods hcp".

Lemma sample_run :
  fst (sample_process [malformed; pod_failed; list_document; blank])
  = Ok ([pod_failed_text], [pod_failed_metadata], ["notification_1"]).
Proof. vm_compute. reflexivity. Defined.

Lemma documents_are_the_object_texts_witness :
  fst (sample_process [malformed; pod_failed; list_document; blank])
  = Ok ([pod_failed_text], [pod_failed_metadata], ["notification_1"])
  ∧ [pod_failed_text]
    = omap (indexed_text Sample.float_repr Sample.str_repr)
        [malformed; pod_failed; list_document; blank].
Proof.
  split; [exact sample_run|].
  exact (proj1 (documents_are_the_object_texts
                  Sample.float_repr Sample.str_repr Sample.json_dumps
                  _ _ _ _ sample_run)).
Defined.

Lemma stored_metadata_entry_witness :
  fst (sample_process [malformed; pod_failed; list_document; blank])
  = Ok ([pod_failed_text], [pod_failed_metadata], ["notification_1"])
  ∧ 0 < length [pod_failed_metadata]
  ∧ ∃ k f d m,
      [malformed; pod_failed; list_document; blank] !! k = Some f
      ∧ loaded f = Ok (PDict d)
      ∧ ["notification_1"] !! 0 = Some (notification_id k)
      ∧ [pod_failed_metadata] !! 0 = Some (PDict m)
      ∧ dict_lookup "folder" m
        = Some (PStr match relative_parts f with
                     | first :: _ :: _ => first
                     | _ => "root"
                     end).
Proof.
  split; [exact sample_run|]. split; [simpl; lia|].
  destruct (stored_metadata_entry Sample.float_repr Sample.str_repr Sample.json_dumps
              _ _ _ _ 0 sample_run ltac:(simpl; lia))
    as (k & f & d & m & Hf & Hd & Hid & Hm & _ & _ & Hfolder & _).
  exists k, f, d, m. split_and!; assumption.
Defined.

Lemma stored_variables_witness :
  fst (sample_process [malformed; pod_failed; list_document; blank])
  = Ok ([pod_failed_text], [pod_failed_metadata], ["notification_1"])
  ∧ 0 < length [pod_failed_metadata]
  ∧ ∃ k f d m vs,
      [malformed; pod_failed; list_document; blank] !! k = Some f
      ∧ loaded f = Ok (PDict d)
      ∧ ["notification_1"] !! 0 = Some (notification_id k)
      ∧ [pod_failed_metadata] !! 0 = Some (PDict m)
      ∧ dict_lookup "file_path" m = Some (PStr (join "/" (relative_parts f)))
      ∧ dict_lookup "full_json" m = Some (PStr (Sample.json_dumps (PDict d)))
      ∧ dict_lookup "variables" m = Some (PStr (Sample.json_dumps (PList (PStr <$> vs))))
      ∧ Sorted String.le vs ∧ NoDup vs
      ∧ ∀ x, x ∈ vs
             ↔ x ∈ placeholders Sample.float_repr Sample.str_repr d "summary"
               ∨ x ∈ placeholders Sample.float_repr Sample.str_repr d "description".
Proof.
  split; [exact sample_run|]. split; [simpl; lia|].
  exact (stored_variables Sample.float_repr Sample.str_repr Sample.json_dumps
           _ _ _ _ 0 sample_run ltac:(simpl; lia)).
Defined.

Lemma uncaught_read_error_ends_the_walk_witness :
  Forall (fun g => aborts Sample.float_repr Sample.str_repr Sample.json_dumps g = false)
    [malformed; pod_failed]
  ∧ loaded unreadable = Raise (Exn PermissionError "[Errno 13] Permission denied")
  ∧ PermissionError ≠ JSONDecodeError
  ∧ PermissionError ≠ FileNotFoundError
  ∧ sample_process ([malformed; pod_failed] ++ unreadable :: [pod_failed])
    = (Raise (Exn PermissionError "[Errno 13] Permission denied"),
       [LogFound 4;
        LogError ["osd"; "b.json"]
          (Exn JSONDecodeError "Expecting value: line 1 column 1 (char 0)")]).
Proof.
  assert (Hpre : Forall
    (fun g => aborts Sample.float_repr Sample.str_repr Sample.json_dumps g = false)
    [malformed; pod_failed]) by (repeat constructor).
  split; [exact Hpre|]. split; [reflexivity|]. do 2 (split; [discriminate|]).
  exact (proj1 (uncaught_read_error_ends_the_walk
                  Sample.float_repr Sample.str_repr Sample.json_dumps
                  [malformed; pod_failed] unreadable [pod_failed] _
                  Hpre eq_refl ltac:(discriminate) ltac:(discriminate))).
Defined.

Lemma tag_that_is_no_string_ends_the_walk_witness :
  Forall (fun g => aborts Sample.float_repr Sample.str_repr Sample.json_dumps g = false)
    [pod_failed]
  ∧ loaded numeric_tag
    = Ok (PDict [("summary", PStr "Disk full"); ("_tags", PList [PStr "disk"; PInt 2])])
  ∧ dict_lookup "_tags" [("summary", PStr "Disk full"); ("_tags", PList [PStr "disk"; PInt 2])]
    = Some (PList [PStr "disk"; PInt 2])
  ∧ PInt 2 ∈ [PStr "disk"; PInt 2]
  ∧ (∀ s, PInt 2 ≠ PStr s)
  ∧ ∃ e, exn_cls e = TypeError
      ∧ fst (sample_process ([pod_failed] ++ numeric_tag :: [pod_failed])) = Raise e.
Proof.
  assert (Hpre : Forall
    (fun g => aborts Sample.float_repr Sample.str_repr Sample.json_dumps g = false)
    [pod_failed]) by (repeat constructor).
  assert (Hin : PInt 2 ∈ [PStr "disk"; PInt 2]) by (apply list_elem_of_further, list_elem_of_here).
  split; [exact Hpre|]. do 2 (split; [reflexivity|]). split; [exact Hin|].
  split; [discriminate|].
  destruct (tag_that_is_no_string_ends_the_walk
              Sample.float_repr Sample.str_repr Sample.json_dumps
              [pod_failed] numeric_tag [pod_failed] _ _ (PInt 2)
              Hpre eq_refl eq_refl Hin ltac:(discriminate))
    as (e & He & _ & Hrun).
  exists e. split; assumption.
Defined.

Lemma scalar_document_ends_the_walk_witness :
  Forall (fun g => aborts Sample.float_repr Sample.str_repr Sample.json_dumps g = false)
    [pod_failed]
  ∧ loaded number_document = Ok (PInt 7)
  ∧ ∃ e, exn_cls e = TypeError
      ∧ fst (sample_process ([pod_failed] ++ number_document :: [pod_failed])) = Raise e.
Proof.
  assert (Hpre : Forall
    (fun g => aborts Sample.float_repr Sample.str_repr Sample.json_dumps g = false)
    [pod_failed]) by (repeat constructor).
  split; [exact Hpre|]. split; [reflexivity|].
  exact (scalar_document_ends_the_walk
           Sample.float_repr Sample.str_repr Sample.json_dumps
           [pod_failed] number_document [pod_failed] (PInt 7) Hpre eq_refl I).
Defined.

Lemma what_ends_the_walk_witness :
  exn_cls (Exn PermissionError "[Errno 13] Permission denied") ≠ JSONDecodeError
  ∧ exn_cls (Exn PermissionError "[Errno 13] Permission denied") ≠ FileNotFoundError
  ∧ ∃ pre f post,
      [malformed; pod_failed; unreadable; blank] = pre ++ f :: post
      ∧ Forall (fun g => aborts Sample.float_repr Sample.str_repr Sample.json_dumps g = false) pre
      ∧ (loaded f = Raise (Exn PermissionError "[Errno 13] Permission denied")
         ∨ ∃ nd, loaded f = Ok nd
             ∧ extract_searchable_text Sample.float_repr Sample.str_repr nd
               = Raise (Exn PermissionError "[Errno 13] Permission denied")
             ∧ exn_cls (Exn PermissionError "[Errno 13] Permission denied") = TypeError).
Proof.
  apply (what_ends_the_walk Sample.float_repr Sample.str_repr Sample.json_dumps
           [malformed; pod_failed; unreadable; blank]
           (Exn PermissionError "[Errno 13] Permission denied")).
  vm_compute. reflexivity.
Defined.

Lemma walk_of_two_batches_witness :
  fst (sample_process [malformed; pod_failed; list_document; blank])
  = Ok ([pod_failed_text], [pod_failed_metadata], ["notification_1"])
  ∧ fst (sample_process [pod_failed])
    = Ok ([pod_failed_text], [pod_failed_metadata], ["notification_0"])
  ∧ ∃ ks, ["notification_0"] = notification_id <$> ks
      ∧ fst (sample_process ([malformed; pod_failed; list_document; blank] ++ [pod_failed]))
        = Ok ([pod_failed_text] ++ [pod_failed_text],
              [pod_failed_metadata] ++ [pod_failed_metadata],
              ["notification_1"] ++ (notification_id <$> ((fun k => 4 + k) <$> ks))).
Proof.
  assert (H2 : fst (sample_process [pod_failed])
               = Ok ([pod_failed_text], [pod_failed_metadata], ["notification_0"]))
    by (vm_compute; reflexivity).
  split; [exact sample_run|]. split; [exact H2|].
  exact (walk_of_two_batches Sample.float_repr Sample.str_repr Sample.json_dumps
           _ _ _ _ _ _ _ _ sample_run H2).
Defined.

Lemma walk_output_witness :
  fst (sample_process [malformed; pod_failed; list_document; blank])
  = Ok ([pod_failed_text], [pod_failed_metadata], ["notification_1"])
  ∧ snd (sample_process [malformed; pod_failed; list_document; blank])
    = [LogFound 4;
       LogError ["osd"; "b.json"]
         (Exn JSONDecodeError "Expecting value: line 1 column 1 (char 0)");
       LogProcessed 1].
Proof.
  split; [exact sample_run|].
  exact (walk_output Sample.float_repr Sample.str_repr Sample.json_dumps
           _ _ _ _ sample_run).
Defined.

Lemma tags_given_as_a_string_witness :
  dict_lookup "_tags" [("summary", PStr "Disk full"); ("_tags", PStr "osd")] = Some (PStr "osd")
  ∧ "osd" ≠ ""
  ∧ extract_searchable_text Sample.float_repr Sample.str_repr
      (PDict [("summary", PStr "Disk full"); ("_tags", PStr "osd")])
    = Ok "Disk full o s d".
Proof.
  split; [reflexivity|]. split; [discriminate|].
  exact (tags_given_as_a_string Sample.float_repr Sample.str_repr
           [("summary", PStr "Disk full"); ("_tags", PStr "osd")] "osd"
           eq_refl ltac:(discriminate)).
Defined.

End Ingested.

(** ** More on the tools of main.py *)

Module Serving.
Import Py Main.

Section Tools.
Variable embedding : Type.
Variable store : Type.
Variable float_repr : float -> string.
Variable str_repr : string -> string.
Variable json_loads : string -> result pyval.

Local Abbreviation search_tool :=
  (search_service_logs embedding store float_repr str_repr json_loads).
Local Abbreviation stats_tool := (get_database_stats embedding store float_repr str_repr).
Local Abbreviation formatted := (format_results float_repr str_repr json_loads).
Local Abbreviation format_one := (format_result float_repr str_repr json_loads).
Local Abbreviation format_all := (format_loop float_repr str_repr json_loads).

(** X10. When the embedding model or the query of the store raises, the search
    tool raises nothing: it returns one record with the message of the
    exception behind [Search failed: ] and a suggestion. The store is as
    the failed call left it, untouched when the model failed. *)
Theorem backend_failure_is_reported (self : NotificationSearchServer embedding store)
    (coll : Collection embedding store) (problem_statement : string) (max_results : Z)
    (st st' : store) (e : exn) :
  collection embedding store self = Some coll ->
  (model_encode embedding store self [problem_statement] = Raise e ∧ st' = st)
  ∨ (∃ v, model_encode embedding store self [problem_statement] = Ok v
       ∧ query embedding store coll v max_results st = (Raise e, st')) ->
  search_tool self problem_statement max_results st
  = (Ok [PDict [("error", PStr ("Search failed: " +:+ exn_msg e));
                ("suggestion",
                  PStr "Ensure the embeddings database has been built by running scripts/build_embeddings.py")]],
     st').
Proof.
  intros Hcoll Hfail. unfold search_service_logs, search_notifications.
  rewrite Hcoll. unfold mbind, stateful_bind, lift.
  destruct Hfail as [[-> ->]|(v & -> & ->)]; reflexivity.
Qed.

(** X11. A server without a collection: neither tool raises, neither touches
    the store, and each answers with an error record of its own wording. *)
Theorem missing_collection_is_reported (self : NotificationSearchServer embedding store)
    (problem_statement : string) (max_results : Z) (st : store) :
  collection embedding store self = None ->
  search_tool self problem_statement max_results st
  = (Ok [PDict [("error", PStr "Search failed: Database not initialized");
                ("suggestion",
                  PStr "Ensure the embeddings database has been built by running scripts/build_embeddings.py")]],
     st)
  ∧ stats_tool self st = (Ok (PDict [("error", PStr "Database not initialized")]), st).
Proof.
  intros Hcoll. unfold search_service_logs, search_notifications, get_database_stats.
  by rewrite Hcoll.
Qed.

(** X12. When the count or the listing of the store raises, the stats tool
    raises nothing: it returns a record whose only entry is the message
    of the exception behind [Failed to get database stats: ]. After a
    failed count the listing is not asked for. *)
Theorem stats_failure_is_reported (self : NotificationSearchServer embedding store)
    (coll : Collection embedding store) (st st' : store) (e : exn) :
  collection embedding store self = Some coll ->
  count embedding store coll st = (Raise e, st')
  ∨ (∃ n st1, count embedding store coll st = (Ok n, st1)
       ∧ get embedding store coll st1 = (Raise e, st')) ->
  stats_tool self st
  = (Ok (PDict [("error", PStr ("Failed to get database stats: " +:+ exn_msg e))]), st').
Proof.
  intros Hcoll Hfail. unfold get_database_stats. rewrite Hcoll.
  unfold mbind, stateful_bind.
  destruct Hfail as [->|(n & st1 & -> & ->)]; reflexivity.
Qed.

(** X13. Every record of a search has the same twelve keys, in this order. *)
Theorem result_keys (results : query_result) (rs : list pyval) (i : nat) (r : pyval) :
  formatted results = Ok rs ->
  rs !! i = Some r ->
  ∃ d, r = PDict d
    ∧ fst <$> d = ["id"; "distance"; "similarity"; "file_path"; "folder"; "severity";
                   "service_name"; "log_type"; "internal_only"; "variables";
                   "document_text"; "notification"].
Proof.
  intros Hrs Hr.
  destruct (format_results_lookup _ _ _ _ _ _ _ Hrs Hr)
    as (ids & rest & id & metadata & _ & _ & _ & ->).
  eexists. split; reflexivity.
Qed.

Lemma format_loop_ext ids m1 d1 t1 m2 d2 t2 range acc :
  (∀ i, i ∈ range -> format_one ids m1 d1 t1 i = format_one ids m2 d2 t2 i) ->
  format_all ids m1 d1 t1 range acc = format_all ids m2 d2 t2 range acc.
Proof.
  revert acc. induction range as [|i range IH]; intros acc Hext; [done|].
  simpl. rewrite (Hext i) by apply list_elem_of_here.
  destruct (format_one ids m2 d2 t2 i); simpl; [|done].
  apply IH. intros j Hj. apply Hext. by apply list_elem_of_further.
Qed.

Lemma guarded_take {A} (xs : list A) (n i : nat) (d : A) :
  i < n ->
  (if bool_decide (i < length (take n xs)) then default d (take n xs !! i) else d)
  = (if bool_decide (i < length xs) then default d (xs !! i) else d).
Proof.
  intros Hi. rewrite !guarded_lookup. by rewrite lookup_take_lt.
Qed.

(** X14. Of what the store returns, the search reads the first list of each
    entry and of it the places the ids cover: further lists, and
    metadata, distances and documents past the last id, change nothing. *)
Theorem only_the_first_lists_are_read (ids : list string) (more_ids : list (list string))
    (metadatas : list pyval) more_metadatas
    (distances : list float) more_distances
    (documents : list string) more_documents :
  formatted (QueryResult (Some (ids :: more_ids)) (Some (metadatas :: more_metadatas))
               (Some (distances :: more_distances)) (Some (documents :: more_documents)))
  = formatted (QueryResult (Some [ids]) (Some [take (length ids) metadatas])
                 (Some [take (length ids) distances]) (Some [take (length ids) documents])).
Proof.
  unfold format_results. simpl. destruct ids as [|id0 ids']; [done|].
  apply format_loop_ext. intros i [_ Hi]%elem_of_seq. simpl in Hi.
  unfold format_result.
  rewrite !(guarded_take _ (length (id0 :: ids'))) by (simpl; lia). done.
Qed.

Lemma try_decode_raises (body : result pyval) (fallback : pyval) (e : exn) :
  try_decode body fallback = Raise e -> body = Raise e ∧ decode_caught e = false.
Proof.
  destruct body as [v|e0]; simpl; [done|].
  destruct (decode_caught e0) eqn:He; [done|]. by intros [= <-].
Qed.

Lemma format_result_raises ids metadatas distances documents i e :
  i < length ids ->
  format_one ids metadatas distances documents i = Raise e ->
  decode_caught e = false.
Proof.
  intros Hi.
  destruct (default (PDict []) (metadatas !! i)) as [| | | | | |metadata] eqn:Hm;
    try (rewrite format_result_no_dict by (intros m; rewrite Hm; discriminate);
         by intros [= <-]).
  rewrite (format_result_dict _ _ _ _ _ _ _ _ metadata Hm).
  destruct (try_decode _ (PDict [])) as [fj|e1] eqn:Hfj; simpl.
  2:{ intros [= <-]. by apply try_decode_raises in Hfj as [_ ?]. }
  destruct (try_decode _ (PList [])) as [vs|e1] eqn:Hvs; simpl.
  2:{ intros [= <-]. by apply try_decode_raises in Hvs as [_ ?]. }
  unfold index. by destruct (lookup_lt_is_Some_2 ids i Hi) as [id ->].
Qed.

Lemma format_loop_raises ids metadatas distances documents range acc i e :
  i ∈ range ->
  format_one ids metadatas distances documents i = Raise e ->
  ∃ j e', j ∈ range
    ∧ format_one ids metadatas distances documents j = Raise e'
    ∧ format_all ids metadatas distances documents range acc = Raise e'.
Proof.
  revert acc. induction range as [|k range IH]; intros acc Hi He.
  { by apply elem_of_nil in Hi. }
  simpl. destruct (format_one ids metadatas distances documents k) as [r|e0] eqn:Hk.
  - apply elem_of_cons in Hi as [->|Hi]; [congruence|].
    destruct (IH (acc ++ [r]) Hi He) as (j & e' & Hj & Hje & Hrun).
    exists j, e'. split_and!; [by apply list_elem_of_further | done | done].
  - exists k, e0. split_and!; [apply list_elem_of_here | done | done].
Qed.

(** X15. The decoding of the stored texts recovers from decode errors and type
    errors only. When [json.loads] raises anything else on the full_json
    of one match, the search returns no record at all: it raises, and the
    tool answers with the one record that reports a failed search. *)
Theorem other_decoding_failures_fail_the_search (results : query_result)
    (ids : list string) (rest : list (list string)) (i : nat)
    (metadata : list (string * pyval)) (v : pyval) (e : exn) :
  qr_ids results = Some (ids :: rest) ->
  i < length ids ->
  returned_at (qr_metadatas results) i = Some (PDict metadata) ->
  dict_lookup "full_json" metadata = Some v ->
  truthy v = true ->
  json_loads (str float_repr str_repr v) = Raise e ->
  exn_cls e ≠ JSONDecodeError ->
  exn_cls e ≠ TypeError ->
  ∃ e', decode_caught e' = false
    ∧ formatted results = Raise e'
    ∧ ∀ (self : NotificationSearchServer embedding store) coll problem_statement
        max_results w st st',
        collection embedding store self = Some coll ->
        model_encode embedding store self [problem_statement] = Ok w ->
        query embedding store coll w max_results st = (Ok results, st') ->
        search_tool self problem_statement max_results st
        = (Ok [search_failed_record e'], st').
Proof.
  intros Hids Hi Hm Hv Ht He H1 H2.
  assert (Hne : decode_caught e = false) by (unfold decode_caught; by destruct (exn_cls e)).
  assert (Hone : format_one ids (first_or_empty (qr_metadatas results))
                   (first_or_empty (qr_distances results))
                   (first_or_empty (qr_documents results)) i = Raise e).
  { assert (Hg : dict_get metadata "full_json" (PStr "{}") = v)
      by (unfold dict_get; by rewrite Hv).
    rewrite (format_result_dict _ _ _ _ _ _ _ _ metadata)
      by (by rewrite first_or_empty_lookup, Hm).
    rewrite Hg, Ht, He. simpl. by rewrite Hne. }
  assert (Hin : i ∈ seq 0 (length ids)) by (apply elem_of_seq; lia).
  destruct (format_loop_raises _ _ _ _ _ [] _ _ Hin Hone) as (j & e' & Hj & Hje & Hrun).
  apply elem_of_seq in Hj as [_ Hj]. simpl in Hj.
  assert (Hfmt : formatted results = Raise e').
  { unfold format_results. rewrite Hids. destruct ids; [simpl in Hi; lia | exact Hrun]. }
  exists e'. split_and!.
  - by eapply format_result_raises.
  - exact Hfmt.
  - intros self coll ps k w st st' Hcoll Henc Hq.
    unfold search_service_logs, search_notifications. rewrite Hcoll.
    unfold mbind, stateful_bind, lift. by rewrite Henc, Hq, Hfmt.
Qed.

(** X16. Neither tool raises, whatever the model and the store do, and the
    search tool never returns the empty list: its answer holds the
    matches, or the one record that says there is none or that the
    search failed. The stats tool always answers with a dict. *)
Theorem tools_answer_with_records (self : NotificationSearchServer embedding store)
    (problem_statement : string) (max_results : Z) (st : store) :
  (∃ rs st', search_tool self problem_statement max_results st = (Ok rs, st') ∧ rs ≠ [])
  ∧ (∃ d st', stats_tool self st = (Ok (PDict d), st')).
Proof.
  split.
  - unfold search_service_logs.
    destruct (search_notifications _ _ _ _ _ _ _ _ st) as [[[|r rs]|e] st']; eauto.
  - unfold get_database_stats.
    destruct (collection embedding store self) as [coll|]; [|simpl; eauto].
    unfold mbind, stateful_bind, mret, stateful_ret, lift, failed_stats_record.
    destruct (count embedding store coll st) as [[n|e] st1]; [|eauto].
    destruct (get embedding store coll st1) as [[all_results|e] st2]; [|eauto].
    destruct (match gr_metadatas all_results with
              | Some (m :: ms) => stats_loop float_repr str_repr (m :: ms) (∅, ∅, ∅)
              | _ => Ok (∅, ∅, ∅)
              end) as [[[folders severities] service_names]|e]; eauto.
Qed.

End Tools.

(** *** Examples *)

Definition store_down : exn := Exn BackendError "Connection refused".

(** A collection whose calls all fail. *)
Definition failing_collection : Collection unit (list stored) := {|
  query := fun _ _ st => (Raise store_down, st);
  count := fun st => (Raise store_down, st);
  get := fun st => (Raise store_down, st)
|}.

Definition failing_server : NotificationSearchServer unit (list stored) := {|
  db_path := "chroma_db";
  model_encode := fun _ => Ok tt;
  collection := Some failing_collection
|}.

Definition bare_server : NotificationSearchServer unit (list stored) := {|
  db_path := "chroma_db";
  model_encode := fun _ => Ok tt;
  collection := None
|}.

Lemma backend_failure_is_reported_witness :
  collection unit (list stored) failing_server = Some failing_collection
  ∧ (∃ v, model_encode unit (list stored) failing_server ["pod failure"] = Ok v
       ∧ query unit (list stored) failing_collection v 5 sample_store
         = (Raise store_down, sample_store))
  ∧ search_service_logs unit (list stored) Sample.float_repr Sample.str_repr
      Sample.json_loads failing_server "pod failure" 5 sample_store
    = (Ok [PDict [("error", PStr "Search failed: Connection refused");
                  ("suggestion",
                    PStr "Ensure the embeddings database has been built by running scripts/build_embeddings.py")]],
       sample_store).
Proof.
  split; [reflexivity|]. split; [by exists tt|].
  apply (backend_failure_is_reported unit (list stored)
           Sample.float_repr Sample.str_repr Sample.json_loads
           failing_server failing_collection "pod failure" 5 sample_store sample_store
           store_down eq_refl).
  right. by exists tt.
Defined.

Lemma missing_collection_is_reported_witness :
  collection unit (list stored) bare_server = None
  ∧ get_database_stats unit (list stored) Sample.float_repr Sample.str_repr
      bare_server sample_store
    = (Ok (PDict [("error", PStr "Database not initialized")]), sample_store).
Proof.
  split; [reflexivity|].
  exact (proj2 (missing_collection_is_reported unit (list stored)
                  Sample.float_repr Sample.str_repr Sample.json_loads
                  bare_server "pod failure" 5 sample_store eq_refl)).
Defined.

Lemma stats_failure_is_reported_witness :
  collection unit (list stored) failing_server = Some failing_collection
  ∧ count unit (list stored) failing_collection sample_store = (Raise store_down, sample_store)
  ∧ get_database_stats unit (list stored) Sample.float_repr Sample.str_repr
      failing_server sample_store
    = (Ok (PDict [("error", PStr "Failed to get database stats: Connection refused")]),
       sample_store).
Proof.
  do 2 (split; [reflexivity|]).
  apply (stats_failure_is_reported unit (list stored) Sample.float_repr Sample.str_repr
           failing_server failing_collection sample_store sample_store store_down eq_refl).
  by left.
Defined.

Lemma short_results_run :
  sample_format_results short_results
  = Ok [result_at Sample.float_repr Sample.str_repr Sample.json_loads short_results
          ["notification_0"; "notification_3"] 0;
        result_at Sample.float_repr Sample.str_repr Sample.json_loads short_results
          ["notification_0"; "notification_3"] 1].
Proof. vm_compute. reflexivity. Defined.

Lemma result_keys_witness :
  sample_format_results short_results
  = Ok [result_at Sample.float_repr Sample.str_repr Sample.json_loads short_results
          ["notification_0"; "notification_3"] 0;
        result_at Sample.float_repr Sample.str_repr Sample.json_loads short_results
          ["notification_0"; "notification_3"] 1]
  ∧ ∃ d, result_at Sample.float_repr Sample.str_repr Sample.json_loads short_results
           ["notification_0"; "notification_3"] 1 = PDict d
      ∧ length d = 12.
Proof.
  split; [exact short_results_run|].
  destruct (result_keys Sample.float_repr Sample.str_repr Sample.json_loads
              short_results _ 1 _ short_results_run eq_refl) as (d & Hd & Hkeys).
  exists d. split; [exact Hd|]. by rewrite <- (length_fmap fst), Hkeys.
Defined.

(** A reader that gives up on a text nested too deep. *)
Definition too_deep : exn := Exn RuntimeError "maximum recursion depth exceeded".

Definition shallow_loads (s : string) : result pyval :=
  if String.prefix "[[[[" s then Raise too_deep else Sample.json_loads s.

Definition deep_metadata : list (string * pyval) := [("full_json", PStr "[[[[1]]]]")].

Definition deep_results : query_result :=
  QueryResult (Some [["notification_0"; "notification_3"]])
    (Some [[PDict pod_metadata; PDict deep_metadata]]) None None.

Lemma other_decoding_failures_fail_the_search_witness :
  qr_ids deep_results = Some [["notification_0"; "notification_3"]]
  ∧ 1 < length ["notification_0"; "notification_3"]
  ∧ returned_at (qr_metadatas deep_results) 1 = Some (PDict deep_metadata)
  ∧ dict_lookup "full_json" deep_metadata = Some (PStr "[[[[1]]]]")
  ∧ truthy (PStr "[[[[1]]]]") = true
  ∧ shallow_loads (str Sample.float_repr Sample.str_repr (PStr "[[[[1]]]]")) = Raise too_deep
  ∧ RuntimeError ≠ JSONDecodeError
  ∧ RuntimeError ≠ TypeError
  ∧ ∃ e', format_results Sample.float_repr Sample.str_repr shallow_loads deep_results
          = Raise e'.
Proof.
  split; [reflexivity|]. split; [simpl; lia|]. do 4 (split; [reflexivity|]).
  do 2 (split; [discriminate|]).
  destruct (other_decoding_failures_fail_the_search unit (list stored)
              Sample.float_repr Sample.str_repr shallow_loads
              deep_results ["notification_0"; "notification_3"] [] 1
              deep_metadata (PStr "[[[[1]]]]") too_deep
              eq_refl ltac:(simpl; lia) eq_refl eq_refl eq_refl eq_refl
              ltac:(discriminate) ltac:(discriminate))
    as (e' & _ & Hfmt & _).
  by exists e'.
Defined.

End Serving.

(** ** From the build to the search *)

Module RoundTrip.
Import Py BuildEmbeddings Main.

Section Pipeline.
Variable float_repr : float -> string.
Variable str_repr : string -> string.
Variable json_dumps : pyval -> string.
Variable json_loads : string -> result pyval.

(** The names of the variables of a record, as the build stores them. *)
Definition record_variables (d : list (string * pyval)) : list string :=
  sorted_set (field_variables float_repr str_repr d "summary"
              ∪ field_variables float_repr str_repr d "description").

(** [json.loads] reads back what [json.dumps] wrote for [v], and that
    text is not empty. *)
Definition reads_back (v : pyval) : Prop :=
  json_loads (json_dumps v) = Ok v ∧ json_dumps v ≠ "".

(** X17. What the build stores for a record, the search gives back. When the
    store returns, for a match, the id, the metadata and the document the
    walk produced for the file at position [k], the record of the search
    holds the whole JSON object of that file as notification, the sorted
    names of its variables, its searchable text as document_text, and its
    path and folder; severity, service_name and log_type are the string
    conversions and internal_only the truth value of what the object
    holds, [Unknown] and [False] standing for a missing key. *)
Theorem stored_record_is_given_back (json_files : list json_file) docs metas idl
    (j k : nat) (f : json_file) (d : list (string * pyval)) (doc : string)
    (m : list (string * pyval)) (distance : float) :
  fst (process_notification_files float_repr str_repr json_dumps json_files)
  = Ok (docs, metas, idl) ->
  json_files !! k = Some f ->
  loaded f = Ok (PDict d) ->
  idl !! j = Some (notification_id k) ->
  docs !! j = Some doc ->
  metas !! j = Some (PDict m) ->
  reads_back (PDict d) ->
  reads_back (PList (PStr <$> record_variables d)) ->
  extract_searchable_text float_repr str_repr (PDict d) = Ok doc
  ∧ format_results float_repr str_repr json_loads
      (QueryResult (Some [[notification_id k]]) (Some [[PDict m]]) (Some [[distance]])
         (Some [[doc]]))
    = Ok [PDict [
        ("id", PStr (notification_id k));
        ("distance", PFloat distance);
        ("similarity", PFloat (1 - distance)%float);
        ("file_path", PStr (join "/" (relative_parts f)));
        ("folder", PStr (get_folder_metadata (relative_parts f)));
        ("severity", PStr (str float_repr str_repr (dict_get d "severity" (PStr "Unknown"))));
        ("service_name",
          PStr (str float_repr str_repr (dict_get d "service_name" (PStr "Unknown"))));
        ("log_type", PStr (str float_repr str_repr (dict_get d "log_type" (PStr "Unknown"))));
        ("internal_only", PBool (truthy (dict_get d "internal_only" (PBool false))));
        ("variables", PList (PStr <$> record_variables d));
        ("document_text", PStr doc);
        ("notification", PDict d)]].
Proof.
  intros Hrun Hf Hd Hid Hdoc Hm [Hrec Hrec'] [Hvars Hvars'].
  assert (Hj : j < length metas) by (by eapply lookup_lt_Some).
  destruct (Ingested.returned_entry _ _ _ _ _ _ _ _ Hrun Hj)
    as (k' & f' & d' & doc' & Hf' & Hd' & Ht & _ & Hdoc' & Hm' & Hid').
  assert (k' = k) as ->.
  { assert (Hk : notification_id k' = notification_id k) by congruence.
    by apply (inj notification_id) in Hk. }
  assert (f' = f) as -> by congruence.
  assert (d' = d) as -> by congruence.
  assert (doc' = doc) as -> by congruence.
  split; [exact Ht|].
  rewrite Hm in Hm'. injection Hm' as ->.
  assert (Htrue : ∀ s, s ≠ "" -> truthy (PStr s) = true) by (by intros []).
  unfold format_results, first_or_empty.
  cbn [qr_ids qr_metadatas qr_distances qr_documents length seq format_loop].
  unfold format_result. rewrite !guarded_lookup.
  cbn -[truthy str field_variables sorted_set].
  fold (record_variables d).
  rewrite (Htrue _ Hrec'), (Htrue _ Hvars'). cbn [str]. rewrite Hrec, Hvars.
  reflexivity.
Qed.

End Pipeline.

(** *** Example *)

Lemma pod_failed_run :
  fst (sample_process [malformed; pod_failed])
  = Ok (["Pod ${POD} failed in ${NAMESPACE} pods hcp"], [pod_failed_metadata],
        ["notification_1"]).
Proof. vm_compute. reflexivity. Defined.

Lemma stored_record_is_given_back_witness :
  fst (sample_process [malformed; pod_failed])
  = Ok (["Pod ${POD} failed in ${NAMESPACE} pods hcp"], [pod_failed_metadata],
        ["notification_1"])
  ∧ [malformed; pod_failed] !! 1 = Some pod_failed
  ∧ reads_back Sample.json_dumps Sample.json_loads
      (PDict [("summary", PStr "Pod ${POD} failed in ${NAMESPACE}");
              ("description", PStr "");
              ("severity", PStr "Critical");
              ("_tags", PList [PStr "pods"; PStr "hcp"])])
  ∧ extract_searchable_text Sample.float_repr Sample.str_repr
      (PDict [("summary", PStr "Pod ${POD} failed in ${NAMESPACE}");
              ("description", PStr "");
              ("severity", PStr "Critical");
              ("_tags", PList [PStr "pods"; PStr "hcp"])])
    = Ok "Pod ${POD} failed in ${NAMESPACE} pods hcp".
Proof.
  assert (Hrec : reads_back Sample.json_dumps Sample.json_loads
      (PDict [("summary", PStr "Pod ${POD} failed in ${NAMESPACE}");
              ("description", PStr "");
              ("severity", PStr "Critical");
              ("_tags", PList [PStr "pods"; PStr "hcp"])])).
  { split; [vm_compute; reflexivity | vm_compute; discriminate]. }
  split; [exact pod_failed_run|]. split; [reflexivity|]. split; [exact Hrec|].
  refine (proj1 (stored_record_is_given_back
            Sample.float_repr Sample.str_repr Sample.json_dumps Sample.json_loads
            [malformed; pod_failed] _ _ _ 0 1 pod_failed _ _ _ 0.25%float
            pod_failed_run eq_refl eq_refl eq_refl eq_refl eq_refl Hrec _)).
  split; [vm_compute; reflexivity | vm_compute; discriminate].
Defined.

End RoundTrip.

(** ** The build of the database: the rest of scripts/build_embeddings.py *)

Module Rebuild.
Import Py BuildEmbeddings.

(** What [test_search] prints. *)
Inductive test_line : Type :=
| Searching (test_query : string)
| FoundResults (n : nat)
| HitHeader (rank : nat) (folder file_path : string) (similarity : float)
| HitSnippet (text : string)
| NoResults
| BlankLine.

(** An entry of the dict a query returns, as [test_search] tells them
    apart: no such key, [None], or a list with one inner list per query. *)
Inductive entry (A : Type) : Type :=
| Missing
| Null
| Lists (l : list (list A)).
Arguments Missing {A}.
Arguments Null {A}.
Arguments Lists {A} l.

Record raw_results : Type := RawResults {
  documents_entry : entry string;
  distances_entry : entry float;
  metadatas_entry : entry (list (string * pyval))
}.

(** [results[key][0][i]] *)
Definition first_at {A} (key : string) (e : entry A) (i : nat) : result A :=
  match e with
  | Missing => Raise (Exn KeyError key)
  | Null => Raise (Exn TypeError "'NoneType' object is not subscriptable")
  | Lists [] => Raise (Exn IndexError "list index out of range")
  | Lists (first :: _) =>
      match first !! i with
      | Some x => Ok x
      | None => Raise (Exn IndexError "list index out of range")
      end
  end.

Section Script.
(** The file system with the database in it, the embedding model and its
    vectors, the client of the store and its collections, and paths. *)
Variable world : Type.
Variable model : Type.
Variable embeddings : Type.
Variable client : Type.
Variable coll : Type.
Variable path : Type.
Variable float_repr : float -> string.
Variable str_repr : string -> string.
Variable json_dumps : pyval -> string.

(** [os.getenv], [SentenceTransformer(name)] and [model.encode(texts)] *)
Variable environ : string -> option string.
Variable sentence_transformer : string -> result model.
Variable encode : model -> list string -> result embeddings.

(** [Path]: [p.parent], [p / name], [str(p)] and [p.exists()] *)
Variable parent : path -> path.
Variable joinpath : path -> string -> path.
Variable path_str : path -> string.
Variable path_exists : path -> world -> bool.

(** The files [notifications_dir.rglob("*.json")] finds, with what
    reading each gives. *)
Variable corpus : path -> world -> list json_file.

(** [shutil.rmtree], [Path.mkdir], and the calls of the store. *)
Variable rmtree : path -> stateful world unit.
Variable mkdir : path -> stateful world unit.
Variable persistent_client : string -> stateful world client.
Variable delete_collection : client -> string -> stateful world unit.
Variable create_collection : client -> string -> pyval -> stateful world coll.
Variable collection_add :
  coll -> embeddings -> list string -> list pyval -> list string -> stateful world unit.
Variable collection_query : coll -> embeddings -> Z -> stateful world raw_results.

(** What the script prints. *)
Inductive build_line : Type :=
| LoadingModel
| ProcessingFiles
| Walked (l : log_line)
| NoDocuments
| CreatingEmbeddings
| SettingUp
| AddingEmbeddings
| Added (n : nat)
| SavedTo (db_path : path)
| TestingDatabase
| Tested (l : test_line)
| DirectoryNotFound (notifications_dir : path)
| BuildingFor (notifications_dir : path)
| WillSaveTo (db_path : path).

(** The state of a run of the script: the world and the output so far. *)
Record run : Type := Run {
  world_of : world;
  printed : list build_line
}.

Definition on_world {A} (op : stateful world A) : stateful run A := fun r =>
  let '(a, w) := op (world_of r) in (a, Run w (printed r)).

Definition say (l : build_line) : stateful run unit := fun r =>
  (Ok tt, Run (world_of r) (printed r ++ [l])).

Definition exists_now (p : path) : stateful run bool := fun r =>
  (Ok (path_exists p (world_of r)), r).

(** [load_embedding_model()] *)
Definition load_embedding_model : result model :=
  let model_name := default "all-MiniLM-L6-v2" (environ "EMBEDDING_MODEL") in
  sentence_transformer model_name.

(** The call of [process_notification_files]: its lines join the output. *)
Definition walk_corpus (notifications_dir : path)
  : stateful run (list string * list pyval * list string) := fun r =>
  let '(lists, out) :=
    process_notification_files float_repr str_repr json_dumps
      (corpus notifications_dir (world_of r)) in
  (lists, Run (world_of r) (printed r ++ (Walked <$> out))).

(** The loop of [test_search] over [enumerate(results['documents'][0])],
    from index [i] on. *)
Fixpoint test_loop (results : raw_results) (i : nat) (docs : list string)
  : stateful run unit :=
  match docs with
  | [] => mret tt
  | doc :: rest =>
      distance ← lift (match distances_entry results with
                       | Missing => Ok 0%float
                       | e => first_at "distances" e i
                       end);
      let similarity := (1 - distance)%float in
      metadata ← lift (first_at "metadatas" (metadatas_entry results) i);
      say (Tested (HitHeader (i + 1)
             (str float_repr str_repr (dict_get metadata "folder" (PStr "unknown")))
             (str float_repr str_repr (dict_get metadata "file_path" (PStr "unknown")))
             similarity));;
      say (Tested (HitSnippet (String.substring 0 100 doc)));;
      test_loop results (S i) rest
  end.

(** [test_search(model, collection)] *)
Definition test_search (m : model) (collection : coll) : stateful run unit :=
  let test_query := "missing or insufficient permissions" in
  say (Tested (Searching test_query));;
  query_embedding ← lift (encode m [test_query]);
  results ← on_world (collection_query collection query_embedding 3);
  found ← lift (match documents_entry results with
                | Missing => Raise (Exn KeyError "documents")
                | Null | Lists [] => Ok None
                | Lists (first :: _) =>
                    Ok (if bool_decide (0 < length first) then Some first else None)
                end);
  match found with
  | Some first =>
      say (Tested (FoundResults (length first)));;
      test_loop results 0 first
  | None => say (Tested NoResults)
  end;;
  say (Tested BlankLine).

(** [try: ... except (ValueError, Exception): pass] *)
Definition ignore_errors (body : stateful run unit) : stateful run unit := fun r =>
  match body r with
  | (Ok tt, r') => (Ok tt, r')
  | (Raise _, r') => (Ok tt, r')
  end.

(** [build_embeddings_database(notifications_dir, db_path)] *)
Definition build_embeddings_database (notifications_dir db_path : path)
  : stateful run unit :=
  say LoadingModel;;
  m ← lift load_embedding_model;
  say ProcessingFiles;;
  lists ← walk_corpus notifications_dir;
  let '(documents, metadatas, ids) := lists in
  match documents with
  | [] => say NoDocuments
  | _ =>
      say CreatingEmbeddings;;
      embedded ← lift (encode m documents);
      say SettingUp;;
      there ← exists_now db_path;
      (if there : bool then on_world (rmtree db_path) else mret tt);;
      on_world (mkdir db_path);;
      cl ← on_world (persistent_client (path_str db_path));
      let collection_name := "managed_notifications" in
      ignore_errors (on_world (delete_collection cl collection_name));;
      collection ← on_world (create_collection cl collection_name
                     (PDict [("description", PStr "Managed service notification logs")]));
      say AddingEmbeddings;;
      on_world (collection_add collection embedded documents metadatas ids);;
      say (Added (length documents));;
      say (SavedTo db_path);;
      say TestingDatabase;;
      test_search m collection
  end.

(** [main()], for the script at [file]. *)
Definition main (file : path) : stateful run unit :=
  let script_dir := parent file in
  let project_root := parent script_dir in
  let notifications_dir := joinpath project_root "managed-notifications" in
  let db_path := joinpath project_root "chroma_db" in
  there ← exists_now notifications_dir;
  if negb there then say (DirectoryNotFound notifications_dir)
  else
    say (BuildingFor notifications_dir);;
    say (WillSaveTo db_path);;
    build_embeddings_database notifications_dir db_path.

(** *** What the build does not do *)

Local Abbreviation walked dir r :=
  (process_notification_files float_repr str_repr json_dumps (corpus dir (world_of r))).

(** X18. With no document to index the build stops after the walk: it prints
    that there is nothing to process, returns, and has called nothing
    that writes: no directory is removed or made, no client opened, no
    collection deleted or created. *)
Theorem empty_corpus_builds_nothing (notifications_dir db_path : path) (r : run)
    (m : model) (metas : list pyval) (idl : list string) :
  load_embedding_model = Ok m ->
  fst (walked notifications_dir r) = Ok ([], metas, idl) ->
  build_embeddings_database notifications_dir db_path r
  = (Ok tt,
     Run (world_of r)
       (printed r ++ [LoadingModel; ProcessingFiles]
        ++ (Walked <$> snd (walked notifications_dir r)) ++ [NoDocuments])).
Proof.
  intros Hload Hwalk. unfold build_embeddings_database.
  unfold mbind, stateful_bind, say, lift, walk_corpus. simpl. rewrite Hload. simpl.
  destruct (walked notifications_dir r) as [lists out]. simpl in *. subst lists.
  cbn [world_of printed]. by rewrite <- !app_assoc.
Qed.

(** X19. The model is loaded, the corpus walked and the documents embedded
    before the old database is removed: when one of the three raises,
    the build raises the same exception and the world is as it was, the
    old database with it. *)
Theorem failure_before_the_store_is_touched (notifications_dir db_path : path) (r : run)
    (e : exn) :
  load_embedding_model = Raise e
  ∨ (∃ m, load_embedding_model = Ok m
       ∧ (fst (walked notifications_dir r) = Raise e
          ∨ ∃ doc docs metas idl,
              fst (walked notifications_dir r) = Ok (doc :: docs, metas, idl)
              ∧ encode m (doc :: docs) = Raise e)) ->
  ∃ out, build_embeddings_database notifications_dir db_path r
         = (Raise e, Run (world_of r) out).
Proof.
  intros Hfail. unfold build_embeddings_database.
  unfold mbind, stateful_bind, say, lift, walk_corpus. simpl.
  destruct Hfail as [->|(m & -> & [Hwalk|(doc & docs & metas & idl & Hwalk & Henc)])];
    simpl; eauto.
  - destruct (walked notifications_dir r) as [lists out]. simpl in *. subst lists. eauto.
  - destruct (walked notifications_dir r) as [lists out]. simpl in *. subst lists.
    simpl. rewrite Henc. eauto.
Qed.

(** X20. Without the directory of the notifications the script prints that it
    is missing and ends: nothing is loaded, walked or written. *)
Theorem missing_corpus_directory_ends_the_script (file : path) (r : run) :
  path_exists (joinpath (parent (parent file)) "managed-notifications") (world_of r) = false ->
  main file r
  = (Ok tt,
     Run (world_of r)
       (printed r
        ++ [DirectoryNotFound (joinpath (parent (parent file)) "managed-notifications")])).
Proof.
  intros Hno. unfold main, mbind, stateful_bind, exists_now, say. by rewrite Hno.
Qed.

(** X26. The script changes the world only when there is something to
    index: if a run of [main] leaves a world other than the one it found,
    then the directory of the notifications was there, the model was
    loaded, the walk returned at least one document and the documents
    were embedded. *)
Theorem world_changes_only_with_documents (file : path) (r : run) :
  world_of (snd (main file r)) ≠ world_of r ->
  path_exists (joinpath (parent (parent file)) "managed-notifications") (world_of r) = true
  ∧ ∃ m doc docs metas idl embedded,
      load_embedding_model = Ok m
      ∧ fst (walked (joinpath (parent (parent file)) "managed-notifications") r)
        = Ok (doc :: docs, metas, idl)
      ∧ encode m (doc :: docs) = Ok embedded.
Proof.
  unfold main, build_embeddings_database.
  unfold mbind at 1 2 3 4 5 6 7 8. unfold stateful_bind at 1 2 3 4 5 6 7 8.
  unfold exists_now at 1, say at 1 2 3 4 5, lift at 1, walk_corpus.
  cbn [world_of printed negb].
  destruct (path_exists _ (world_of r)); cbn [negb world_of printed snd]; [|done].
  destruct load_embedding_model as [m|e]; cbn [world_of printed snd]; [|done].
  destruct (walked _ r) as [[[[[|doc docs] metas] idl]|e] out];
    cbn [world_of printed snd fst]; [done| |done].
  unfold mbind at 1 2. unfold stateful_bind at 1 2. unfold say at 1, lift at 1.
  cbn [world_of printed].
  destruct (encode m (doc :: docs)) as [embedded|e] eqn:Henc; cbn [snd world_of]; [|done].
  intros _. split; [done|]. by exists m, doc, docs, metas, idl, embedded.
Qed.

(** *** The sample search *)

(** An entry that has a first inner list of at least [n] items. *)
Definition has_first {A} (e : entry A) (n : nat) : Prop :=
  ∃ first more, e = Lists (first :: more) ∧ (n ≤ length first)%nat.

(** The distance and the metadata of the hit at index [i] of the first
    query, where the results have them. *)
Definition distance_at (results : raw_results) (i : nat) : float :=
  match distances_entry results with
  | Lists (first :: _) => default 0%float (first !! i)
  | _ => 0%float
  end.

Definition metadata_at (results : raw_results) (i : nat) : list (string * pyval) :=
  match metadatas_entry results with
  | Lists (first :: _) => default [] (first !! i)
  | _ => []
  end.

(** The two lines of the hit at index [i]. *)
Definition hit_lines (results : raw_results) (i : nat) (doc : string) : list build_line :=
  [Tested (HitHeader (i + 1)
     (str float_repr str_repr (dict_get (metadata_at results i) "folder" (PStr "unknown")))
     (str float_repr str_repr (dict_get (metadata_at results i) "file_path" (PStr "unknown")))
     (1 - distance_at results i)%float);
   Tested (HitSnippet (String.substring 0 100 doc))].

Lemma first_at_has_first {A} (key : string) (e : entry A) (n i : nat) (d : A) :
  has_first e n -> (i < n)%nat ->
  first_at key e i
  = Ok (match e with Lists (first :: _) => default d (first !! i) | _ => d end).
Proof.
  intros (first & more & -> & Hn) Hi. simpl.
  destruct (lookup_lt_is_Some_2 first i) as [x Hx]; [lia|]. by rewrite Hx.
Qed.

Lemma test_loop_lines (results : raw_results) (docs : list string) :
  ∀ (i : nat) (r : run),
  has_first (metadatas_entry results) (i + length docs) ->
  distances_entry results = Missing
  ∨ has_first (distances_entry results) (i + length docs) ->
  test_loop results i docs r
  = (Ok tt, Run (world_of r)
              (printed r ++ concat (imap (fun k => hit_lines results (i + k)) docs))).
Proof.
  induction docs as [|doc rest IH]; intros i r Hm Hd.
  - simpl. rewrite app_nil_r. by destruct r.
  - simpl in Hm, Hd.
    assert (Hdist : match distances_entry results with
                    | Missing => Ok 0%float
                    | e => first_at "distances" e i
                    end = Ok (distance_at results i)).
    { unfold distance_at. destruct Hd as [->|(first & more & -> & Hn)]; [done|].
      simpl. destruct (lookup_lt_is_Some_2 first i) as [x Hx]; [lia|]. by rewrite Hx. }
    assert (Hmeta : first_at "metadatas" (metadatas_entry results) i
                    = Ok (metadata_at results i)).
    { unfold metadata_at.
      by rewrite (first_at_has_first "metadatas" _ _ i [] Hm) by lia. }
    cbn [test_loop]. unfold mbind, stateful_bind, lift, say at 1 2.
    rewrite Hdist, Hmeta. cbn [world_of printed].
    rewrite IH.
    + cbn [world_of printed imap concat]. f_equal. f_equal.
      rewrite <- !app_assoc. f_equal. unfold hit_lines at 2.
      rewrite Nat.add_0_r. cbn [app]. do 2 f_equal.
      f_equal. apply imap_ext. intros k x _. simpl. by rewrite Nat.add_succ_r.
    + destruct Hm as (first & more & -> & Hn). exists first, more. split; [done|lia].
    + destruct Hd as [->|(first & more & -> & Hn)]; [by left|].
      right. exists first, more. split; [done|lia].
Qed.

(** X21. When the query finds documents, the sample search prints how many
    and then lists each of them once, in the order of the results: the
    hit at index i is numbered i + 1, is shown with the folder and the
    path of its metadata and with one minus its distance (one when the
    results have no distances), and is followed by the first hundred
    characters of its text. An empty line ends the output. *)
Theorem sample_search_lists_every_hit (m : model) (collection : coll) (r : run)
    (query_embedding : embeddings) (results : raw_results) (w : world)
    (doc : string) (docs : list string) (more : list (list string)) :
  encode m ["missing or insufficient permissions"] = Ok query_embedding ->
  collection_query collection query_embedding 3 (world_of r) = (Ok results, w) ->
  documents_entry results = Lists ((doc :: docs) :: more) ->
  has_first (metadatas_entry results) (S (length docs)) ->
  distances_entry results = Missing
  ∨ has_first (distances_entry results) (S (length docs)) ->
  test_search m collection r
  = (Ok tt,
     Run w (printed r
            ++ [Tested (Searching "missing or insufficient permissions");
                Tested (FoundResults (S (length docs)))]
            ++ concat (imap (hit_lines results) (doc :: docs))
            ++ [Tested BlankLine])).
Proof.
  intros Henc Hquery Hdocs Hm Hd. unfold test_search.
  unfold mbind at 1 2 3 4 5. unfold stateful_bind at 1 2 3 4 5.
  unfold say at 1, lift at 1 2, on_world. cbn [world_of printed].
  rewrite Henc, Hquery, Hdocs. cbn [length bool_decide decide_rel].
  rewrite bool_decide_eq_true_2 by lia.
  unfold mbind, stateful_bind. unfold say at 1. cbn [world_of printed].
  rewrite (test_loop_lines results (doc :: docs) 0); [|done|done].
  unfold say. cbn [world_of printed]. f_equal. f_equal.
  by rewrite <- !app_assoc.
Qed.

(** X22. When the query finds no document (the entry is [None], has no inner
    list, or its first inner list is empty) the sample search says so
    and prints the empty line; the distances and the metadata of the
    results are not read. *)
Theorem sample_search_without_hits (m : model) (collection : coll) (r : run)
    (query_embedding : embeddings) (results : raw_results) (w : world) :
  encode m ["missing or insufficient permissions"] = Ok query_embedding ->
  collection_query collection query_embedding 3 (world_of r) = (Ok results, w) ->
  documents_entry results = Null ∨ documents_entry results = Lists []
  ∨ (∃ more, documents_entry results = Lists ([] :: more)) ->
  test_search m collection r
  = (Ok tt,
     Run w (printed r
            ++ [Tested (Searching "missing or insufficient permissions");
                Tested NoResults; Tested BlankLine])).
Proof.
  intros Henc Hquery Hdocs. unfold test_search.
  unfold mbind, stateful_bind, say, lift, on_world. cbn [world_of printed].
  rewrite Henc, Hquery.
  destruct Hdocs as [->|[->|(more & ->)]]; simpl; by rewrite <- !app_assoc.
Qed.

End Script.

Arguments Run {world path} world_of printed.
Arguments world_of {world path} r.
Arguments printed {world path} r.
Arguments LoadingModel {path}.
Arguments ProcessingFiles {path}.
Arguments Walked {path} l.
Arguments NoDocuments {path}.
Arguments CreatingEmbeddings {path}.
Arguments SettingUp {path}.
Arguments AddingEmbeddings {path}.
Arguments Added {path} n.
Arguments SavedTo {path} db_path.
Arguments TestingDatabase {path}.
Arguments Tested {path} l.
Arguments DirectoryNotFound {path} notifications_dir.
Arguments BuildingFor {path} notifications_dir.
Arguments WillSaveTo {path} db_path.

(** *** The deletion of the old collection *)

Lemma bind_ext {State A B} (m : stateful State A) (k1 k2 : A -> stateful State B)
    (st : State) :
  (∀ a st', k1 a st' = k2 a st') -> (m ≫= k1) st = (m ≫= k2) st.
Proof.
  intros Hk. unfold mbind, stateful_bind. destruct (m st) as [[a|e] st']; [apply Hk|done].
Qed.

Lemma ignore_errors_world {world path : Type} (d1 d2 : stateful world unit)
    (r : run world path) :
  snd (d1 (world_of r)) = snd (d2 (world_of r)) ->
  ignore_errors world path (on_world world path d1) r
  = ignore_errors world path (on_world world path d2) r.
Proof.
  unfold ignore_errors, on_world. intros Hw.
  destruct (d1 (world_of r)) as [[[]|e1] w1], (d2 (world_of r)) as [[[]|e2] w2];
    simpl in Hw; by subst.
Qed.

(** X23. Whether the deletion of the old collection returns or raises makes
    no difference to the build: with two stores whose deletion leaves the
    same world behind, one raising and one not, the build returns the
    same, prints the same and leaves the same world. *)
Theorem outcome_of_the_deletion_is_ignored {world model embeddings client coll path : Type}
    float_repr str_repr json_dumps environ sentence_transformer encode path_str
    path_exists corpus rmtree mkdir persistent_client
    (delete1 delete2 : client -> string -> stateful world unit)
    create_collection collection_add collection_query
    (notifications_dir db_path : path) (r : run world path) :
  (∀ cl name w, snd (delete1 cl name w) = snd (delete2 cl name w)) ->
  build_embeddings_database world model embeddings client coll path
    float_repr str_repr json_dumps environ sentence_transformer encode path_str
    path_exists corpus rmtree mkdir persistent_client delete1
    create_collection collection_add collection_query notifications_dir db_path r
  = build_embeddings_database world model embeddings client coll path
      float_repr str_repr json_dumps environ sentence_transformer encode path_str
      path_exists corpus rmtree mkdir persistent_client delete2
      create_collection collection_add collection_query notifications_dir db_path r.
Proof.
  intros Hsame. unfold build_embeddings_database.
  apply bind_ext; intros _ r1. apply bind_ext; intros m r2.
  apply bind_ext; intros _ r3. apply bind_ext; intros [[documents metadatas] ids] r4.
  destruct documents as [|doc docs]; [done|].
  apply bind_ext; intros _ r5. apply bind_ext; intros embedded r6.
  apply bind_ext; intros _ r7. apply bind_ext; intros there r8.
  apply bind_ext; intros _ r9. apply bind_ext; intros _ r10.
  apply bind_ext; intros cl r11.
  unfold mbind at 1 3. unfold stateful_bind at 1 3.
  by rewrite (ignore_errors_world (delete1 cl "managed_notifications")
                (delete2 cl "managed_notifications") r11 (Hsame _ _ _)).
Qed.

(** *** Examples *)

(** A small world: the directory of the notifications with its files,
    when it is there, and the directory of the database, when it is
    there, with the content of its collection, when it has one. *)
Record disk : Type := Disk {
  notifications : option (list json_file);
  chroma_db : option (option (list string * list pyval * list string))
}.

Definition no_collection : exn :=
  Exn BackendError "Collection managed_notifications does not exist.".

Definition sample_exists (p : list string) (w : disk) : bool :=
  let name := default "" (last p) in
  if String.eqb name "managed-notifications" then bool_decide (is_Some (notifications w))
  else if String.eqb name "chroma_db" then bool_decide (is_Some (chroma_db w))
  else true.

Definition sample_corpus (p : list string) (w : disk) : list json_file :=
  default [] (notifications w).

Definition sample_rmtree (p : list string) : stateful disk unit := fun w =>
  (Ok tt, Disk (notifications w) None).

Definition sample_mkdir (p : list string) : stateful disk unit := fun w =>
  (Ok tt, Disk (notifications w) (Some (default None (chroma_db w)))).

Definition sample_client (p : string) : stateful disk unit := fun w => (Ok tt, w).

Definition sample_delete (cl : unit) (name : string) : stateful disk unit := fun w =>
  match chroma_db w with
  | Some (Some _) => (Ok tt, Disk (notifications w) (Some None))
  | _ => (Raise no_collection, w)
  end.

(** A deletion that leaves the same world and never raises. *)
Definition quiet_delete (cl : unit) (name : string) : stateful disk unit := fun w =>
  (Ok tt, snd (sample_delete cl name w)).

Definition sample_create (cl : unit) (name : string) (metadata : pyval)
  : stateful disk unit := fun w =>
  (Ok tt, Disk (notifications w) (Some (Some ([], [], [])))).

Definition sample_add (c : unit) (embedded documents : list string) (metadatas : list pyval)
  (ids : list string) : stateful disk unit := fun w =>
  (Ok tt, Disk (notifications w) (Some (Some (documents, metadatas, ids)))).

Definition fields (v : pyval) : list (string * pyval) :=
  match v with
  | PDict d => d
  | _ => []
  end.

(** The query answers with the first documents, each at distance 0.25. *)
Definition sample_query (c : unit) (query_embedding : list string) (n_results : Z)
  : stateful disk raw_results := fun w =>
  match chroma_db w with
  | Some (Some (documents, metadatas, _)) =>
      let hits := take (Z.to_nat n_results) documents in
      (Ok (RawResults (Lists [hits]) (Lists [replicate (length hits) 0.25%float])
             (Lists [take (Z.to_nat n_results) (fields <$> metadatas)])), w)
  | _ => (Raise no_collection, w)
  end.

Local Abbreviation build_with delete :=
  (build_embeddings_database disk unit (list string) unit unit (list string)
     Sample.float_repr Sample.str_repr Sample.json_dumps
     (fun _ => None) (fun _ => Ok tt) (fun _ texts => Ok texts)
     (join "/") sample_exists sample_corpus sample_rmtree sample_mkdir sample_client
     delete sample_create sample_add sample_query).

Local Abbreviation sample_build := (build_with sample_delete).

Local Abbreviation sample_main :=
  (main disk unit (list string) unit unit (list string)
     Sample.float_repr Sample.str_repr Sample.json_dumps
     (fun _ => None) (fun _ => Ok tt) (fun _ texts => Ok texts)
     (@removelast string) (fun p name => p ++ [name])
     (join "/") sample_exists sample_corpus sample_rmtree sample_mkdir sample_client
     sample_delete sample_create sample_add sample_query).

Local Abbreviation sample_test :=
  (test_search disk unit (list string) unit (list string)
     Sample.float_repr Sample.str_repr (fun _ texts => Ok texts) sample_query).

Definition old_database : list string * list pyval * list string :=
  (["an older text"], [PDict [("folder", PStr "osd"); ("file_path", PStr "osd/old.json")]],
   ["notification_0"]).

Definition script : list string := ["repo"; "scripts"; "build_embeddings.py"].
Definition notifications_dir : list string := ["repo"; "managed-notifications"].
Definition db_path : list string := ["repo"; "chroma_db"].

(** The script run on a corpus of three files over an older database. *)
Example main_example :
  sample_main script (Run (Disk (Some [malformed; pod_failed; blank]) (Some (Some old_database))) [])
  = (Ok tt,
     Run (Disk (Some [malformed; pod_failed; blank])
            (Some (Some (["Pod ${POD} failed in ${NAMESPACE} pods hcp"],
                         [pod_failed_metadata], ["notification_1"]))))
       [BuildingFor notifications_dir; WillSaveTo db_path;
        LoadingModel; ProcessingFiles;
        Walked (LogFound 3);
        Walked (LogError ["osd"; "b.json"]
                  (Exn JSONDecodeError "Expecting value: line 1 column 1 (char 0)"));
        Walked (LogProcessed 1);
        CreatingEmbeddings; SettingUp; AddingEmbeddings; Added 1; SavedTo db_path;
        TestingDatabase;
        Tested (Searching "missing or insufficient permissions");
        Tested (FoundResults 1);
        Tested (HitHeader 1 "hcp" "hcp/a.json" 0.75);
        Tested (HitSnippet "Pod ${POD} failed in ${NAMESPACE} pods hcp");
        Tested BlankLine]).
Proof. vm_compute. reflexivity. Qed.

Lemma empty_corpus_builds_nothing_witness :
  fst (sample_process [blank; malformed]) = Ok ([], [], [])
  ∧ sample_build notifications_dir db_path
      (Run (Disk (Some [blank; malformed]) (Some (Some old_database))) [])
    = (Ok tt,
       Run (Disk (Some [blank; malformed]) (Some (Some old_database)))
         [LoadingModel; ProcessingFiles;
          Walked (LogFound 2);
          Walked (LogError ["osd"; "b.json"]
                    (Exn JSONDecodeError "Expecting value: line 1 column 1 (char 0)"));
          Walked (LogProcessed 0);
          NoDocuments]).
Proof.
  split; [vm_compute; reflexivity|].
  refine (eq_trans
            (empty_corpus_builds_nothing disk unit (list string) unit unit (list string)
               Sample.float_repr Sample.str_repr Sample.json_dumps
               (fun _ => None) (fun _ => Ok tt) (fun _ texts => Ok texts)
               (join "/") sample_exists sample_corpus sample_rmtree sample_mkdir
               sample_client sample_delete sample_create sample_add sample_query
               notifications_dir db_path
               (Run (Disk (Some [blank; malformed]) (Some (Some old_database))) [])
               tt [] [] eq_refl _) _).
  - vm_compute. reflexivity.
  - vm_compute. reflexivity.
Defined.

Lemma failure_before_the_store_is_touched_witness :
  fst (sample_process [pod_failed; unreadable])
  = Raise (Exn PermissionError "[Errno 13] Permission denied")
  ∧ ∃ out,
      sample_build notifications_dir db_path
        (Run (Disk (Some [pod_failed; unreadable]) (Some (Some old_database))) [])
      = (Raise (Exn PermissionError "[Errno 13] Permission denied"),
         Run (Disk (Some [pod_failed; unreadable]) (Some (Some old_database))) out).
Proof.
  split; [vm_compute; reflexivity|].
  apply (failure_before_the_store_is_touched disk unit (list string) unit unit (list string)
           Sample.float_repr Sample.str_repr Sample.json_dumps
           (fun _ => None) (fun _ => Ok tt) (fun _ texts => Ok texts)
           (join "/") sample_exists sample_corpus sample_rmtree sample_mkdir
           sample_client sample_delete sample_create sample_add sample_query
           notifications_dir db_path
           (Run (Disk (Some [pod_failed; unreadable]) (Some (Some old_database))) [])).
  right. exists tt. split; [reflexivity|]. left. vm_compute. reflexivity.
Defined.

Lemma missing_corpus_directory_ends_the_script_witness :
  sample_exists notifications_dir (Disk None (Some (Some old_database))) = false
  ∧ sample_main script (Run (Disk None (Some (Some old_database))) [])
    = (Ok tt,
       Run (Disk None (Some (Some old_database))) [DirectoryNotFound notifications_dir]).
Proof.
  split; [vm_compute; reflexivity|].
  apply (missing_corpus_directory_ends_the_script disk unit (list string) unit unit
           (list string)
           Sample.float_repr Sample.str_repr Sample.json_dumps
           (fun _ => None) (fun _ => Ok tt) (fun _ texts => Ok texts)
           (@removelast string) (fun p name => p ++ [name])
           (join "/") sample_exists sample_corpus sample_rmtree sample_mkdir
           sample_client sample_delete sample_create sample_add sample_query
           script (Run (Disk None (Some (Some old_database))) [])).
  vm_compute. reflexivity.
Defined.

Lemma world_changes_only_with_documents_witness :
  world_of (snd (sample_main script (Run (Disk (Some [pod_failed]) None) [])))
  ≠ Disk (Some [pod_failed]) None
  ∧ sample_exists notifications_dir (Disk (Some [pod_failed]) None) = true
  ∧ ∃ doc docs metas idl, fst (sample_process [pod_failed]) = Ok (doc :: docs, metas, idl).
Proof.
  assert (Hchanged : world_of (snd (sample_main script (Run (Disk (Some [pod_failed]) None) [])))
                     ≠ Disk (Some [pod_failed]) None).
  { vm_compute. discriminate. }
  split; [exact Hchanged|].
  destruct (world_changes_only_with_documents disk unit (list string) unit unit
              (list string)
              Sample.float_repr Sample.str_repr Sample.json_dumps
              (fun _ => None) (fun _ => Ok tt) (fun _ texts => Ok texts)
              (@removelast string) (fun p name => p ++ [name])
              (join "/") sample_exists sample_corpus sample_rmtree sample_mkdir
              sample_client sample_delete sample_create sample_add sample_query
              script (Run (Disk (Some [pod_failed]) None) []) Hchanged)
    as (Hthere & m & doc & docs & metas & idl & embedded & _ & Hwalk & _).
  split; [exact Hthere|]. exists doc, docs, metas, idl. exact Hwalk.
Defined.

Lemma sample_search_lists_every_hit_witness :
  sample_test tt tt (Run (Disk None (Some (Some old_database))) [])
  = (Ok tt,
     Run (Disk None (Some (Some old_database)))
       [Tested (Searching "missing or insufficient permissions");
        Tested (FoundResults 1);
        Tested (HitHeader 1 "osd" "osd/old.json" 0.75);
        Tested (HitSnippet "an older text");
        Tested BlankLine]).
Proof.
  refine (eq_trans
            (sample_search_lists_every_hit disk unit (list string) unit (list string)
               Sample.float_repr Sample.str_repr (fun _ texts => Ok texts) sample_query
               tt tt (Run (Disk None (Some (Some old_database))) [])
               ["missing or insufficient permissions"]
               (RawResults (Lists [["an older text"]]) (Lists [[0.25%float]])
                  (Lists [[[("folder", PStr "osd"); ("file_path", PStr "osd/old.json")]]]))
               (Disk None (Some (Some old_database)))
               "an older text" [] [] eq_refl eq_refl eq_refl _ _) _).
  - eexists _, _. split; [reflexivity|simpl; lia].
  - right. eexists _, _. split; [reflexivity|simpl; lia].
  - vm_compute. reflexivity.
Defined.

Lemma sample_search_without_hits_witness :
  sample_test tt tt (Run (Disk None (Some (Some ([], [], [])))) [])
  = (Ok tt,
     Run (Disk None (Some (Some ([], [], []))))
       [Tested (Searching "missing or insufficient permissions");
        Tested NoResults; Tested BlankLine]).
Proof.
  refine (sample_search_without_hits disk unit (list string) unit (list string)
            Sample.float_repr Sample.str_repr (fun _ texts => Ok texts) sample_query
            tt tt (Run (Disk None (Some (Some ([], [], [])))) [])
            ["missing or insufficient permissions"]
            (RawResults (Lists [[]]) (Lists [[]]) (Lists [[]]))
            (Disk None (Some (Some ([], [], []))))
            eq_refl eq_refl _).
  right. right. by exists [].
Defined.

Lemma outcome_of_the_deletion_is_ignored_witness :
  (∀ cl name w, snd (sample_delete cl name w) = snd (quiet_delete cl name w))
  ∧ fst (sample_delete tt "managed_notifications" (Disk None (Some None)))
    = Raise no_collection
  ∧ build_with sample_delete notifications_dir db_path
      (Run (Disk (Some [pod_failed]) None) [])
    = build_with quiet_delete notifications_dir db_path
        (Run (Disk (Some [pod_failed]) None) []).
Proof.
  split; [reflexivity|]. split; [reflexivity|].
  apply (outcome_of_the_deletion_is_ignored
           Sample.float_repr Sample.str_repr Sample.json_dumps
           (fun _ => None) (fun _ => Ok tt) (fun _ texts => Ok texts)
           (join "/") sample_exists sample_corpus sample_rmtree sample_mkdir
           sample_client sample_delete quiet_delete sample_create sample_add sample_query
           notifications_dir db_path (Run (Disk (Some [pod_failed]) None) [])).
  reflexivity.
Defined.

End Rebuild.

(** ** The construction of the server: the start of main.py *)

Module Startup.
Import Py Main.

Section Construction.
(** The vectors of the model, the store with the file system it is on,
    and the client of the store. *)
Variable embedding : Type.
Variable store : Type.
Variable client : Type.
Variable float_repr : float -> string.
Variable str_repr : string -> string.
Variable json_loads : string -> result pyval.

(** [SentenceTransformer(name)] gives the model by its [encode];
    [db_path.exists()]; [chromadb.PersistentClient(path)] and
    [client.get_collection(name)]. *)
Variable sentence_transformer : string -> result (list string -> result embedding).
Variable path_exists : string -> store -> bool.
Variable persistent_client : string -> stateful store client.
Variable get_collection : client -> string -> stateful store (Collection embedding store).

Definition database_not_found (db_path : string) : exn :=
  Exn FileNotFoundError
    ("ChromaDB database not found at " +:+ db_path
     +:+ ". Please run scripts/build_embeddings.py first.").

(** [NotificationSearchServer._initialize_database], giving the
    collection it sets. *)
Definition _initialize_database (db_path : string)
  : stateful store (Collection embedding store) := fun st =>
  if negb (path_exists db_path st) then (Raise (database_not_found db_path), st)
  else
    (cl ← persistent_client db_path;
     get_collection cl "managed_notifications") st.

(** [NotificationSearchServer.__init__] *)
Definition __init__ (db_path model_name : string)
  : stateful store (NotificationSearchServer embedding store) :=
  encode ← lift (sentence_transformer model_name);
  coll ← _initialize_database db_path;
  mret {| Main.db_path := db_path; model_encode := encode; collection := Some coll |}.

(** X24. A server is constructed only over a database directory that is
    there, and a constructed server has its collection: its search is
    the query of that collection, never the refusal for a database that
    is not initialized. *)
Theorem constructed_server_has_its_collection (db_path model_name : string)
    (st st' : store) (server : NotificationSearchServer embedding store) :
  __init__ db_path model_name st = (Ok server, st') ->
  path_exists db_path st = true
  ∧ Main.db_path embedding store server = db_path
  ∧ ∃ coll, collection embedding store server = Some coll
      ∧ ∀ problem_statement max_results s,
          search_notifications embedding store float_repr str_repr json_loads
            server problem_statement max_results s
          = (query_embedding ← lift (model_encode embedding store server [problem_statement]);
             results ← query embedding store coll query_embedding max_results;
             lift (format_results float_repr str_repr json_loads results)) s.
Proof.
  unfold __init__, _initialize_database, mbind, stateful_bind, lift, mret, stateful_ret.
  destruct (sentence_transformer model_name) as [encode|e]; [|done].
  destruct (path_exists db_path st); [|done]. simpl.
  destruct (persistent_client db_path st) as [[cl|e] st1]; [|done].
  destruct (get_collection cl "managed_notifications" st1) as [[coll|e] st2]; [|done].
  intros [= <- <-]. split; [done|]. split; [done|]. by exists coll.
Qed.

(** X25. Without the database directory the construction raises
    FileNotFoundError with the path in its message, once the model is
    loaded; the store is as it was, and no client is opened. *)
Theorem server_needs_the_database_directory (db_path model_name : string) (st : store)
    (encode : list string -> result embedding) :
  sentence_transformer model_name = Ok encode ->
  path_exists db_path st = false ->
  __init__ db_path model_name st
  = (Raise (Exn FileNotFoundError
              ("ChromaDB database not found at " +:+ db_path
               +:+ ". Please run scripts/build_embeddings.py first.")), st).
Proof.
  intros Hmodel Hno.
  unfold __init__, _initialize_database, mbind, stateful_bind, lift.
  by rewrite Hmodel, Hno.
Qed.

End Construction.

(** *** Examples *)

(** The store of the examples on a disk that has the database
    directory when the flag is set. *)
Definition disk_collection : Collection unit (bool * list stored) := {|
  query := fun _ n_results st =>
    let hits := take (Z.to_nat n_results) (snd st) in
    (Ok (QueryResult (Some [stored_id <$> hits]) (Some [stored_metadata <$> hits])
           (Some [stored_distance <$> hits]) (Some [stored_document <$> hits])), st);
  count := fun st => (Ok (Z.of_nat (length (snd st))), st);
  get := fun st => (Ok (GetResult (Some (stored_metadata <$> snd st))), st)
|}.

Definition sample_model (name : string) : result (list string -> result unit) :=
  Ok (fun _ => Ok tt).

Definition disk_has (db_path : string) (st : bool * list stored) : bool := fst st.

Definition open_client (db_path : string) : stateful (bool * list stored) unit :=
  fun st => (Ok tt, st).

Definition sample_get_collection (cl : unit) (name : string)
  : stateful (bool * list stored) (Collection unit (bool * list stored)) :=
  fun st => (Ok disk_collection, st).

Definition sample_init :=
  __init__ unit (bool * list stored) unit
    sample_model disk_has open_client sample_get_collection.

Lemma constructed_server_has_its_collection_witness :
  ∃ server,
    sample_init "chroma_db" "all-MiniLM-L6-v2" (true, sample_store)
    = (Ok server, (true, sample_store))
    ∧ Main.db_path unit (bool * list stored) server = "chroma_db"
    ∧ is_Some (collection unit (bool * list stored) server).
Proof.
  eexists. split; [reflexivity|].
  destruct (constructed_server_has_its_collection unit (bool * list stored) unit
              Sample.float_repr Sample.str_repr Sample.json_loads
              sample_model disk_has open_client sample_get_collection
              "chroma_db" "all-MiniLM-L6-v2" (true, sample_store)
              (true, sample_store) _ eq_refl)
    as (_ & Hpath & coll & Hcoll & _).
  split; [exact Hpath|]. exists coll. exact Hcoll.
Defined.

Lemma server_needs_the_database_directory_witness :
  sample_init "chroma_db" "all-MiniLM-L6-v2" (false, sample_store)
  = (Raise (Exn FileNotFoundError
              "ChromaDB database not found at chroma_db. Please run scripts/build_embeddings.py first."),
     (false, sample_store)).
Proof.
  exact (server_needs_the_database_directory unit (bool * list stored) unit
           sample_model disk_has open_client sample_get_collection
           "chroma_db" "all-MiniLM-L6-v2" (false, sample_store) _ eq_refl eq_refl).
Defined.

End Startup.
